(** * The chat gateway: a shallow embedding of the edge handlers

    The repository holds six versions of one edge function, [/api/chat]:
    - [src/api/chat.js]                (module [Chat]),
    - [src/scripts/app.js]             (module [App]),
    - [src/unnamed/part_000]           (module [Plain]),
    - [src/unnamed/part_001]           (module [Stream1]),
    - [src/unnamed/part_002], first file   (module [Allow]),
    - [src/unnamed/part_002], second file  (module [Stream2]).

    Each handler is an asynchronous JavaScript function.  It is embedded as a
    function in a small monad with exceptions (JavaScript [throw]) and a
    state (the log of the upstream calls that were issued, and the request
    counter of [app.js]).  What a handler reads from its surroundings, the
    process environment, the clock and the primitives of the runtime, is
    passed in a record [Env]; the upstream service is a function from the
    call it receives to what it does with it. *)

From Stdlib Require Import String Ascii List ZArith Bool Lia DecimalString.
Import ListNotations.

Local Open Scope string_scope.
Local Open Scope Z_scope.

Set Warnings "-register-all".

(** ** JavaScript values *)

Module Js.

(** The values a parsed JSON document is made of, and [undefined], which a
    read of a missing property yields.  [VNum n] is the number that the
    integer literal [n] denotes, the double nearest to [n]; a number that
    is not integral is carried by the text JavaScript prints for it,
    [VFrac "0.7"].  A character of a string stands for one UTF-16 code
    unit. *)
Inductive value : Type :=
| VUndefined
| VNull
| VBool (b : bool)
| VNum (n : Z)
| VFrac (digits : string)
| VStr (s : string)
| VArr (items : list value)
| VObj (props : list (string * value)).

(** A thrown value: an [Error] object, with its [name] and [message]. *)
Record JsError : Type := mkError { err_name : string; err_message : string }.

Definition Error (msg : string) : JsError := mkError "Error" msg.
Definition TypeError (msg : string) : JsError := mkError "TypeError" msg.

(** The outcome of an expression that may throw. *)
Inductive result (A : Type) : Type :=
| Ok (a : A)
| Throw (e : JsError).
Arguments Ok {A} a.
Arguments Throw {A} e.

(** ToBoolean. *)
Definition truthy (v : value) : bool :=
  match v with
  | VUndefined | VNull => false
  | VBool b => b
  | VNum n => negb (n =? 0)
  | VFrac _ => true
  | VStr s => negb (s =? "")%string
  | VArr _ | VObj _ => true
  end.

(** [a || b] and [a ?? b]. *)
Definition or_else (a b : value) : value := if truthy a then a else b.

Definition nullish (v : value) : bool :=
  match v with VUndefined | VNull => true | _ => false end.

Definition coalesce (a b : value) : value := if nullish a then b else a.

(** A destructuring default, [{ k = d } = o]: it applies to [undefined]
    only. *)
Definition default_to (a d : value) : value :=
  match a with VUndefined => d | _ => a end.

Fixpoint lookup (k : string) (props : list (string * value)) : value :=
  match props with
  | [] => VUndefined
  | (k', v) :: rest => if (k =? k')%string then v else lookup k rest
  end.

Definition int_string (n : Z) : string := NilZero.string_of_int (Z.to_int n).

(** The Number value of a natural number: the double nearest to it, ties
    to the even significand; [None] is Infinity. *)
Definition nearest_double (n : Z) : option Z :=
  if n <? 2 ^ 53 then Some n
  else
    let e := Z.log2 n - 52 in
    let q := n / 2 ^ e in
    let r := n mod 2 ^ e in
    let half := 2 ^ (e - 1) in
    let q' := if (half <? r) || ((r =? half) && Z.odd q) then q + 1 else q in
    if 2 ^ 1024 <=? q' * 2 ^ e then None else Some (q' * 2 ^ e).

Definition rounds_to (x v : Z) : bool :=
  match nearest_double v with
  | Some y => y =? x
  | None => false
  end.

(** The multiple of [10 ^ p] that has the double [x] as its Number value,
    if there is one: the closest to [x] of the two around it. *)
Definition candidate (x : Z) (p : Z) : option Z :=
  let lo := (x / 10 ^ p) * 10 ^ p in
  let hi := lo + 10 ^ p in
  match rounds_to x lo, rounds_to x hi with
  | true, true =>
      Some (if x - lo <? hi - x then lo
            else if hi - x <? x - lo then hi
            else if Z.even (x / 10 ^ p) then lo else hi)
  | true, false => Some lo
  | false, true => Some hi
  | false, false => None
  end.

(** The decimal number with the fewest significant digits that has the
    double [x] as its Number value; the search starts with one digit. *)
Fixpoint shortest (x : Z) (p : nat) : Z :=
  match candidate x (Z.of_nat p) with
  | Some v => v
  | None => match p with O => x | S p' => shortest x p' end
  end.

(** The digits of a number without its trailing zeros. *)
Fixpoint significant (digits : string) : string :=
  match digits with
  | EmptyString => EmptyString
  | String c rest =>
      match significant rest with
      | EmptyString =>
          if (c =? "0")%char then EmptyString else String c EmptyString
      | s => String c s
      end
  end.

(** [1.2345e+21]: the exponent form, of a number of 22 digits or more. *)
Definition exponent_form (v : Z) : string :=
  let digits := int_string v in
  match significant digits with
  | EmptyString => "0"
  | String d EmptyString =>
      String d EmptyString ++ "e+"
        ++ int_string (Z.of_nat (String.length digits) - 1)
  | String d more =>
      String d EmptyString ++ "." ++ more ++ "e+"
        ++ int_string (Z.of_nat (String.length digits) - 1)
  end.

Definition natural_text (n : Z) : string :=
  match nearest_double n with
  | None => "Infinity"
  | Some x =>
      if x <? 2 ^ 53 then int_string x
      else
        let v := shortest x (String.length (int_string x) - 1) in
        if v <? 10 ^ 21 then int_string v else exponent_form v
  end.

(** Number::toString, for the number that the integer [n] denotes: a safe
    integer is printed in full, [2 ^ 64] as [18446744073709552000] and
    [10 ^ 21] as [1e+21]. *)
Definition number_text (n : Z) : string :=
  if n <? 0 then "-" ++ natural_text (- n) else natural_text n.

(** [v.k] for a [v] that is neither [null] nor [undefined], and a [k] that
    is one of the names the handlers read: none of them is an index or a
    method, so that arrays and strings have [length] and nothing else. *)
Definition prop (v : value) (k : string) : value :=
  match v with
  | VObj props => lookup k props
  | VArr items =>
      if (k =? "length")%string then VNum (Z.of_nat (List.length items))
      else VUndefined
  | VStr s =>
      if (k =? "length")%string then VNum (Z.of_nat (String.length s))
      else VUndefined
  | _ => VUndefined
  end.

Definition describe (v : value) : string :=
  match v with VUndefined => "undefined" | _ => "null" end.

(** [v.k] in general: reading a property of [null] or [undefined] throws
    (the message is V8's). *)
Definition get_prop (v : value) (k : string) : result value :=
  if nullish v
  then Throw (TypeError ("Cannot read properties of " ++ describe v
                           ++ " (reading '" ++ k ++ "')"))
  else Ok (prop v k).

(** [v?.k]. *)
Definition opt_prop (v : value) (k : string) : value :=
  if nullish v then VUndefined else prop v k.

Definition isArray (v : value) : bool :=
  match v with VArr _ => true | _ => false end.

Definition typeof_object (v : value) : bool :=
  match v with VNull | VArr _ | VObj _ => true | _ => false end.

Definition typeof_string (v : value) : bool :=
  match v with VStr _ => true | _ => false end.

(** Has the object an own property [k]? *)
Definition own (k : string) (props : list (string * value)) : bool :=
  existsb (fun kv => (fst kv =? k)%string) props.

Definition cannot_convert : JsError :=
  TypeError "Cannot convert object to primitive value".

(** ToString, as a template literal and [String(...)] apply it.  An
    object is converted by its [toString]: the inherited one, unless the
    object has an own property of that name, which in a parsed JSON document
    is no function, and the conversion throws (the message is V8's).  An
    array is converted by [join]. *)
Fixpoint to_string (v : value) : result string :=
  match v with
  | VUndefined => Ok "undefined"
  | VNull => Ok "null"
  | VBool true => Ok "true"
  | VBool false => Ok "false"
  | VNum n => Ok (number_text n)
  | VFrac digits => Ok digits
  | VStr s => Ok s
  | VArr items =>
      let element (x : value) : result string :=
        match x with
        | VUndefined | VNull => Ok ""
        | _ => to_string x
        end in
      (fix join (l : list value) : result string :=
         match l with
         | [] => Ok ""
         | [x] => element x
         | x :: rest =>
             match element x with
             | Throw e => Throw e
             | Ok first =>
                 match join rest with
                 | Throw e => Throw e
                 | Ok others => Ok (first ++ "," ++ others)
                 end
             end
         end) items
  | VObj props =>
      if own "toString" props then Throw cannot_convert
      else Ok "[object Object]"
  end.

(** The text of a value that the code has tested to be a string. *)
Definition string_of (v : value) : string :=
  match v with VStr s => s | _ => "" end.

(** The text that [join] gives an element of an array. *)
Definition element_text (x : value) : result string :=
  match x with
  | VUndefined | VNull => Ok ""
  | _ => to_string x
  end.

(** [list.includes(v)] and [set.has(v)] for a list or set of strings: no
    value but an equal string is found. *)
Definition includes (l : list string) (v : value) : bool :=
  match v with
  | VStr s => existsb (String.eqb s) l
  | _ => false
  end.

(** [s.includes(sub)]. *)
Definition str_includes (s sub : string) : bool :=
  match sub with
  | EmptyString => true
  | _ => match String.index 0 sub s with Some _ => true | None => false end
  end.

(** [v.map(f)], where the expression [v] reads [name]. *)
Definition array_map (name : string) (f : value -> value) (v : value)
  : result (list value) :=
  match v with
  | VArr items => Ok (List.map f items)
  | _ => if nullish v
         then Throw (TypeError ("Cannot read properties of " ++ describe v
                                  ++ " (reading 'map')"))
         else Throw (TypeError (name ++ ".map is not a function"))
  end.

(** [{ ...v }]: the own enumerable properties of [v]. *)
Fixpoint indexed (i : nat) (l : list value) : list (string * value) :=
  match l with
  | [] => []
  | x :: rest => (int_string (Z.of_nat i), x) :: indexed (S i) rest
  end.

Fixpoint chars (s : string) : list value :=
  match s with
  | EmptyString => []
  | String c rest => VStr (String c EmptyString) :: chars rest
  end.

Definition spread (v : value) : list (string * value) :=
  match v with
  | VObj props => props
  | VArr items => indexed 0 items
  | VStr s => indexed 0 (chars s)
  | _ => []
  end.

(** An object literal with a later property of the same name: the later
    value replaces the earlier one, in place. *)
Fixpoint set_prop {A : Type} (k : string) (v : A) (props : list (string * A))
  : list (string * A) :=
  match props with
  | [] => [(k, v)]
  | (k', v') :: rest =>
      if (k =? k')%string then (k, v) :: rest else (k', v') :: set_prop k v rest
  end.

Definition extend {A : Type} (base extra : list (string * A)) : list (string * A) :=
  fold_left (fun acc kv => set_prop (fst kv) (snd kv) acc) extra base.

End Js.

Import Js.

(** ** Requests, responses and the upstream service *)

Module Http.

Definition headers : Type := list (string * string).

(** Header names are compared without regard to case. *)
Definition lower_ascii (c : ascii) : ascii :=
  let n := nat_of_ascii c in
  if ((65 <=? n) && (n <=? 90))%nat then ascii_of_nat (n + 32) else c.

Fixpoint lower (s : string) : string :=
  match s with
  | EmptyString => EmptyString
  | String c rest => String (lower_ascii c) (lower rest)
  end.

(** The values of the headers of a name, in their order. *)
Definition header_values (name : string) (h : headers) : list string :=
  List.map snd
    (List.filter (fun kv => (lower (fst kv) =? lower name)%string) h).

(** [headers.get(name)]: [null] when there is no header of the name, and
    the values of all of them otherwise, joined by a comma and a space. *)
Definition header_get (name : string) (h : headers) : option string :=
  match header_values name h with
  | [] => None
  | values => Some (String.concat ", " values)
  end.

(** The request, as the handlers observe it: [req.method], [req.headers]
    and what [req.json()] yields ([None] when it rejects). *)
Record Request : Type := mkRequest {
  req_method : string;
  req_headers : headers;
  req_json : option value
}.

(** A byte stream: the chunks it delivers, each with the time at which
    it arrives, and the time at which the sender closes it.  Times are in
    milliseconds, counted from the moment the upstream call is issued. *)
Definition chunk : Type := list Byte.byte.

Record Stream : Type := mkStream {
  chunks : list (Z * chunk);
  closes : Z
}.

(** The first argument of [new Response(...)]: [null], the text that
    [JSON.stringify(v)] returns, another text, or a stream that is handed
    over as it is. *)
Inductive Body : Type :=
| NoBody
| Json (v : value)
| Text (s : string)
| Piped (s : Stream).

(** A response: its status, its headers and its body. *)
Record Response : Type := mkResponse {
  status : Z;
  resp_headers : headers;
  body : Body
}.

(** The statuses of a response that has no body (Fetch standard, "null
    body status"). *)
Definition null_body_status (status : Z) : bool :=
  (status =? 101) || (status =? 103) || (status =? 204) || (status =? 205)
  || (status =? 304).

Definition is_null (b : Body) : bool :=
  match b with NoBody => true | _ => false end.

(** [new Response(body, { status, headers })].  As the Fetch standard has
    it, the constructor throws a RangeError for a status outside 200..599,
    and a TypeError for a body other than [null] with a null body status. *)
Definition new_Response (b : Body) (status : Z) (h : headers) : result Response :=
  if (status <? 200) || (599 <? status) then
    Throw (mkError "RangeError"
             "The status provided is outside the range [200, 599]")
  else if null_body_status status && negb (is_null b) then
    Throw (TypeError "Response with null body status cannot have body")
  else Ok (mkResponse status h b).

(** The body made of [JSON.stringify(obj)]: for [undefined] that is
    [undefined], and the response has no body. *)
Definition json_body (obj : value) : Body :=
  match obj with
  | VUndefined => NoBody
  | _ => Json obj
  end.

(** The stream that the body of the response hands over, if it is one. *)
Definition received (r : Response) : option Stream :=
  match body r with Piped s => Some s | _ => None end.

(** The deadline attached to an upstream call. *)
Inductive Signal : Type :=
| AbortIn (ms : Z)      (* an AbortController aborted by a timer *)
| TimeoutIn (ms : Z).   (* AbortSignal.timeout(ms) *)

Definition deadline (s : Signal) : Z :=
  match s with AbortIn ms | TimeoutIn ms => ms end.

(** What a [fetch] rejects with when its signal fires. *)
Definition reason (s : Signal) : JsError :=
  match s with
  | AbortIn _ => mkError "AbortError" "This operation was aborted"
  | TimeoutIn _ => mkError "TimeoutError" "The operation was aborted due to timeout"
  end.





(** An upstream call: the arguments of [fetch]; [payload] is the object
    given to [JSON.stringify]. *)
Record FetchCall : Type := mkFetch {
  url : string;
  authorization : string;
  payload : value;
  signal : option Signal
}.

(** The upstream's response: [status], [body] ([None] for [null]) and what
    [text()] resolves to or rejects with. *)
Record UpResponse : Type := mkUp {
  up_status : Z;
  up_body : option Stream;
  up_text : result string
}.

Definition up_ok (r : UpResponse) : bool :=
  (200 <=? up_status r) && (up_status r <=? 299).

Inductive Settled : Type :=
| Responds (r : UpResponse)
| Fails (e : JsError).      (* a transport failure *)

(** The upstream service: after [latency c] milliseconds the call [c]
    is settled, by a response or by a transport failure.  A call that is
    never settled, and a body whose [text()] is never settled, are not
    described: what is proved of a handler is proved of the runs in which
    the upstream settles what it is asked. *)
Record Upstream : Type := mkUpstream {
  latency : FetchCall -> Z;
  settles : FetchCall -> Settled
}.

(** What the handler reads from its surroundings. *)
Record Env : Type := mkEnv {
  OPENAI_API_KEY : option string;      (* process.env.OPENAI_API_KEY *)
  AbortSignal_timeout : bool;          (* does AbortSignal.timeout exist *)
  now : string;                        (* new Date().toISOString() *)
  JSON_parse : string -> option value; (* None: a SyntaxError *)
  JSON_stringify : value -> string;
  number_gt : string -> Z -> bool      (* ToNumber(s) > n *)
}.

(** [!apiKey] is false for a non-empty string only. *)
Definition credential (env : Env) : option string :=
  match OPENAI_API_KEY env with
  | Some k => if (k =? "")%string then None else Some k
  | None => None
  end.

(** How an upstream call ended. *)
Inductive FetchEnd : Type := Answered | Failed | Aborted.

(** The state a handler changes: the upstream calls issued so far, latest
    first, and the module-level counter of [app.js]. *)
Record World : Type := mkWorld {
  fetches : list (FetchCall * FetchEnd);
  requestCount : Z
}.

Definition M (A : Type) : Type := World -> result A * World.

Definition ret {A : Type} (a : A) : M A := fun w => (Ok a, w).

Definition throw {A : Type} (e : JsError) : M A := fun w => (Throw e, w).

Definition bind {A B : Type} (m : M A) (k : A -> M B) : M B :=
  fun w =>
    match m w with
    | (Ok a, w') => k a w'
    | (Throw e, w') => (Throw e, w')
    end.

(** [try { m } catch (e) { h e }]. *)
Definition try_catch {A : Type} (m : M A) (h : JsError -> M A) : M A :=
  fun w =>
    match m w with
    | (Ok a, w') => (Ok a, w')
    | (Throw e, w') => h e w'
    end.

Definition lift {A : Type} (r : result A) : M A := fun w => (r, w).

Definition logged (c : FetchCall) (e : FetchEnd) (w : World) : World :=
  mkWorld ((c, e) :: fetches w) (requestCount w).

(** The call [c] is left to the upstream: it resolves to the upstream's
    response, or is rejected with the transport failure. *)
Definition settle (up : Upstream) (c : FetchCall) : M UpResponse :=
  fun w =>
    match settles up c with
    | Responds r => (Ok r, logged c Answered w)
    | Fails e => (Throw e, logged c Failed w)
    end.

(** [await fetch(...)]: the call is issued; it is rejected with the
    signal's reason when the deadline passes before the upstream settles
    it, and is left to the upstream otherwise. *)
Definition fetch (up : Upstream) (c : FetchCall) : M UpResponse :=
  fun w =>
    match signal c with
    | Some s =>
        if deadline s <? latency up c
        then (Throw (reason s), logged c Aborted w)
        else settle up c w
    | None => settle up c w
    end.

(** The upstream settles the call before its deadline passes. *)
Definition in_time (up : Upstream) (c : FetchCall) : Prop :=
  match signal c with
  | Some s => latency up c <= deadline s
  | None => True
  end.

(** JavaScript's comparison [v > n] with a number [n] that is a safe
    integer (the limits of the handlers are), so that an integer compares
    as the double nearest to it does.  An array or an object is first
    converted to a primitive: an array to the text that [join] gives it,
    which may throw; an object to [[object Object]], which is no number,
    unless it has an own property [toString], and the conversion throws. *)
Definition gt (env : Env) (v : value) (n : Z) : result bool :=
  match v with
  | VUndefined => Ok false
  | VNull => Ok (0 >? n)
  | VBool b => Ok ((if b then 1 else 0) >? n)
  | VNum m => Ok (m >? n)
  | VFrac digits => Ok (number_gt env digits n)
  | VStr s => Ok (number_gt env s n)
  | VArr _ =>
      match to_string v with
      | Ok text => Ok (number_gt env text n)
      | Throw e => Throw e
      end
  | VObj props =>
      if own "toString" props then Throw cannot_convert else Ok false
  end.

Definition error_body (msg : string) : value := VObj [("error", VStr msg)].

(** The CORS header of a response. *)
Definition has_cors (r : Response) : Prop :=
  header_get "access-control-allow-origin" (resp_headers r) = Some "*".

(** Whatever [m] returns satisfies [P] ([m] may throw). *)
Definition partial {A : Type} (P : A -> Prop) (m : M A) : Prop :=
  forall w : World,
    match m w with
    | (Ok a, _) => P a
    | (Throw _, _) => True
    end.

(** [m] does not throw, and what it returns satisfies [P].  (That it
    returns at all is the upstream's doing, see [Upstream].) *)
Definition total {A : Type} (P : A -> Prop) (m : M A) : Prop :=
  forall w : World,
    match m w with
    | (Ok a, _) => P a
    | (Throw _, _) => False
    end.

End Http.

Import Http.

Declare Scope js_scope.
Notation "x <- m ;; k" := (bind m (fun x => k))
  (at level 61, m at next level, right associativity) : js_scope.
Local Open Scope js_scope.

(** ** [src/api/chat.js] *)

Module Chat.

Definition jsonResponse (obj : value) (status : Z) (extraHeaders : headers)
  : result Response :=
  new_Response (json_body obj) status
    (extend [("content-type", "application/json; charset=utf-8");
             ("access-control-allow-origin", "*")] extraHeaders).

Definition roles : list string := ["system"; "user"; "assistant"].

Definition at_index (i : nat) (what : string) : string :=
  "Message at index " ++ int_string (Z.of_nat i) ++ what.

(** The loop of [validateMessages], from index [i] on. *)
Fixpoint check_messages (i : nat) (messages : list value) : option string :=
  match messages with
  | [] => None
  | msg :: rest =>
      if negb (truthy msg) || negb (typeof_object msg) then
        Some (at_index i " must be an object")
      else if negb (truthy (prop msg "role"))
              || negb (typeof_string (prop msg "role")) then
        Some (at_index i " must have a 'role' string")
      else if negb (truthy (prop msg "content"))
              || negb (typeof_string (prop msg "content")) then
        Some (at_index i " must have a 'content' string")
      else if negb (includes roles (prop msg "role")) then
        Some (at_index i (" has invalid role '"
                            ++ string_of (prop msg "role") ++ "'"))
      else check_messages (S i) rest
  end.

(** [None] is the [null] the source returns for valid messages. *)
Definition validateMessages (messages : value) : option string :=
  match messages with
  | VArr items =>
      if (List.length items =? 0)%nat then
        Some "Messages array cannot be empty"
      else if (100 <? List.length items)%nat then
        Some "Too many messages (max 100)"
      else check_messages 0 items
  | _ => Some "Messages must be an array"
  end.

Definition validModels : list string :=
  ["gpt-4"; "gpt-4-turbo"; "gpt-4-mini"; "gpt-3.5-turbo"; "gpt-4o";
   "gpt-4.1-mini"].

Definition validateModel (model : value) : bool := includes validModels model.

Definition defaultModel : string := "gpt-4-mini".

Definition corsHeaders : headers :=
  [("access-control-allow-origin", "*");
   ("access-control-allow-methods", "POST, GET, OPTIONS");
   ("access-control-allow-headers",
    "content-type, authorization, x-requested-with")].

(** What both upstream paths do with the upstream's response. *)
Definition relay (env : Env) (upstream : UpResponse) : M Response :=
  responseText <- lift (up_text upstream) ;;
  match (if (responseText =? "")%string then Some VNull
         else JSON_parse env responseText) with
  | None =>
      lift (jsonResponse (error_body "Invalid response from AI service") 502 [])
  | Some responseData =>
      if negb (up_ok upstream) then
        let errorDetail :=
          or_else
            (or_else (opt_prop (opt_prop responseData "error") "message")
                     (VStr responseText))
            (VStr ("HTTP " ++ int_string (up_status upstream))) in
        shown <- lift (to_string errorDetail) ;;
        lift (jsonResponse (error_body ("AI service error: " ++ shown))
                502 [])
      else lift (jsonResponse responseData 200 [])
  end.

(** The [catch] clause of both upstream paths. *)
Definition on_fetch_error (fetchError : JsError) : M Response :=
  if (err_name fetchError =? "AbortError")%string
  then lift (jsonResponse (error_body "Request timeout") 408 [])
  else lift (jsonResponse (error_body "Network error") 503 []).

(** A message in the form of the Responses API. *)
Definition input_of (msg : value) : value :=
  VObj [("role", prop msg "role");
        ("content", VArr [VObj [("type", VStr "text");
                                ("text", prop msg "content")]])].

(** The call of the Chat Completions path, with its deadline of 30 s. *)
Definition completions (apiKey : string) (model messages : value) : FetchCall :=
  mkFetch "https://api.openai.com/v1/chat/completions"
    ("Bearer " ++ apiKey)
    (VObj [("model", model); ("messages", messages); ("stream", VBool false)])
    (Some (AbortIn 30000)).

(** The call of the Responses path, with the same deadline. *)
Definition responses (apiKey : string) (model : value) (inputs : list value)
    (previous_response_id : value) : FetchCall :=
  mkFetch "https://api.openai.com/v1/responses"
    ("Bearer " ++ apiKey)
    (VObj ([("model", model); ("input", VArr inputs)]
             ++ (if truthy previous_response_id
                 then [("previous_response_id", previous_response_id)]
                 else [])))
    (Some (AbortIn 30000)).

(** The content-type guard: [contentType?.includes('application/json')]. *)
Definition is_json (req : Request) : bool :=
  match header_get "content-type" (req_headers req) with
  | Some contentType => str_includes contentType "application/json"
  | None => false
  end.

Definition handler (env : Env) (up : Upstream) (req : Request) : M Response :=
  try_catch
    (let method := req_method req in
     if (method =? "OPTIONS")%string then
       lift (new_Response NoBody 204
               (extend corsHeaders [("access-control-max-age", "86400")]))
     else if (method =? "GET")%string then
       lift (jsonResponse
               (VObj [("ok", VBool true);
                      ("message",
                       VStr "Chat endpoint is operational. Use POST for requests.");
                      ("timestamp", VStr (now env))])
               200 [])
     else if negb (method =? "POST")%string then
       lift (jsonResponse (error_body "Method not allowed") 405 [])
     else if negb (is_json req) then
       lift (jsonResponse
               (error_body "Content-Type must be application/json") 415 [])
     else
       match credential env with
       | None =>
           lift (jsonResponse (error_body "Server configuration error") 500 [])
       | Some apiKey =>
           match req_json req with
           | None =>
               lift (jsonResponse
                       (error_body "Invalid JSON in request body") 400 [])
           | Some parsed =>
               let body := coalesce parsed (VObj []) in
               let messages := prop body "messages" in
               let model := default_to (prop body "model") (VStr defaultModel) in
               let useResponsesApi :=
                 default_to (prop body "useResponsesApi") (VBool false) in
               let previous_response_id := prop body "previous_response_id" in
               match validateMessages messages with
               | Some messageValidationError =>
                   lift (jsonResponse
                           (error_body ("Invalid messages: "
                                          ++ messageValidationError))
                           400 [])
               | None =>
                   if negb (validateModel model) then
                     shown <- lift (to_string model) ;;
                     lift (jsonResponse
                             (error_body ("Unsupported model: " ++ shown))
                             400 [])
                   else if negb (truthy useResponsesApi) then
                     try_catch
                       (upstreamResponse <-
                          fetch up (completions apiKey model messages) ;;
                        relay env upstreamResponse)
                       on_fetch_error
                   else
                     try_catch
                       (inputs <- lift (array_map "messages" input_of messages) ;;
                        response <-
                          fetch up (responses apiKey model inputs
                                      previous_response_id) ;;
                        relay env response)
                       on_fetch_error
               end
           end
       end)
    (fun error =>
       lift (jsonResponse (error_body "Internal server error") 500 [])).

(** The rejection of a model: status 400 and the error
    [Unsupported model: ...]. *)
Definition rejects_model (resp : Response) : Prop :=
  status resp = 400
  /\ exists model : string,
       body resp = Json (error_body ("Unsupported model: " ++ model)).

End Chat.

(** ** [src/scripts/app.js] *)

Module App.

Definition ALLOWED_MODELS : list string :=
  ["gpt-4.1-mini"; "gpt-4.1"; "gpt-4o-mini"].
Definition MAX_MESSAGE_LENGTH : Z := 500.
Definition REQUEST_TIMEOUT : Z := 30000.
Definition defaultModel : string := "gpt-4.1-mini".

Definition createResponse (obj : value) (status : Z) (extraHeaders : headers)
  : result Response :=
  new_Response (json_body obj) status
    (extend [("content-type", "application/json; charset=utf-8");
             ("access-control-allow-origin", "*")] extraHeaders).

(** What [validateRequest] returns: [{ error, status }], or
    [{ messages, model, error: null }]. *)
Inductive Validation : Type :=
| Invalid (error : string) (status : Z)
| Valid (messages model : value).

Definition too_long : string :=
  "Message content exceeds maximum length of "
    ++ int_string MAX_MESSAGE_LENGTH ++ " characters".

(** The loop over the messages: [Ok true] when it returns the length
    error, [Ok false] when it runs to its end. *)
Fixpoint exceeds (env : Env) (messages : list value) : result bool :=
  match messages with
  | [] => Ok false
  | message :: rest =>
      match get_prop message "content" with
      | Throw e => Throw e
      | Ok content =>
          if truthy content then
            match gt env (prop content "length") MAX_MESSAGE_LENGTH with
            | Throw e => Throw e
            | Ok true => Ok true
            | Ok false => exceeds env rest
            end
          else exceeds env rest
      end
  end.

Definition validateRequest (env : Env) (payload : value) : result Validation :=
  let source := or_else payload (VObj []) in
  let messages := prop source "messages" in
  let requestedModel := prop source "model" in
  match messages with
  | VArr items =>
      match exceeds env items with
      | Throw e => Throw e
      | Ok true => Ok (Invalid too_long 400)
      | Ok false =>
          let model :=
            if includes ALLOWED_MODELS requestedModel then requestedModel
            else VStr defaultModel in
          Ok (Valid messages model)
      end
  | _ => Ok (Invalid "messages must be an array" 400)
  end.

Definition createOpenAIRequest (apiKey : string) (model messages : value)
    (signal : option Signal) : FetchCall :=
  mkFetch "https://api.openai.com/v1/chat/completions"
    ("Bearer " ++ apiKey)
    (VObj [("model", model); ("messages", messages);
           ("temperature", VFrac "0.7"); ("max_tokens", VNum 1000)])
    signal.

(** What [handleOpenAIResponse] returns: [{ error, status: 502 }], or
    [{ data, status: 200 }]. *)
Inductive Handled : Type :=
| UpstreamError (error : string) (status : Z)
| Data (data : value).

Definition handleOpenAIResponse (env : Env) (upstream : UpResponse) : M Handled :=
  text <- lift (up_text upstream) ;;
  let data :=
    match (if (text =? "")%string then Some VNull else JSON_parse env text) with
    | Some d => d
    | None => VNull
    end in
  if negb (up_ok upstream) then
    let detail :=
      or_else
        (or_else (opt_prop (opt_prop data "error") "message") (VStr text))
        (VStr ("Upstream HTTP " ++ int_string (up_status upstream))) in
    shown <- lift (to_string detail) ;;
    ret (UpstreamError ("OpenAI error: " ++ shown) 502)
  else ret (Data data).

Definition handleCORS : result Response :=
  new_Response NoBody 204
    [("access-control-allow-origin", "*");
     ("access-control-allow-methods", "POST, GET, OPTIONS, DELETE");
     ("access-control-allow-headers",
      "content-type, authorization, x-requested-with");
     ("access-control-max-age", "86400")].

Definition handleHealthCheck (env : Env) : result Response :=
  createResponse
    (VObj [("ok", VBool true);
           ("message", VStr "chat endpoint is live. use POST.");
           ("timestamp", VStr (now env));
           ("features",
            VObj [("allowed_models", VArr (List.map VStr ALLOWED_MODELS));
                  ("max_message_length", VNum MAX_MESSAGE_LENGTH);
                  ("timeout", VNum REQUEST_TIMEOUT)])])
    200 [].

Definition handleError (env : Env) (error : JsError) (status : Z)
  : result Response :=
  let errorMessage :=
    if (err_message error =? "")%string then "Unknown server error"
    else err_message error in
  createResponse
    (VObj [("error", VStr errorMessage); ("timestamp", VStr (now env))])
    status [].

Definition trackRequest : M unit :=
  fun w => (Ok tt, mkWorld (fetches w) (requestCount w + 1)).

Definition handler (env : Env) (up : Upstream) (req : Request) : M Response :=
  let method :=
    if (req_method req =? "")%string then "GET" else req_method req in
  try_catch
    (if (method =? "OPTIONS")%string then lift handleCORS
     else if (method =? "GET")%string then lift (handleHealthCheck env)
     else if negb (method =? "POST")%string then
       lift (createResponse (error_body "Method not allowed") 405 [])
     else
       match credential env with
       | None => lift (handleError env (Error "OPENAI_API_KEY is not set") 500)
       | Some apiKey =>
           match req_json req with
           | None => lift (handleError env (Error "Invalid JSON body") 400)
           | Some payload =>
               validation <- lift (validateRequest env payload) ;;
               match validation with
               | Invalid error status =>
                   lift (handleError env (Error error) status)
               | Valid messages model =>
                   let controller :=
                     if AbortSignal_timeout env
                     then Some (TimeoutIn REQUEST_TIMEOUT) else None in
                   upstream <-
                     fetch up (createOpenAIRequest apiKey model messages
                                 controller) ;;
                   response <- handleOpenAIResponse env upstream ;;
                   match response with
                   | UpstreamError error status =>
                       lift (handleError env (Error error) status)
                   | Data data =>
                       _ <- trackRequest ;;
                       lift (createResponse
                               (VObj (set_prop "_metadata"
                                        (VObj [("model_used", model);
                                               ("timestamp", VStr (now env));
                                               ("message_count",
                                                prop messages "length")])
                                        (spread data)))
                               200 [])
                   end
               end
           end
       end)
    (fun error =>
       if (err_name error =? "TimeoutError")%string
          || (err_name error =? "AbortError")%string
       then lift (handleError env (Error "Request timeout") 408)
       else lift (handleError env error 500)).

End App.

(** ** [src/unnamed/part_000] *)

Module Plain.

Definition json (obj : value) (status : Z) (extraHeaders : headers) : result Response :=
  new_Response (json_body obj) status
    (extend [("content-type", "application/json; charset=utf-8");
             ("access-control-allow-origin", "*")] extraHeaders).

Definition defaultModel : string := "gpt-4.1-mini".

(** [AbortSignal.timeout ? AbortSignal.timeout(ms) : undefined]. *)
Definition timeout_signal (env : Env) (ms : Z) : option Signal :=
  if AbortSignal_timeout env then Some (TimeoutIn ms) else None.

(** What both upstream paths do with the upstream's response. *)
Definition relay (env : Env) (upstream : UpResponse) : M Response :=
  text <- lift (up_text upstream) ;;
  let data :=
    match (if (text =? "")%string then Some VNull else JSON_parse env text) with
    | Some d => d
    | None => VNull
    end in
  if negb (up_ok upstream) then
    let detail :=
      or_else
        (or_else (opt_prop (opt_prop data "error") "message") (VStr text))
        (VStr ("Upstream HTTP " ++ int_string (up_status upstream))) in
    shown <- lift (to_string detail) ;;
    lift (json (error_body ("OpenAI error: " ++ shown)) 502 [])
  else lift (json data 200 []).

Definition handler (env : Env) (up : Upstream) (req : Request) : M Response :=
  try_catch
    (let method := req_method req in
     if (method =? "OPTIONS")%string then
       lift (new_Response NoBody 204
               [("access-control-allow-origin", "*");
                ("access-control-allow-methods", "POST, GET, OPTIONS");
                ("access-control-allow-headers", "content-type, authorization");
                ("access-control-max-age", "86400")])
     else if (method =? "GET")%string then
       lift (json (VObj [("ok", VBool true);
                         ("message", VStr "chat endpoint is live. use POST.")])
               200 [])
     else if negb (method =? "POST")%string then
       lift (json (error_body "Method not allowed") 405 [])
     else
       match credential env with
       | None => lift (json (error_body "OPENAI_API_KEY is not set") 500 [])
       | Some apiKey =>
           match req_json req with
           | None => lift (json (error_body "Invalid JSON body") 400 [])
           | Some parsed =>
               let body := coalesce parsed (VObj []) in
               let messages := prop body "messages" in
               let model := default_to (prop body "model") (VStr defaultModel) in
               let useResponsesApi :=
                 default_to (prop body "useResponsesApi") (VBool false) in
               let previous_response_id := prop body "previous_response_id" in
               if negb (isArray messages) then
                 lift (json
                         (error_body
                            "messages must be an array of Chat Completions-style messages")
                         400 [])
               else if negb (truthy useResponsesApi) then
                 upstream <-
                   fetch up
                     (mkFetch "https://api.openai.com/v1/chat/completions"
                        ("Bearer " ++ apiKey)
                        (VObj [("model", model); ("messages", messages)])
                        (timeout_signal env 30000)) ;;
                 relay env upstream
               else
                 let inputs :=
                   VArr [VObj [("role", VStr "user");
                               ("content",
                                VArr [VObj [("type", VStr "text");
                                            ("text",
                                             VStr (JSON_stringify env messages))]])]] in
                 resp <-
                   fetch up
                     (mkFetch "https://api.openai.com/v1/responses"
                        ("Bearer " ++ apiKey)
                        (VObj ([("model", model); ("input", inputs)]
                                 ++ (if truthy previous_response_id
                                     then [("previous_response_id",
                                            previous_response_id)]
                                     else [])))
                        (timeout_signal env 30000)) ;;
                 relay env resp
           end
       end)
    (fun e =>
       lift (json (VObj [("error",
                          or_else (VStr (err_message e))
                                  (VStr "Unknown server error"))])
               500 [])).

End Plain.

(** ** [src/unnamed/part_002], first file *)

Module Allow.

Definition ALLOWED_MODELS : list string :=
  ["gpt-4.1-mini"; "gpt-4.1"; "gpt-4o-mini"].
Definition defaultModel : string := "gpt-4.1-mini".

Definition json (obj : value) (status : Z) (extraHeaders : headers) : result Response :=
  new_Response (json_body obj) status
    (extend [("content-type", "application/json; charset=utf-8");
             ("access-control-allow-origin", "*")] extraHeaders).

Definition handler (env : Env) (up : Upstream) (req : Request) : M Response :=
  try_catch
    (let method :=
       if (req_method req =? "")%string then "GET" else req_method req in
     if (method =? "OPTIONS")%string then
       lift (new_Response NoBody 204
               [("access-control-allow-origin", "*");
                ("access-control-allow-methods", "POST, GET, OPTIONS");
                ("access-control-allow-headers", "content-type, authorization");
                ("access-control-max-age", "86400")])
     else if (method =? "GET")%string then
       lift (json (VObj [("ok", VBool true);
                         ("message", VStr "chat endpoint is live. use POST.")])
               200 [])
     else if negb (method =? "POST")%string then
       lift (json (error_body "Method not allowed") 405 [])
     else
       match credential env with
       | None => lift (json (error_body "OPENAI_API_KEY is not set") 500 [])
       | Some apiKey =>
           match req_json req with
           | None => lift (json (error_body "Invalid JSON body") 400 [])
           | Some payload =>
               let source := or_else payload (VObj []) in
               let messages := prop source "messages" in
               let requestedModel := prop source "model" in
               if negb (isArray messages) then
                 lift (json (error_body "messages must be an array") 400 [])
               else
                 let model :=
                   if includes ALLOWED_MODELS requestedModel then requestedModel
                   else VStr defaultModel in
                 let controller :=
                   if AbortSignal_timeout env
                   then Some (TimeoutIn 30000) else None in
                 upstream <-
                   fetch up
                     (mkFetch "https://api.openai.com/v1/chat/completions"
                        ("Bearer " ++ apiKey)
                        (VObj [("model", model); ("messages", messages)])
                        controller) ;;
                 text <- lift (up_text upstream) ;;
                 let data :=
                   match (if (text =? "")%string then Some VNull
                          else JSON_parse env text) with
                   | Some d => d
                   | None => VUndefined
                   end in
                 if negb (up_ok upstream) then
                   let detail :=
                     or_else
                       (or_else (opt_prop (opt_prop data "error") "message")
                                (VStr text))
                       (VStr ("Upstream HTTP "
                                ++ int_string (up_status upstream))) in
                   shown <- lift (to_string detail) ;;
                   lift (json (error_body ("OpenAI error: " ++ shown)) 502 [])
                 else lift (json data 200 [])
           end
       end)
    (fun e =>
       lift (json (VObj [("error",
                          or_else (VStr (err_message e))
                                  (VStr "Unknown server error"))])
               500 [])).

End Allow.

(** ** [src/unnamed/part_001] *)

Module Stream1.

(** The helper for the responses that are not streamed. *)
Definition response (body : value) (status : Z) (extraHeaders : headers)
  : result Response :=
  let isJson := typeof_object body && negb (nullish body) in
  let content :=
    if isJson then Ok (Json body)
    else match to_string (or_else body (VStr "")) with
         | Ok text => Ok (Text text)
         | Throw e => Throw e
         end in
  let contentType := if isJson then "application/json" else "text/plain" in
  match content with
  | Throw e => Throw e
  | Ok content =>
      new_Response content status
        (extend [("Content-Type", contentType);
                 ("Access-Control-Allow-Origin", "*")] extraHeaders)
  end.

Definition model : string := "gpt-3.5-turbo".

Definition chatPayload (messages : value) : value :=
  VObj [("model", VStr model); ("messages", messages); ("stream", VBool true)].

(** The upstream call, with the longer deadline [ctrl] of a streamed
    answer. *)
Definition upstream_call (env : Env) (apiKey : string) (messages : value)
  : FetchCall :=
  let ctrl :=
    if AbortSignal_timeout env then Some (TimeoutIn 60000) else None in
  mkFetch "https://api.openai.com/v1/chat/completions"
    ("Bearer " ++ apiKey)
    (chatPayload messages)
    ctrl.

(** The response that pipes the upstream's stream to the caller. *)
Definition piped (stream : Stream) : result Response :=
  new_Response (Piped stream) 200
    [("Content-Type", "text/event-stream");
     ("Cache-Control", "no-cache, no-transform");
     ("Connection", "keep-alive");
     ("Access-Control-Allow-Origin", "*")].

(** The branch taken when the upstream reports an error or has no body. *)
Definition upstream_error (env : Env) (upstream : UpResponse) : M Response :=
  data <-
    try_catch
      (text <- lift (up_text upstream) ;;
       if (text =? "")%string
       then ret (VObj [("message", VStr "Unknown upstream error.")])
       else match JSON_parse env text with
            | Some d => ret d
            | None => throw (mkError "SyntaxError" "Unexpected token")
            end)
      (fun e =>
         ret (VObj [("message", VStr "Error parsing OpenAI error response.")])) ;;
  error <- lift (get_prop data "error") ;;
  let detail :=
    or_else
      (or_else (opt_prop error "message") (prop data "message"))
      (VStr ("Upstream HTTP " ++ int_string (up_status upstream))) in
  shown <- lift (to_string detail) ;;
  lift (response (error_body ("OpenAI error: " ++ shown)) 502 []).

Definition handler (env : Env) (up : Upstream) (req : Request) : M Response :=
  let method :=
    if (req_method req =? "")%string then "GET" else req_method req in
  if (method =? "OPTIONS")%string then
    lift (response VNull 204
            [("Access-Control-Allow-Methods", "POST, GET, OPTIONS");
             ("Access-Control-Allow-Headers",
              "content-type, authorization, accept");
             ("Access-Control-Allow-Origin", "*")])
  else
    try_catch
      (if (method =? "GET")%string then
         lift (response
                 (VObj [("ok", VBool true);
                        ("message",
                         VStr "Chat streaming endpoint is live. Use POST.")])
                 200 [])
       else if negb (method =? "POST")%string then
         lift (response (error_body "Method not allowed") 405 [])
       else
         match credential env with
         | None =>
             lift (response
                     (error_body
                        "OPENAI_API_KEY is not set in Vercel environment variables")
                     500 [])
         | Some apiKey =>
             match req_json req with
             | None => lift (response (error_body "Invalid JSON body") 400 [])
             | Some payload =>
                 let messages := prop (or_else payload (VObj [])) "messages" in
                 if negb (isArray messages)
                    || (match prop messages "length" with
                        | VNum 0 => true
                        | _ => false
                        end) then
                   lift (response
                           (error_body "messages must be a non-empty array")
                           400 [])
                 else
                   upstream <- fetch up (upstream_call env apiKey messages) ;;
                   match up_body upstream with
                   | Some stream =>
                       if up_ok upstream then lift (piped stream)
                       else upstream_error env upstream
                   | None => upstream_error env upstream
                   end
             end
         end)
      (fun e =>
         lift (response
                 (VObj [("error",
                         or_else (VStr (err_message e))
                                 (VStr "Unknown server error during request processing"))])
                 500 [])).

End Stream1.

(** ** [src/unnamed/part_002], second file *)

Module Stream2.

Definition ALLOWED_MODELS : list string :=
  ["gpt-4o"; "gpt-4-turbo"; "gpt-3.5-turbo"].
Definition MAX_MESSAGE_LENGTH : Z := 500.
Definition REQUEST_TIMEOUT : Z := 60000.
Definition defaultModel : string := "gpt-3.5-turbo".

Definition createJsonResponse (obj : value) (status : Z)
    (extraHeaders : headers) : result Response :=
  new_Response (json_body obj) status
    (extend [("content-type", "application/json; charset=utf-8");
             ("access-control-allow-origin", "*")] extraHeaders).

Inductive Validation : Type :=
| Invalid (error : string) (status : Z)
| Valid (messages model : value).

Definition too_long : string :=
  "Message content exceeds maximum length of "
    ++ int_string MAX_MESSAGE_LENGTH ++ " characters".

Fixpoint exceeds (env : Env) (messages : list value) : result bool :=
  match messages with
  | [] => Ok false
  | message :: rest =>
      match get_prop message "content" with
      | Throw e => Throw e
      | Ok content =>
          if truthy content then
            match gt env (prop content "length") MAX_MESSAGE_LENGTH with
            | Throw e => Throw e
            | Ok true => Ok true
            | Ok false => exceeds env rest
            end
          else exceeds env rest
      end
  end.

Definition validateRequest (env : Env) (payload : value) : result Validation :=
  let source := or_else payload (VObj []) in
  let messages := prop source "messages" in
  let requestedModel := prop source "model" in
  match messages with
  | VArr [] => Ok (Invalid "messages must be a non-empty array" 400)
  | VArr items =>
      match exceeds env items with
      | Throw e => Throw e
      | Ok true => Ok (Invalid too_long 400)
      | Ok false =>
          let model :=
            if includes ALLOWED_MODELS requestedModel then requestedModel
            else VStr defaultModel in
          Ok (Valid messages model)
      end
  | _ => Ok (Invalid "messages must be a non-empty array" 400)
  end.

Definition createOpenAIRequest (apiKey : string) (model messages : value)
    (signal : option Signal) : FetchCall :=
  mkFetch "https://api.openai.com/v1/chat/completions"
    ("Bearer " ++ apiKey)
    (VObj [("model", model); ("messages", messages); ("stream", VBool true);
           ("temperature", VFrac "0.7"); ("max_tokens", VNum 1000)])
    signal.

Definition handleCORS : result Response :=
  new_Response NoBody 204
    [("access-control-allow-origin", "*");
     ("access-control-allow-methods", "POST, GET, OPTIONS, DELETE");
     ("access-control-allow-headers",
      "content-type, authorization, x-requested-with");
     ("access-control-max-age", "86400")].

Definition handleHealthCheck (env : Env) : result Response :=
  createJsonResponse
    (VObj [("ok", VBool true);
           ("message",
            VStr "chat endpoint is live and supports streaming. use POST.");
           ("timestamp", VStr (now env));
           ("features",
            VObj [("allowed_models", VArr (List.map VStr ALLOWED_MODELS));
                  ("max_message_length", VNum MAX_MESSAGE_LENGTH);
                  ("timeout", VNum REQUEST_TIMEOUT)])])
    200 [].

Definition handleError (env : Env) (error : JsError) (status : Z)
  : result Response :=
  let errorMessage :=
    if (err_message error =? "")%string then "Unknown server error"
    else err_message error in
  createJsonResponse
    (VObj [("error", VStr errorMessage); ("timestamp", VStr (now env))])
    status [].

Definition piped (stream : Stream) : result Response :=
  new_Response (Piped stream) 200
    [("Content-Type", "text/event-stream");
     ("Cache-Control", "no-cache, no-transform");
     ("Connection", "keep-alive");
     ("Access-Control-Allow-Origin", "*")].

(** The branch taken when the upstream reports an error or has no body. *)
Definition upstream_error (env : Env) (upstream : UpResponse) : M Response :=
  text <- try_catch (lift (up_text upstream)) (fun e => ret "") ;;
  let data :=
    match (if (text =? "")%string then Some VNull else JSON_parse env text) with
    | Some d => d
    | None => VNull
    end in
  let detail :=
    or_else
      (or_else (opt_prop (opt_prop data "error") "message") (VStr text))
      (VStr ("Upstream HTTP " ++ int_string (up_status upstream))) in
  shown <- lift (to_string detail) ;;
  lift (handleError env (Error ("OpenAI error: " ++ shown)) 502).

Definition handler (env : Env) (up : Upstream) (req : Request) : M Response :=
  let method :=
    if (req_method req =? "")%string then "GET" else req_method req in
  try_catch
    (if (method =? "OPTIONS")%string then lift handleCORS
     else if (method =? "GET")%string then lift (handleHealthCheck env)
     else if negb (method =? "POST")%string then
       lift (createJsonResponse (error_body "Method not allowed") 405 [])
     else
       match credential env with
       | None => lift (handleError env (Error "OPENAI_API_KEY is not set") 500)
       | Some apiKey =>
           match req_json req with
           | None => lift (handleError env (Error "Invalid JSON body") 400)
           | Some payload =>
               validation <- lift (validateRequest env payload) ;;
               match validation with
               | Invalid error status =>
                   lift (handleError env (Error error) status)
               | Valid messages model =>
                   controller <-
                     (if AbortSignal_timeout env
                      then ret (TimeoutIn REQUEST_TIMEOUT)
                      else throw (TypeError
                                    "AbortSignal.timeout is not a function")) ;;
                   upstream <-
                     fetch up (createOpenAIRequest apiKey model messages
                                 (Some controller)) ;;
                   match up_body upstream with
                   | Some stream =>
                       if up_ok upstream then lift (piped stream)
                       else upstream_error env upstream
                   | None => upstream_error env upstream
                   end
               end
           end
       end)
    (fun error =>
       if (err_name error =? "TimeoutError")%string
          || (err_name error =? "AbortError")%string
       then lift (handleError env (Error "Request timeout") 408)
       else lift (handleError env error 500)).

End Stream2.

(** ** Sample data

    A configured and an unconfigured environment, an upstream and a few
    requests, on which the handlers are run below. *)

Module Sample.

(** Agrees with [JSON.parse] on the texts the samples use: ["{}"], ["[]"]
    and ["null"] are parsed, ["<html>"] is not JSON. *)
Definition parse (s : string) : option value :=
  if (s =? "{}")%string then Some (VObj [])
  else if (s =? "[]")%string then Some (VArr [])
  else if (s =? "null")%string then Some VNull
  else None.

(** Agrees with [JSON.stringify] on [null], [[]] and [{}]. *)
Definition stringify (v : value) : string :=
  match v with
  | VArr [] => "[]"
  | VObj [] => "{}"
  | _ => "null"
  end.

Definition env : Env :=
  mkEnv (Some "sk-sample") true "2025-01-01T00:00:00.000Z"
        parse stringify (fun _ _ => false).

Definition env_no_key : Env :=
  mkEnv None true "2025-01-01T00:00:00.000Z"
        parse stringify (fun _ _ => false).

Definition world : World := mkWorld [] 0.

(** Three chunks, the last of which arrives after 900 ms; the stream is
    closed after one second. *)
Definition hello : Stream :=
  mkStream [(700, [Byte.x64; Byte.x61; Byte.x74; Byte.x61]);
            (800, [Byte.x3a; Byte.x20]);
            (900, [Byte.x0a])]
           1000.


(** An upstream that answers [status] with the text [text] after [ms]
    milliseconds. *)
Definition answering (ms status : Z) (text : string) : Upstream :=
  mkUpstream (fun _ => ms)
             (fun _ => Responds (mkUp status (Some hello) (Ok text))).

Definition json_headers : headers := [("Content-Type", "application/json")].

Definition post (payload : value) : Request :=
  mkRequest "POST" json_headers (Some payload).

Definition message (role content : string) : value :=
  VObj [("role", VStr role); ("content", VStr content)].

Definition hi : value := message "user" "hi".

Fixpoint repeat_string (n : nat) (s : string) : string :=
  match n with
  | O => ""
  | S k => s ++ repeat_string k s
  end.

(** A content of 501 characters. *)
Definition long_content : string := repeat_string 501 "a".

Definition with_messages (messages : list value) : value :=
  VObj [("messages", VArr messages)].

Definition with_model (model : string) (messages : list value) : value :=
  VObj [("messages", VArr messages); ("model", VStr model)].

End Sample.

(** ** Further notions used to state properties of the handlers *)

Module Shape.

(** A message that [validateMessages] of [api/chat.js] lets pass: an object
    whose role is one of the three roles and whose content is a string that
    is not empty. *)
Definition well_formed (msg : value) : Prop :=
  exists (props : list (string * value)) (role content : string),
    msg = VObj props
    /\ lookup "role" props = VStr role
    /\ In role Chat.roles
    /\ lookup "content" props = VStr content
    /\ content <> "".

(** The four tests of the loop of [validateMessages], taken together. *)
Definition passes (msg : value) : bool :=
  negb (negb (truthy msg) || negb (typeof_object msg))
  && negb (negb (truthy (prop msg "role"))
           || negb (typeof_string (prop msg "role")))
  && negb (negb (truthy (prop msg "content"))
           || negb (typeof_string (prop msg "content")))
  && negb (negb (includes Chat.roles (prop msg "role"))).

End Shape.

Module Calls.

(** [m] issues no upstream call. *)
Definition silent {A : Type} (m : M A) : Prop :=
  forall w : World, fetches (snd (m w)) = fetches w.

(** [m] issues no upstream call, or one call, which satisfies [good]. *)
Definition once {A : Type} (good : FetchCall -> Prop) (m : M A) : Prop :=
  forall w : World,
    fetches (snd (m w)) = fetches w
    \/ exists (c : FetchCall) (e : FetchEnd),
         good c /\ fetches (snd (m w)) = (c, e) :: fetches w.

(** The two upstream endpoints. *)
Definition endpoints : list string :=
  ["https://api.openai.com/v1/chat/completions";
   "https://api.openai.com/v1/responses"].

(** A call to one of the endpoints that carries the configured credential
    as its bearer token. *)
Definition authorized (env : Env) (c : FetchCall) : Prop :=
  In (url c) endpoints
  /\ exists apiKey : string,
       credential env = Some apiKey /\ authorization c = "Bearer " ++ apiKey.

(** The model of a call is one of [models]. *)
Definition model_in (models : list string) (c : FetchCall) : Prop :=
  includes models (prop (payload c) "model") = true.

(** A call to the Chat Completions endpoint has [messages] as its
    messages. *)
Definition carries (messages : value) (c : FetchCall) : Prop :=
  url c = "https://api.openai.com/v1/chat/completions" ->
  prop (payload c) "messages" = messages.

(** The signal that a call carries. *)
Definition timed (s : option Signal) (c : FetchCall) : Prop := signal c = s.

(** [AbortSignal.timeout ? AbortSignal.timeout(ms) : undefined]. *)
Definition timeout_if_supported (env : Env) (ms : Z) : option Signal :=
  if AbortSignal_timeout env then Some (TimeoutIn ms) else None.

End Calls.

Module Counter.

(** What a run from [w] that ended in [r] did to the counter: nothing, or
    one step up, and then the run returned a 200 response after an
    upstream call that was answered. *)
Definition counted_from (w : World) (r : result Response * World) : Prop :=
  requestCount (snd r) = requestCount w
  \/ (requestCount (snd r) = requestCount w + 1
      /\ exists (resp : Response) (c : FetchCall),
           fst r = Ok resp
           /\ status resp = 200
           /\ fetches (snd r) = (c, Answered) :: fetches w).

End Counter.

Module Lengths.

(** A message over which the loop of [validateRequest] passes: it is not
    [null], and its content is falsy, or has a length that is compared
    with the limit and is not greater. *)
Definition within (env : Env) (limit : Z) (message : value) : Prop :=
  nullish message = false
  /\ (truthy (prop message "content") = false
      \/ gt env (prop (prop message "content") "length") limit = Ok false).

(** A message at which the loop of [validateRequest] does not throw: it is
    not [null], and its content is falsy or has a length that can be
    compared with the limit. *)
Definition tested (env : Env) (limit : Z) (message : value) : Prop :=
  nullish message = false
  /\ (truthy (prop message "content") = false
      \/ exists answer : bool,
           gt env (prop (prop message "content") "length") limit = Ok answer).

End Lengths.


Module Piping.

(** A property of the world before a run, of what the run returned and of
    the world after it; nothing is said of a run that throws. *)
Definition post {A : Type} (Q : World -> A -> World -> Prop) (m : M A) : Prop :=
  forall w : World,
    match m w with
    | (Ok a, w') => Q w a w'
    | (Throw _, _) => True
    end.

(** A response that pipes a stream pipes the body of the upstream's answer
    to the one call of the run, and that answer has a 2xx status. *)
Definition piped_from (up : Upstream) (w : World) (resp : Response)
    (w' : World) : Prop :=
  forall s : Stream,
    received resp = Some s ->
    exists (c : FetchCall) (r : UpResponse),
      w' = logged c Answered w
      /\ settles up c = Responds r
      /\ up_ok r = true
      /\ up_body r = Some s.

(** The response pipes no stream. *)
Definition unpiped (resp : Response) : Prop := received resp = None.

End Piping.

Module Errors.

(** The body is a JSON value whose property [error] is a string. *)
Definition reports_error (resp : Response) : Prop :=
  exists (obj : value) (message : string),
    body resp = Json obj /\ prop obj "error" = VStr message.

(** An answer: status 200, or status 204 without a body, or one of the
    error [statuses] with a body that reports the error. *)
Definition answer (statuses : list Z) (resp : Response) : Prop :=
  status resp = 200
  \/ (status resp = 204 /\ body resp = NoBody)
  \/ (In (status resp) statuses /\ reports_error resp).

End Errors.

(** ** [src/agentWorkflow.ts] *)

Module Workflow.

(** An agent, by its name, its model and the vector stores of its file
    search tool.  Its instructions are a prompt for the model, which
    [runWorkflow] hands to the runner unread. *)
Record Agent : Type := mkAgent {
  name : string;
  model : string;
  tools : list string
}.

Definition assignment2NarrativeAgent : Agent :=
  mkAgent "Assignment 2 narrative agent." "gpt-5"
    ["vs_68efb8e2db688191bfde5e6e7f858989"].

Definition assignment2RubicAssessor : Agent :=
  mkAgent "Assignment 2 rubric assessor" "gpt-5"
    ["vs_68efb956e69c8191b9bf8535bb944b7e"].

Definition assignment3Marker : Agent :=
  mkAgent "Assignment 3 marker" "gpt-5"
    ["vs_68efb9dcb5c88191afea3e7b68b49e83"].

Definition agentChecker : Agent := mkAgent "Agent checker" "gpt-5" [].

(** The agents, in the order in which [runWorkflow] runs them. *)
Definition agents : list Agent :=
  [assignment2NarrativeAgent; assignment2RubicAssessor; assignment3Marker;
   agentChecker].

(** What a run of the SDK's runner resolves to. *)
Record RunItem : Type := mkItem { rawItem : value }.

Record RunResult : Type := mkResult {
  newItems : list RunItem;
  finalOutput : value
}.

(** A call of [runner.run]: the agent, the items it was given, and what
    the call resolved to or was rejected with. *)
Record Run : Type := mkRun {
  ran : Agent;
  given : list value;
  outcome : result RunResult
}.

(** [runner.run] belongs to the SDK: what it answers may depend on the
    agent, on the items, and on the runs before. *)
Definition Runner : Type := list Run -> Agent -> list value -> result RunResult.

(** The array [conversationHistory], and the runs made so far, earliest
    first. *)
Record State : Type := mkState {
  conversationHistory : list value;
  runs : list Run
}.

Definition Step (A : Type) : Type := State -> result A * State.

Definition and_then {A B : Type} (m : Step A) (k : A -> Step B) : Step B :=
  fun st =>
    match m st with
    | (Ok a, st') => k a st'
    | (Throw e, st') => (Throw e, st')
    end.

Definition first_item (text : value) : value :=
  VObj [("role", VStr "user");
        ("content", VArr [VObj [("type", VStr "input_text"); ("text", text)]])].

(** [runAgent]: the runner is given a copy of the history; the raw items
    of its answer are pushed before the final output is looked at. *)
Definition runAgent (runner : Runner) (agent : Agent) : Step value :=
  fun st =>
    let resultTemp := runner (runs st) agent (conversationHistory st) in
    let made :=
      (runs st ++ [mkRun agent (conversationHistory st) resultTemp])%list in
    match resultTemp with
    | Throw e => (Throw e, mkState (conversationHistory st) made)
    | Ok resultTemp =>
        let pushed :=
          mkState (conversationHistory st
                     ++ List.map rawItem (newItems resultTemp))%list
                  made in
        if negb (truthy (finalOutput resultTemp))
        then (Throw (Error "Agent result is undefined"), pushed)
        else (Ok (VObj [("output_text", finalOutput resultTemp)]), pushed)
    end.

(** [runWorkflow]: what it resolves to or is rejected with, and the runs
    it has made. *)
Definition runWorkflow (runner : Runner) (workflow : value)
  : result value * list Run :=
  match get_prop workflow "input_as_text" with
  | Throw e => (Throw e, [])
  | Ok text =>
      let (answer, st) :=
        and_then (runAgent runner assignment2NarrativeAgent)
          (fun assignment2NarrativeAgentResult =>
        and_then (runAgent runner assignment2RubicAssessor)
          (fun assignment2RubicAssessorResult =>
        and_then (runAgent runner assignment3Marker)
          (fun assignment3MarkerResult =>
        and_then (runAgent runner agentChecker)
          (fun agentCheckerResult st =>
             (Ok (VObj [("assignment2NarrativeAgentResult",
                         assignment2NarrativeAgentResult);
                        ("assignment2RubicAssessorResult",
                         assignment2RubicAssessorResult);
                        ("assignment3MarkerResult", assignment3MarkerResult);
                        ("agentCheckerResult", agentCheckerResult)]),
              st)))))
          (mkState [first_item text] [])
      in (answer, runs st)
  end.

(** A run that [runAgent] lets pass: it has resolved, with a final output
    that is not falsy. *)
Definition passed (r : Run) : Prop :=
  exists res : RunResult,
    outcome r = Ok res /\ truthy (finalOutput res) = true.

(** A runner for the samples: every run adds one item, and answers with
    the number of items it was given; the run of the agent [silent] has no
    final output. *)
Definition sample_runner (silent : string) : Runner :=
  fun _ agent items =>
    Ok (mkResult
          [mkItem (VObj [("role", VStr "assistant");
                         ("content", VStr (name agent))])]
          (if (name agent =? silent)%string then VUndefined
           else VNum (Z.of_nat (List.length items)))).

End Workflow.

Module Failures.

(** When the upstream call of [m] has failed in transport, [m] throws the
    failure. *)
Definition failing {A : Type} (up : Upstream) (m : M A) : Prop :=
  forall (w : World) (c : FetchCall),
    fetches (snd (m w)) = (c, Failed) :: fetches w ->
    exists e : JsError, fst (m w) = Throw e /\ settles up c = Fails e.

(** The [error] of a JSON answer. *)
Definition error_of (resp : Response) : value :=
  match body resp with
  | Json obj => prop obj "error"
  | _ => VUndefined
  end.

End Failures.

Import Sample.

(** * Properties *)

(** ** The upstream log *)

(** A [fetch] adds exactly its call to the log, however it ends. *)
Lemma fetch_logged (up : Upstream) (c : FetchCall) (w : World) :
  exists e, snd (fetch up c w) = logged c e w.
Proof.
  unfold fetch, settle.
  destruct (signal c) as [s|].
  - destruct (deadline s <? latency up c).
    + now exists Aborted.
    + destruct (settles up c); [now exists Answered | now exists Failed].
  - destruct (settles up c); [now exists Answered | now exists Failed].
Qed.


(** A call that is answered in time resolves to the upstream's response. *)
Lemma fetch_answered (up : Upstream) (c : FetchCall) (r : UpResponse) (w : World) :
  in_time up c ->
  settles up c = Responds r ->
  fetch up c w = (Ok r, logged c Answered w).
Proof.
  intros Htime Hr. unfold fetch, settle. rewrite Hr. unfold in_time in Htime.
  destruct (signal c) as [s|]; [|reflexivity].
  apply Z.ltb_ge in Htime. now rewrite Htime.
Qed.

(** A step that returns [a] hands [a] to what follows. *)
Lemma bind_lift {A B : Type} (a : A) (k : A -> M B) :
  bind (lift (Ok a)) k = k a.
Proof. reflexivity. Qed.

(** A response that the constructor returns is made of its arguments. *)
Lemma new_Response_ok (b : Body) (st : Z) (h : headers) (r : Response) :
  new_Response b st h = Ok r -> r = mkResponse st h b.
Proof.
  unfold new_Response.
  destruct ((st <? 200) || (599 <? st)); [discriminate|].
  destruct (null_body_status st && negb (is_null b)); [discriminate|].
  now intros [= <-].
Qed.

(** ** C1: a model outside the allow-list *)

(** [validateRequest] of [app.js] never rejects a model: one outside its
    allow-list is replaced by the default. *)
Lemma App_replaces_model (env : Env) (payload : value) (items : list value) :
  prop (or_else payload (VObj [])) "messages" = VArr items ->
  App.exceeds env items = Ok false ->
  includes App.ALLOWED_MODELS (prop (or_else payload (VObj [])) "model") = false ->
  App.validateRequest env payload
  = Ok (App.Valid (VArr items) (VStr App.defaultModel)).
Proof.
  intros Hm Hlen Hmodel. unfold App.validateRequest.
  now rewrite Hm, Hlen, Hmodel.
Qed.

(** C1, amended: in [api/chat.js], a POST that passes the content-type guard,
    the credential check, the parsing of its body and the validation of its
    messages, and whose [model] is present but not in the allow-list, is
    answered with status 400 and the error [Unsupported model: <model>],
    where [<model>] is the text a template literal gives the model, and no
    upstream call is issued.  A model that has no such text, an object with
    an own property [toString], makes the template literal throw: the
    answer is then 500 and [Internal server error], also without an
    upstream call. *)
Theorem C1_disallowed_model
    (env : Env) (up : Upstream) (req : Request) (w : World)
    (apiKey : string) (parsed : value) :
  req_method req = "POST" ->
  Chat.is_json req = true ->
  credential env = Some apiKey ->
  req_json req = Some parsed ->
  Chat.validateMessages (prop (coalesce parsed (VObj [])) "messages") = None ->
  prop (coalesce parsed (VObj [])) "model" <> VUndefined ->
  Chat.validateModel (prop (coalesce parsed (VObj [])) "model") = false ->
  (forall shown : string,
      to_string (prop (coalesce parsed (VObj [])) "model") = Ok shown ->
      Chat.handler env up req w
      = (Ok (mkResponse 400
               [("content-type", "application/json; charset=utf-8");
                ("access-control-allow-origin", "*")]
               (Json (VObj [("error", VStr ("Unsupported model: " ++ shown))]))),
         w))
  /\ (forall e : JsError,
        to_string (prop (coalesce parsed (VObj [])) "model") = Throw e ->
        Chat.handler env up req w
        = (Ok (mkResponse 500
                 [("content-type", "application/json; charset=utf-8");
                  ("access-control-allow-origin", "*")]
                 (Json (VObj [("error", VStr "Internal server error")]))),
           w)).
Proof.
  intros Hpost Hjson Hkey Hbody Hmsgs Hpresent Hmodel.
  assert (Hrun : Chat.handler env up req w
                 = try_catch
                     (shown <- lift (to_string
                                       (prop (coalesce parsed (VObj []))
                                             "model")) ;;
                      lift (Chat.jsonResponse
                              (error_body ("Unsupported model: " ++ shown))
                              400 []))
                     (fun _ =>
                        lift (Chat.jsonResponse
                                (error_body "Internal server error") 500 []))
                     w).
  { unfold Chat.handler, try_catch.
    rewrite Hpost, Hjson, Hkey, Hbody.
    cbn -[Chat.validateMessages Chat.validateModel coalesce prop to_string
          bind lift].
    rewrite Hmsgs.
    destruct (prop (coalesce parsed (VObj [])) "model") eqn:Emodel;
      try congruence; cbn [default_to]; now rewrite Hmodel. }
  rewrite Hrun. unfold try_catch, bind, lift.
  split; [intros shown Hshown | intros e He].
  - now rewrite Hshown.
  - now rewrite He.
Qed.

Lemma C1_disallowed_model_witness :
  Chat.handler Sample.env (answering 10 200 "{}")
    (post (with_model "gpt-5" [hi])) world
  = (Ok (mkResponse 400
           [("content-type", "application/json; charset=utf-8");
            ("access-control-allow-origin", "*")]
           (Json (VObj [("error", VStr "Unsupported model: gpt-5")]))),
     world).
Proof.
  apply (proj1 (C1_disallowed_model Sample.env (answering 10 200 "{}")
                  (post (with_model "gpt-5" [hi])) world "sk-sample"
                  (with_model "gpt-5" [hi])
                  eq_refl eq_refl eq_refl eq_refl eq_refl
                  ltac:(discriminate) eq_refl)
           "gpt-5").
  reflexivity.
Defined.

(** The claim fails on [scripts/app.js] and on the first handler of
    [part_002]: the disallowed model [gpt-5] is replaced by [gpt-4.1-mini],
    the upstream is called and the answer is 200. *)
Lemma C1_counterexample :
  includes App.ALLOWED_MODELS (VStr "gpt-5") = false
  /\ includes Allow.ALLOWED_MODELS (VStr "gpt-5") = false
  /\ (exists (resp : Response) (call : FetchCall),
         App.handler Sample.env (answering 10 200 "{}")
           (post (with_model "gpt-5" [hi])) world
         = (Ok resp, mkWorld [(call, Answered)] 1)
         /\ status resp = 200
         /\ prop (payload call) "model" = VStr "gpt-4.1-mini")
  /\ (exists (resp : Response) (call : FetchCall),
         Allow.handler Sample.env (answering 10 200 "{}")
           (post (with_model "gpt-5" [hi])) world
         = (Ok resp, mkWorld [(call, Answered)] 0)
         /\ status resp = 200
         /\ prop (payload call) "model" = VStr "gpt-4.1-mini").
Proof.
  split; [reflexivity|]. split; [reflexivity|].
  split; eexists; eexists; repeat split.
Qed.

(** ** C2: the streamed answer *)








(** ** C3: the deadline *)

(** Messages that pass [validateMessages] are an array. *)
Lemma Chat_valid_is_array (messages : value) :
  Chat.validateMessages messages = None ->
  exists items, messages = VArr items.
Proof.
  destruct messages; cbn; try discriminate. intros _. now eexists.
Qed.





(** ** C4: the length of a message's content *)

(** A string content of more than 500 characters trips the length check. *)
Lemma content_too_long (env : Env) (content : string) :
  500 < Z.of_nat (String.length content) ->
  truthy (VStr content) = true
  /\ gt env (prop (VStr content) "length") 500 = Ok true.
Proof.
  intros Hlen. cbn. split.
  - destruct content; [cbn in Hlen; lia | reflexivity].
  - f_equal. now apply Z.gtb_lt.
Qed.

(** The loop of [validateRequest] finds the offending message, provided it
    does not throw at a message before it. *)
Lemma App_exceeds_found (env : Env) (pre post : list value) (msg : value)
    (content : string) :
  Forall (Lengths.tested env 500) pre ->
  prop msg "content" = VStr content ->
  500 < Z.of_nat (String.length content) ->
  App.exceeds env (pre ++ msg :: post) = Ok true.
Proof.
  intros Hpre Hcontent Hlen.
  induction Hpre as [|m pre [Hm Htest] _ IH]; cbn [app App.exceeds].
  - unfold get_prop.
    destruct (nullish msg) eqn:Hnull.
    + destruct msg; cbn in Hnull, Hcontent; discriminate.
    + rewrite Hcontent. unfold App.MAX_MESSAGE_LENGTH.
      destruct (content_too_long env content Hlen) as [-> ->]. reflexivity.
  - unfold get_prop. rewrite Hm. unfold App.MAX_MESSAGE_LENGTH.
    destruct Htest as [-> | [[|] ->]]; [exact IH | | ].
    + now destruct (truthy (prop m "content")).
    + destruct (truthy (prop m "content")); exact IH.
Qed.

Lemma Stream2_exceeds_found (env : Env) (pre post : list value) (msg : value)
    (content : string) :
  Forall (Lengths.tested env 500) pre ->
  prop msg "content" = VStr content ->
  500 < Z.of_nat (String.length content) ->
  Stream2.exceeds env (pre ++ msg :: post) = Ok true.
Proof.
  intros Hpre Hcontent Hlen.
  induction Hpre as [|m pre [Hm Htest] _ IH]; cbn [app Stream2.exceeds].
  - unfold get_prop.
    destruct (nullish msg) eqn:Hnull.
    + destruct msg; cbn in Hnull, Hcontent; discriminate.
    + rewrite Hcontent. unfold Stream2.MAX_MESSAGE_LENGTH.
      destruct (content_too_long env content Hlen) as [-> ->]. reflexivity.
  - unfold get_prop. rewrite Hm. unfold Stream2.MAX_MESSAGE_LENGTH.
    destruct Htest as [-> | [[|] ->]]; [exact IH | | ].
    + now destruct (truthy (prop m "content")).
    + destruct (truthy (prop m "content")); exact IH.
Qed.

(** C4, amended: in [scripts/app.js] and in the streaming handler of
    [part_002], whose limit is 500 characters, a POST (credential set, body
    parsed, [messages] an array) with a message whose content is a string
    of more than 500 characters is answered with status 400 and the error
    [Message content exceeds maximum length of 500 characters], without an
    upstream call, provided the loop does not throw at a message before the
    offending one: none of them is [null], and none has a content whose
    length cannot be compared with the limit.  The error names the reason,
    the limit, and not the index: it is the same for every position of the
    offending message. *)
Theorem C4_content_too_long
    (env : Env) (up : Upstream) (req : Request) (w : World)
    (apiKey : string) (payload : value) (pre post : list value) (msg : value)
    (content : string) :
  req_method req = "POST" ->
  credential env = Some apiKey ->
  req_json req = Some payload ->
  prop (or_else payload (VObj [])) "messages" = VArr (pre ++ msg :: post) ->
  Forall (Lengths.tested env 500) pre ->
  prop msg "content" = VStr content ->
  500 < Z.of_nat (String.length content) ->
  let rejection :=
    mkResponse 400
      [("content-type", "application/json; charset=utf-8");
       ("access-control-allow-origin", "*")]
      (Json (VObj [("error",
                    VStr "Message content exceeds maximum length of 500 characters");
                   ("timestamp", VStr (now env))])) in
  App.handler env up req w = (Ok rejection, w)
  /\ Stream2.handler env up req w = (Ok rejection, w).
Proof.
  intros Hpost Hkey Hbody Hmsgs Hpre Hcontent Hlen rejection. split.
  - unfold App.handler, try_catch, bind, lift, App.validateRequest.
    rewrite Hpost, Hkey, Hbody, Hmsgs.
    rewrite (App_exceeds_found env pre post msg content Hpre Hcontent Hlen).
    reflexivity.
  - unfold Stream2.handler, try_catch, bind, lift, Stream2.validateRequest.
    rewrite Hpost, Hkey, Hbody, Hmsgs.
    rewrite (Stream2_exceeds_found env pre post msg content Hpre Hcontent Hlen).
    destruct pre; reflexivity.
Qed.

Lemma C4_content_too_long_witness :
  let rejection :=
    mkResponse 400
      [("content-type", "application/json; charset=utf-8");
       ("access-control-allow-origin", "*")]
      (Json (VObj [("error",
                    VStr "Message content exceeds maximum length of 500 characters");
                   ("timestamp", VStr (now Sample.env))])) in
  App.handler Sample.env (answering 10 200 "{}")
    (post (with_messages [hi; message "user" long_content])) world
  = (Ok rejection, world)
  /\ Stream2.handler Sample.env (answering 10 200 "{}")
       (post (with_messages [hi; message "user" long_content])) world
     = (Ok rejection, world).
Proof.
  apply (C4_content_too_long Sample.env (answering 10 200 "{}")
           (post (with_messages [hi; message "user" long_content])) world
           "sk-sample" (with_messages [hi; message "user" long_content])
           [hi] [] (message "user" long_content) long_content).
  all: match goal with
       | |- Forall _ _ =>
           constructor;
           [split; [reflexivity | right; exists false; reflexivity]
           | constructor]
       | |- _ < _ => vm_compute; reflexivity
       | |- _ => reflexivity
       end.
Defined.

(** The claim fails on both cited validators.  [api/chat.js] accepts a
    message of 501 characters and calls the upstream; [scripts/app.js]
    rejects it with an error that is the same whether the offending message
    is the first or the second, and so does not tell its index. *)
Lemma C4_counterexample :
  String.length long_content = 501%nat
  /\ Chat.validateMessages (VArr [message "user" long_content]) = None
  /\ (exists (resp : Response) (call : FetchCall),
         Chat.handler Sample.env (answering 10 200 "{}")
           (post (with_messages [message "user" long_content])) world
         = (Ok resp, mkWorld [(call, Answered)] 0)
         /\ status resp = 200)
  /\ App.validateRequest Sample.env
       (with_messages [message "user" long_content; hi])
     = Ok (App.Invalid
             "Message content exceeds maximum length of 500 characters" 400)
  /\ App.validateRequest Sample.env
       (with_messages [hi; message "user" long_content])
     = App.validateRequest Sample.env
         (with_messages [message "user" long_content; hi]).
Proof.
  split; [vm_compute; reflexivity|].
  split; [vm_compute; reflexivity|].
  split; [eexists; eexists; split; vm_compute; reflexivity|].
  split; vm_compute; reflexivity.
Qed.

(** ** Reasoning along the structure of a handler *)

Section Structure.

Context {A : Type} (P : A -> Prop).

Lemma partial_ret (a : A) : P a -> partial P (ret a).
Proof. intros Ha w. exact Ha. Qed.

Lemma partial_throw (e : JsError) : partial P (throw e).
Proof. intros w. exact I. Qed.

Lemma partial_lift (r : result A) :
  (forall a, r = Ok a -> P a) -> partial P (lift r).
Proof.
  intros Hr w. unfold lift. destruct r as [a|e]; [now apply Hr | exact I].
Qed.

Lemma partial_bind {B : Type} (m : M B) (k : B -> M A) :
  (forall b, partial P (k b)) -> partial P (bind m k).
Proof.
  intros Hk w. unfold bind. destruct (m w) as [[b|e] w']; [apply Hk | exact I].
Qed.

Lemma partial_try (m : M A) (h : JsError -> M A) :
  partial P m -> (forall e, partial P (h e)) -> partial P (try_catch m h).
Proof.
  intros Hm Hh w. unfold try_catch. specialize (Hm w).
  destruct (m w) as [[a|e] w']; [exact Hm | apply Hh].
Qed.

Lemma total_lift (r : result A) (a : A) : r = Ok a -> P a -> total P (lift r).
Proof. intros -> Ha w. exact Ha. Qed.

Lemma total_try (m : M A) (h : JsError -> M A) :
  partial P m -> (forall e, total P (h e)) -> total P (try_catch m h).
Proof.
  intros Hm Hh w. unfold try_catch. specialize (Hm w).
  destruct (m w) as [[a|e] w']; [exact Hm | apply Hh].
Qed.

Lemma total_partial (m : M A) : total P m -> partial P m.
Proof.
  intros Hm w. specialize (Hm w).
  destruct (m w) as [[a|e] w']; [exact Hm | exact I].
Qed.

End Structure.

(** One step along the structure of a handler's body, for a property of
    the response that its headers decide. *)
Ltac along :=
  match goal with
  | |- partial _ (lift _) =>
      let a := fresh "a" in
      let Ha := fresh "Ha" in
      apply partial_lift; intros a Ha;
      apply new_Response_ok in Ha; subst a; reflexivity
  | |- partial _ (throw _) => apply partial_throw
  | |- partial _ (bind _ _) => apply partial_bind; intros
  | |- partial _ (try_catch _ _) => apply partial_try; [|intros]
  | |- partial _ (if ?b then _ else _) => destruct b
  | |- partial _ (match ?x with _ => _ end) => destruct x
  | |- total _ (lift _) => eapply total_lift; reflexivity
  | |- total _ (try_catch _ _) => apply total_try; [|intros]
  | |- total _ (if ?b then _ else _) => destruct b
  end.

(** ** C8: the CORS header *)

Lemma Chat_cors (env : Env) (up : Upstream) (req : Request) :
  total has_cors (Chat.handler env up req).
Proof.
  unfold Chat.handler, Chat.relay, Chat.on_fetch_error, Chat.jsonResponse.
  cbv zeta. repeat along.
Qed.

Lemma App_cors (env : Env) (up : Upstream) (req : Request) :
  total has_cors (App.handler env up req).
Proof.
  unfold App.handler, App.handleCORS, App.handleHealthCheck, App.handleError,
    App.createResponse.
  cbv zeta. repeat along.
Qed.

Lemma Plain_cors (env : Env) (up : Upstream) (req : Request) :
  total has_cors (Plain.handler env up req).
Proof.
  unfold Plain.handler, Plain.relay, Plain.json. cbv zeta. repeat along.
Qed.

Lemma Allow_cors (env : Env) (up : Upstream) (req : Request) :
  total has_cors (Allow.handler env up req).
Proof.
  unfold Allow.handler, Allow.json. cbv zeta. repeat along.
Qed.

Lemma Stream2_cors (env : Env) (up : Upstream) (req : Request) :
  total has_cors (Stream2.handler env up req).
Proof.
  unfold Stream2.handler, Stream2.upstream_error, Stream2.handleCORS,
    Stream2.handleHealthCheck, Stream2.handleError, Stream2.piped,
    Stream2.createJsonResponse.
  cbv zeta. repeat along.
Qed.

(** Every response that the handler of [part_001] returns carries the
    header. *)
Lemma Stream1_cors (env : Env) (up : Upstream) (req : Request) :
  partial has_cors (Stream1.handler env up req).
Proof.
  unfold Stream1.handler, Stream1.upstream_error, Stream1.piped,
    Stream1.response.
  cbv zeta. repeat along.
Qed.

(** For every method but [OPTIONS], the handler of [part_001] returns. *)
Lemma Stream1_cors_but_preflight (env : Env) (up : Upstream) (req : Request) :
  req_method req <> "OPTIONS" ->
  total has_cors (Stream1.handler env up req).
Proof.
  intros Hmethod.
  unfold Stream1.handler, Stream1.upstream_error, Stream1.piped,
    Stream1.response.
  cbv zeta.
  destruct (req_method req =? "")%string eqn:Hempty.
  - change ("GET" =? "OPTIONS")%string with false. cbv iota. repeat along.
  - destruct (req_method req =? "OPTIONS")%string eqn:Hoptions.
    + apply String.eqb_eq in Hoptions. contradiction.
    + repeat along.
Qed.

(** In five of the six handlers every request is answered by a response
    that carries the header; so is every request to the handler of
    [part_001] but a preflight. *)
Lemma cors_on_the_responses (env : Env) (up : Upstream) (req : Request) :
  total has_cors (Chat.handler env up req)
  /\ total has_cors (App.handler env up req)
  /\ total has_cors (Plain.handler env up req)
  /\ total has_cors (Allow.handler env up req)
  /\ total has_cors (Stream2.handler env up req)
  /\ partial has_cors (Stream1.handler env up req)
  /\ (req_method req <> "OPTIONS" ->
      total has_cors (Stream1.handler env up req)).
Proof.
  repeat split.
  - apply Chat_cors.
  - apply App_cors.
  - apply Plain_cors.
  - apply Allow_cors.
  - apply Stream2_cors.
  - apply Stream1_cors.
  - apply Stream1_cors_but_preflight.
Qed.

(** C8, at the preflight of [part_001]: the helper [response] turns the
    body [null] into the empty string, and the constructor rejects a 204
    response with a body.  This happens before the handler's [try]: the
    handler throws, and returns no response, hence no CORS header. *)
Theorem C8_preflight_of_part_001_throws
    (env : Env) (up : Upstream) (w : World) (h : headers) (sent : option value) :
  Stream1.response VNull 204
    [("Access-Control-Allow-Methods", "POST, GET, OPTIONS");
     ("Access-Control-Allow-Headers", "content-type, authorization, accept");
     ("Access-Control-Allow-Origin", "*")]
  = new_Response (Text "") 204
      [("Content-Type", "text/plain");
       ("Access-Control-Allow-Origin", "*");
       ("Access-Control-Allow-Methods", "POST, GET, OPTIONS");
       ("Access-Control-Allow-Headers", "content-type, authorization, accept")]
  /\ Stream1.handler env up (mkRequest "OPTIONS" h sent) w
     = (Throw (TypeError "Response with null body status cannot have body"), w).
Proof.
  split; reflexivity.
Qed.

(** ** C7: no credential *)

(** The guard of [api/chat.js] reads all the headers of the name: a request
    that has a JSON content type among several passes it. *)
Lemma Chat_guard_reads_all_values :
  header_get "content-type"
    [("content-type", "text/plain"); ("Content-Type", "application/json")]
  = Some "text/plain, application/json"
  /\ Chat.is_json
       (mkRequest "POST"
          [("content-type", "text/plain"); ("Content-Type", "application/json")]
          None)
     = true.
Proof.
  split; reflexivity.
Qed.

(** C7, amended: when no upstream credential is configured, every POST that
    passes the content-type guard of [api/chat.js] is answered with status
    500 and the JSON body [{ error: "Server configuration error" }]; the
    handler returns, and no upstream call is issued.  ([api/chat.js] checks
    the content type first: a POST without a JSON content type is answered
    415, also without an upstream call.)  The other five handlers have no
    such guard and answer every POST with status 500 and a JSON error. *)
Theorem C7_missing_credential
    (env : Env) (up : Upstream) (req : Request) (w : World) :
  req_method req = "POST" ->
  credential env = None ->
  (Chat.is_json req = true ->
   Chat.handler env up req w
   = (Ok (mkResponse 500
            [("content-type", "application/json; charset=utf-8");
             ("access-control-allow-origin", "*")]
            (Json (VObj [("error", VStr "Server configuration error")]))),
      w))
  /\ (Chat.is_json req = false ->
      Chat.handler env up req w
      = (Ok (mkResponse 415
               [("content-type", "application/json; charset=utf-8");
                ("access-control-allow-origin", "*")]
               (Json (VObj [("error",
                             VStr "Content-Type must be application/json")]))),
         w))
  /\ App.handler env up req w
     = (Ok (mkResponse 500
              [("content-type", "application/json; charset=utf-8");
               ("access-control-allow-origin", "*")]
              (Json (VObj [("error", VStr "OPENAI_API_KEY is not set");
                           ("timestamp", VStr (now env))]))),
        w)
  /\ Plain.handler env up req w
     = (Ok (mkResponse 500
              [("content-type", "application/json; charset=utf-8");
               ("access-control-allow-origin", "*")]
              (Json (VObj [("error", VStr "OPENAI_API_KEY is not set")]))),
        w)
  /\ Allow.handler env up req w
     = (Ok (mkResponse 500
              [("content-type", "application/json; charset=utf-8");
               ("access-control-allow-origin", "*")]
              (Json (VObj [("error", VStr "OPENAI_API_KEY is not set")]))),
        w)
  /\ Stream1.handler env up req w
     = (Ok (mkResponse 500
              [("Content-Type", "application/json");
               ("Access-Control-Allow-Origin", "*")]
              (Json (VObj [("error",
                            VStr "OPENAI_API_KEY is not set in Vercel environment variables")]))),
        w)
  /\ Stream2.handler env up req w
     = (Ok (mkResponse 500
              [("content-type", "application/json; charset=utf-8");
               ("access-control-allow-origin", "*")]
              (Json (VObj [("error", VStr "OPENAI_API_KEY is not set");
                           ("timestamp", VStr (now env))]))),
        w).
Proof.
  intros Hpost Hkey.
  unfold Chat.handler, App.handler, Plain.handler, Allow.handler,
    Stream1.handler, Stream2.handler, try_catch.
  rewrite Hpost, Hkey.
  repeat split; try reflexivity.
  - intros Hjson. now rewrite Hjson.
  - intros Hjson. now rewrite Hjson.
Qed.

Lemma C7_missing_credential_witness :
  Chat.handler env_no_key (answering 10 200 "{}") (post (with_messages [hi]))
    world
  = (Ok (mkResponse 500
           [("content-type", "application/json; charset=utf-8");
            ("access-control-allow-origin", "*")]
           (Json (VObj [("error", VStr "Server configuration error")]))),
     world).
Proof.
  apply (proj1 (C7_missing_credential env_no_key (answering 10 200 "{}")
                  (post (with_messages [hi])) world eq_refl eq_refl)).
  reflexivity.
Defined.

(** The claim fails on [api/chat.js]: without a credential, a POST whose
    content type is [text/plain] is answered 415, not 500. *)
Lemma C7_counterexample :
  credential env_no_key = None
  /\ Chat.handler env_no_key (answering 10 200 "{}")
       (mkRequest "POST" [("content-type", "text/plain")]
          (Some (with_messages [hi])))
       world
     = (Ok (mkResponse 415
              [("content-type", "application/json; charset=utf-8");
               ("access-control-allow-origin", "*")]
              (Json (VObj [("error",
                            VStr "Content-Type must be application/json")]))),
        world).
Proof.
  split; reflexivity.
Qed.

(** ** C5: an empty array, and more than 100 messages *)

(** C5, amended: a POST (credential set, body an object whose [messages]
    is the array [items]) is answered with status 400, and no upstream call
    is issued, when [items] is empty or has more than 100 entries in
    [api/chat.js] (for a request that passes its content-type guard), and
    when [items] is empty in the streaming handler of [part_002]. *)
Theorem C5_empty_or_too_many
    (env : Env) (up : Upstream) (req : Request) (w : World)
    (apiKey : string) (props : list (string * value)) (items : list value) :
  req_method req = "POST" ->
  credential env = Some apiKey ->
  req_json req = Some (VObj props) ->
  lookup "messages" props = VArr items ->
  (Chat.is_json req = true ->
   items = [] ->
   Chat.handler env up req w
   = (Ok (mkResponse 400
            [("content-type", "application/json; charset=utf-8");
             ("access-control-allow-origin", "*")]
            (Json (VObj [("error",
                          VStr "Invalid messages: Messages array cannot be empty")]))),
      w))
  /\ (Chat.is_json req = true ->
      (100 < List.length items)%nat ->
      Chat.handler env up req w
      = (Ok (mkResponse 400
               [("content-type", "application/json; charset=utf-8");
                ("access-control-allow-origin", "*")]
               (Json (VObj [("error",
                             VStr "Invalid messages: Too many messages (max 100)")]))),
         w))
  /\ (items = [] ->
      Stream2.handler env up req w
      = (Ok (mkResponse 400
               [("content-type", "application/json; charset=utf-8");
                ("access-control-allow-origin", "*")]
               (Json (VObj [("error", VStr "messages must be a non-empty array");
                            ("timestamp", VStr (now env))]))),
         w)).
Proof.
  intros Hpost Hkey Hbody Hmsgs. repeat split.
  - intros Hjson ->. unfold Chat.handler, try_catch.
    rewrite Hpost, Hjson, Hkey, Hbody. cbn [coalesce nullish prop].
    rewrite Hmsgs. reflexivity.
  - intros Hjson Hmany. unfold Chat.handler, try_catch.
    rewrite Hpost, Hjson, Hkey, Hbody. cbn [coalesce nullish prop].
    rewrite Hmsgs. unfold Chat.validateMessages.
    replace (List.length items =? 0)%nat with false
      by (symmetry; apply Nat.eqb_neq; lia).
    replace (100 <? List.length items)%nat with true
      by (symmetry; apply Nat.ltb_lt; lia).
    reflexivity.
  - intros ->. unfold Stream2.handler, try_catch, bind, lift,
      Stream2.validateRequest.
    rewrite Hpost, Hkey, Hbody. cbn [or_else truthy prop].
    rewrite Hmsgs. reflexivity.
Qed.

Lemma C5_empty_or_too_many_witness :
  Chat.handler Sample.env (answering 10 200 "{}") (post (with_messages []))
    world
  = (Ok (mkResponse 400
           [("content-type", "application/json; charset=utf-8");
            ("access-control-allow-origin", "*")]
           (Json (VObj [("error",
                         VStr "Invalid messages: Messages array cannot be empty")]))),
     world)
  /\ Chat.handler Sample.env (answering 10 200 "{}")
       (post (with_messages (List.repeat hi 101))) world
     = (Ok (mkResponse 400
              [("content-type", "application/json; charset=utf-8");
               ("access-control-allow-origin", "*")]
              (Json (VObj [("error",
                            VStr "Invalid messages: Too many messages (max 100)")]))),
        world).
Proof.
  split.
  - apply (proj1 (C5_empty_or_too_many Sample.env (answering 10 200 "{}")
                    (post (with_messages [])) world "sk-sample"
                    [("messages", VArr [])] []
                    eq_refl eq_refl eq_refl eq_refl));
      reflexivity.
  - apply (proj1 (proj2
                    (C5_empty_or_too_many Sample.env (answering 10 200 "{}")
                       (post (with_messages (List.repeat hi 101))) world
                       "sk-sample"
                       [("messages", VArr (List.repeat hi 101))]
                       (List.repeat hi 101)
                       eq_refl eq_refl eq_refl eq_refl)));
      [reflexivity | vm_compute; lia].
Defined.


(** The claim fails on the streaming handler of [part_002], whose
    [validateRequest] counts no messages: 101 messages are accepted, the
    upstream is called and its stream is the answer. *)
Lemma C5_counterexample :
  List.length (List.repeat hi 101) = 101%nat
  /\ Stream2.validateRequest Sample.env (with_messages (List.repeat hi 101))
     = Ok (Stream2.Valid (VArr (List.repeat hi 101)) (VStr "gpt-3.5-turbo"))
  /\ (exists (resp : Response) (call : FetchCall),
         Stream2.handler Sample.env (answering 10 200 "")
           (post (with_messages (List.repeat hi 101))) world
         = (Ok resp, mkWorld [(call, Answered)] 0)
         /\ status resp = 200).
Proof.
  split; [reflexivity|]. split; [vm_compute; reflexivity|].
  eexists. eexists. split; vm_compute; reflexivity.
Qed.

(** ** C6: an upstream body that is not JSON *)


(** [relay] of [part_000] on the same text, for a 2xx status: the failure of
    the parse is ignored, and the answer is 200 with the body [null]. *)
Lemma Plain_relay_unparseable (env : Env) (upstream : UpResponse) (text : string)
    (w : World) :
  up_text upstream = Ok text ->
  text <> "" ->
  JSON_parse env text = None ->
  up_ok upstream = true ->
  Plain.relay env upstream w
  = (Ok (mkResponse 200
           [("content-type", "application/json; charset=utf-8");
            ("access-control-allow-origin", "*")]
           (Json VNull)),
     w).
Proof.
  intros Htext Hnonempty Hparse Hok. unfold Plain.relay, bind, lift.
  rewrite Htext. apply String.eqb_neq in Hnonempty.
  now rewrite Hnonempty, Hparse, Hok.
Qed.




(** ** C9: an empty content *)

(** The loop of [validateMessages] over a valid prefix goes on with the
    rest, at the index that follows the prefix. *)
Lemma Chat_check_app (pre rest : list value) :
  forall i : nat,
    Chat.check_messages i pre = None ->
    Chat.check_messages i (pre ++ rest)
    = Chat.check_messages (i + List.length pre) rest.
Proof.
  induction pre as [|m pre IH]; intros i Hpre.
  - cbn. now rewrite Nat.add_0_r.
  - cbn [app Chat.check_messages List.length] in *.
    destruct (negb (truthy m) || negb (typeof_object m)); [discriminate|].
    destruct (negb (truthy (prop m "role"))
              || negb (typeof_string (prop m "role"))); [discriminate|].
    destruct (negb (truthy (prop m "content"))
              || negb (typeof_string (prop m "content"))); [discriminate|].
    destruct (negb (includes Chat.roles (prop m "role"))); [discriminate|].
    rewrite (IH (S i) Hpre). f_equal. lia.
Qed.

(** An error found in a prefix is the error of the whole array. *)
Lemma Chat_check_app_error (pre rest : list value) :
  forall (i : nat) (reason : string),
    Chat.check_messages i pre = Some reason ->
    Chat.check_messages i (pre ++ rest) = Some reason.
Proof.
  induction pre as [|m pre IH]; intros i reason Hpre.
  - discriminate.
  - cbn [app Chat.check_messages] in *.
    destruct (negb (truthy m) || negb (typeof_object m)); [exact Hpre|].
    destruct (negb (truthy (prop m "role"))
              || negb (typeof_string (prop m "role"))); [exact Hpre|].
    destruct (negb (truthy (prop m "content"))
              || negb (typeof_string (prop m "content"))); [exact Hpre|].
    destruct (negb (includes Chat.roles (prop m "role"))); [exact Hpre|].
    now apply IH.
Qed.

(** A message object whose content is empty or missing is rejected where
    the loop meets it: for its role if that is not a string, for its content
    otherwise. *)
Lemma Chat_check_empty_content (i : nat) (props : list (string * value))
    (rest : list value) :
  lookup "content" props = VStr "" \/ lookup "content" props = VUndefined ->
  Chat.check_messages i (VObj props :: rest)
  = Some (if truthy (lookup "role" props) && typeof_string (lookup "role" props)
          then Chat.at_index i " must have a 'content' string"
          else Chat.at_index i " must have a 'role' string").
Proof.
  intros Hcontent. cbn [Chat.check_messages truthy typeof_object prop negb orb].
  destruct (truthy (lookup "role" props)); cbn [negb orb andb]; [|reflexivity].
  destruct (typeof_string (lookup "role" props)); cbn [negb]; [|reflexivity].
  destruct Hcontent as [-> | ->]; reflexivity.
Qed.

(** C9, amended: in [api/chat.js], a POST (JSON content type, credential
    set, body parsed) whose [messages] hold a message object with the
    content [""] is always answered with status 400 and an
    [Invalid messages] error, without an upstream call.  When the array has at most 100 entries, the messages
    before that one are valid and its role is a non-empty string, the error
    is [Message at index i must have a 'content' string], [i] being the
    position of the message.  All of this is the same for a message whose
    content is missing. *)
Theorem C9_empty_content_rejected
    (env : Env) (up : Upstream) (req : Request) (w : World)
    (apiKey : string) (parsed : value) (pre post : list value)
    (props : list (string * value)) :
  req_method req = "POST" ->
  Chat.is_json req = true ->
  credential env = Some apiKey ->
  req_json req = Some parsed ->
  prop (coalesce parsed (VObj [])) "messages" = VArr (pre ++ VObj props :: post) ->
  lookup "content" props = VStr "" \/ lookup "content" props = VUndefined ->
  exists reason : string,
    Chat.validateMessages (VArr (pre ++ VObj props :: post)) = Some reason
    /\ Chat.handler env up req w
       = (Ok (mkResponse 400
                [("content-type", "application/json; charset=utf-8");
                 ("access-control-allow-origin", "*")]
                (Json (VObj [("error", VStr ("Invalid messages: " ++ reason))]))),
          w)
    /\ ((List.length (pre ++ VObj props :: post) <= 100)%nat ->
        Chat.check_messages 0 pre = None ->
        truthy (lookup "role" props) = true ->
        typeof_string (lookup "role" props) = true ->
        reason
        = "Message at index " ++ int_string (Z.of_nat (List.length pre))
            ++ " must have a 'content' string").
Proof.
  intros Hpost Hjson Hkey Hbody Hmsgs Hcontent.
  assert (Hhandler : forall reason,
             Chat.validateMessages (VArr (pre ++ VObj props :: post))
             = Some reason ->
             Chat.handler env up req w
             = (Ok (mkResponse 400
                      [("content-type", "application/json; charset=utf-8");
                       ("access-control-allow-origin", "*")]
                      (Json (VObj [("error",
                                    VStr ("Invalid messages: " ++ reason))]))),
                w)).
  { intros reason Hreason. unfold Chat.handler, try_catch.
    rewrite Hpost, Hjson, Hkey, Hbody.
    cbn -[Chat.validateMessages coalesce prop].
    now rewrite Hmsgs, Hreason. }
  unfold Chat.validateMessages in *.
  replace (List.length (pre ++ VObj props :: post) =? 0)%nat with false in *
    by (symmetry; apply Nat.eqb_neq; rewrite length_app; cbn; lia).
  destruct (100 <? List.length (pre ++ VObj props :: post))%nat eqn:Hmany.
  - eexists. split; [reflexivity|]. split; [now apply Hhandler|].
    intros Hfew. apply Nat.ltb_lt in Hmany. lia.
  - destruct (Chat.check_messages 0 pre) as [reason|] eqn:Hpre.
    + exists reason.
      rewrite (Chat_check_app_error pre _ 0 reason Hpre) in *.
      split; [reflexivity|]. split; [now apply Hhandler|]. discriminate.
    + rewrite (Chat_check_app pre _ 0 Hpre) in *.
      rewrite (Chat_check_empty_content _ props post Hcontent) in *.
      eexists. split; [reflexivity|]. split; [now apply Hhandler|].
      intros _ _ -> ->. reflexivity.
Qed.

Lemma C9_empty_content_rejected_witness :
  Chat.handler Sample.env (answering 10 200 "{}")
    (post (with_messages [hi; message "user" ""])) world
  = (Ok (mkResponse 400
           [("content-type", "application/json; charset=utf-8");
            ("access-control-allow-origin", "*")]
           (Json (VObj [("error",
                         VStr "Invalid messages: Message at index 1 must have a 'content' string")]))),
     world).
Proof.
  destruct (C9_empty_content_rejected Sample.env (answering 10 200 "{}")
              (post (with_messages [hi; message "user" ""])) world "sk-sample"
              (with_messages [hi; message "user" ""]) [hi] []
              [("role", VStr "user"); ("content", VStr "")]
              eq_refl eq_refl eq_refl eq_refl eq_refl (or_introl eq_refl))
    as [reason [_ [Hhandler Hreason]]].
  rewrite Hhandler, Hreason; [reflexivity | cbn; lia | reflexivity ..].
Defined.

(** The claim fails as it is stated: the error is not always the one about
    the content.  A message with the content [""] and no role is answered
    with the error about the role, which is tested first; and in an array
    of 101 messages the error is the one about their number. *)
Lemma C9_counterexample :
  Chat.handler Sample.env (answering 10 200 "{}")
    (post (with_messages [VObj [("content", VStr "")]])) world
  = (Ok (mkResponse 400
           [("content-type", "application/json; charset=utf-8");
            ("access-control-allow-origin", "*")]
           (Json (VObj [("error",
                         VStr "Invalid messages: Message at index 0 must have a 'role' string")]))),
     world)
  /\ Chat.handler Sample.env (answering 10 200 "{}")
       (post (with_messages (List.repeat (message "user" "") 101))) world
     = (Ok (mkResponse 400
              [("content-type", "application/json; charset=utf-8");
               ("access-control-allow-origin", "*")]
              (Json (VObj [("error",
                            VStr "Invalid messages: Too many messages (max 100)")]))),
        world).
Proof.
  split; vm_compute; reflexivity.
Qed.

(** ** C10: the default model *)

(** What [relay] of [api/chat.js] returns or throws, it leaves the log as
    it is. *)
Lemma Chat_relay_keeps_world (env : Env) (upstream : UpResponse) (w : World) :
  snd (Chat.relay env upstream w) = w.
Proof.
  unfold Chat.relay, bind, lift, ret.
  destruct (up_text upstream) as [text|e]; [|reflexivity].
  destruct (if (text =? "")%string then Some VNull else JSON_parse env text);
    [|reflexivity].
  destruct (negb (up_ok upstream)); [|reflexivity].
  destruct (to_string _); reflexivity.
Qed.

(** An upstream path of [api/chat.js]: the call is logged, and a response
    is returned however the call ends. *)
Lemma Chat_path_returns (env : Env) (up : Upstream) (c : FetchCall) (w : World) :
  exists (resp : Response) (e : FetchEnd),
    try_catch (bind (fetch up c) (fun upstream => Chat.relay env upstream))
              Chat.on_fetch_error w
    = (Ok resp, logged c e w).
Proof.
  unfold try_catch, bind.
  destruct (fetch_logged up c w) as [e He].
  destruct (fetch up c w) as [[upstream|err] w'] eqn:Hfetch; cbn in He; subst w'.
  - pose proof (Chat_relay_keeps_world env upstream (logged c e w)) as Hkeep.
    destruct (Chat.relay env upstream (logged c e w)) as [[resp|err] w'];
      cbn in Hkeep; subst w'.
    + now exists resp, e.
    + unfold Chat.on_fetch_error.
      destruct (err_name err =? "AbortError")%string; eexists; now exists e.
  - unfold Chat.on_fetch_error.
    destruct (err_name err =? "AbortError")%string; eexists; now exists e.
Qed.

(** A request without [model] is never answered by that rejection,
    whatever else it holds. *)
Lemma Chat_absent_model_not_rejected (env : Env) (up : Upstream) (req : Request) :
  (forall parsed, req_json req = Some parsed ->
                  prop (coalesce parsed (VObj [])) "model" = VUndefined) ->
  total (fun resp => ~ Chat.rejects_model resp) (Chat.handler env up req).
Proof.
  intros Habsent.
  assert (Hleaf : forall (obj : value) (st : Z) (h : headers),
             (st = 400 -> forall model : string,
                 obj <> error_body ("Unsupported model: " ++ model)) ->
             partial (fun resp => ~ Chat.rejects_model resp)
                     (lift (new_Response (json_body obj) st h))).
  { intros obj st h Hobj. apply partial_lift. intros a Ha.
    apply new_Response_ok in Ha. subst a.
    intros [Hst [model Hbody]]. cbn [status body] in Hst, Hbody.
    apply (Hobj Hst model).
    destruct obj; cbn [json_body] in Hbody; try discriminate Hbody.
    exact (f_equal (fun b => match b with Json v => v | _ => VNull end) Hbody). }
  unfold Chat.handler, Chat.jsonResponse. cbv zeta.
  apply total_try.
  2: { intros e. eapply total_lift; [reflexivity|].
       intros [Hst _]. discriminate Hst. }
  destruct (req_method req =? "OPTIONS")%string.
  { apply partial_lift. intros a Ha. apply new_Response_ok in Ha. subst a.
    intros [Hst _]. discriminate Hst. }
  destruct (req_method req =? "GET")%string;
    [apply Hleaf; discriminate|].
  destruct (negb (req_method req =? "POST")%string);
    [apply Hleaf; discriminate|].
  destruct (negb (Chat.is_json req)); [apply Hleaf; discriminate|].
  destruct (credential env) as [apiKey|]; [|apply Hleaf; discriminate].
  destruct (req_json req) as [parsed|] eqn:Hbody.
  2: { apply Hleaf. intros _ model. unfold error_body. cbn. discriminate. }
  rewrite (Habsent parsed eq_refl). cbn [default_to].
  change (Chat.validateModel (VStr Chat.defaultModel)) with true. cbn [negb].
  destruct (Chat.validateMessages (prop (coalesce parsed (VObj [])) "messages")).
  { apply Hleaf. intros _ model. unfold error_body. cbn. discriminate. }
  assert (Hpath : forall c (pre : M unit),
             partial (fun resp => ~ Chat.rejects_model resp)
               (try_catch
                  (bind pre (fun _ =>
                     bind (fetch up c) (fun upstream => Chat.relay env upstream)))
                  Chat.on_fetch_error)).
  { intros c pre. unfold Chat.relay, Chat.on_fetch_error, Chat.jsonResponse.
    apply partial_try.
    - apply partial_bind. intros _. apply partial_bind. intros upstream.
      apply partial_bind. intros text.
      destruct (if (text =? "")%string then Some VNull else JSON_parse env text);
        [|apply Hleaf; discriminate].
      destruct (negb (up_ok upstream));
        [apply partial_bind; intros shown|]; apply Hleaf; discriminate.
    - intros e. destruct (err_name e =? "AbortError")%string;
        apply Hleaf; discriminate. }
  destruct (negb (truthy (default_to (prop (coalesce parsed (VObj []))
                                        "useResponsesApi") (VBool false)))).
  - exact (Hpath _ (ret tt)).
  - unfold try_catch at 1.
    intros w. unfold bind at 1, lift at 1.
    destruct (array_map "messages" Chat.input_of
                (prop (coalesce parsed (VObj [])) "messages")) as [inputs|e].
    + exact (Hpath (Chat.responses apiKey (VStr Chat.defaultModel) inputs
                      (prop (coalesce parsed (VObj [])) "previous_response_id"))
                   (ret tt) w).
    + unfold Chat.on_fetch_error, Chat.jsonResponse.
      destruct (err_name e =? "AbortError")%string; cbn;
        intros [Hst _]; discriminate Hst.
Qed.

(** C10: the default model of [api/chat.js], [gpt-4-mini], is in its
    allow-list, and so are the defaults of the other handlers that have an
    allow-list.  Hence a request to [api/chat.js] that omits [model] is
    never answered by the rejection of its model; when it passes the guards
    before (a POST with a JSON content type, credential set, body parsed,
    messages valid) it is dispatched, with the default as the model of the
    upstream call. *)
Theorem C10_default_model_is_allowed :
  Chat.validateModel (VStr Chat.defaultModel) = true
  /\ includes App.ALLOWED_MODELS (VStr App.defaultModel) = true
  /\ includes Allow.ALLOWED_MODELS (VStr Allow.defaultModel) = true
  /\ includes Stream2.ALLOWED_MODELS (VStr Stream2.defaultModel) = true
  /\ (forall (env : Env) (up : Upstream) (req : Request),
         (forall parsed, req_json req = Some parsed ->
                         prop (coalesce parsed (VObj [])) "model" = VUndefined) ->
         total (fun resp => ~ Chat.rejects_model resp) (Chat.handler env up req))
  /\ (forall (env : Env) (up : Upstream) (req : Request) (w : World)
             (apiKey : string) (parsed : value),
         req_method req = "POST" ->
         Chat.is_json req = true ->
         credential env = Some apiKey ->
         req_json req = Some parsed ->
         Chat.validateMessages (prop (coalesce parsed (VObj [])) "messages")
         = None ->
         prop (coalesce parsed (VObj [])) "model" = VUndefined ->
         exists (resp : Response) (c : FetchCall) (e : FetchEnd),
           Chat.handler env up req w = (Ok resp, logged c e w)
           /\ prop (payload c) "model" = VStr "gpt-4-mini").
Proof.
  split; [reflexivity|]. split; [reflexivity|]. split; [reflexivity|].
  split; [reflexivity|]. split; [exact Chat_absent_model_not_rejected|].
  intros env up req w apiKey parsed Hpost Hjson Hkey Hbody Hmsgs Habsent.
  unfold Chat.handler.
  rewrite Hpost, Hjson, Hkey, Hbody.
  cbn -[Chat.validateMessages Chat.validateModel coalesce prop default_to
        truthy fetch Chat.completions Chat.responses array_map Chat.relay
        try_catch bind lift].
  rewrite Hmsgs, Habsent. cbn [default_to].
  change (Chat.validateModel (VStr Chat.defaultModel)) with true. cbn [negb].
  destruct (Chat_valid_is_array _ Hmsgs) as [items Hitems].
  destruct (truthy (default_to (prop (coalesce parsed (VObj []))
                                  "useResponsesApi") (VBool false)));
    cbn [negb]; unfold try_catch at 1.
  - rewrite Hitems. cbn [array_map]. rewrite bind_lift.
    destruct (Chat_path_returns env up
                (Chat.responses apiKey (VStr Chat.defaultModel)
                   (List.map Chat.input_of items)
                   (prop (coalesce parsed (VObj [])) "previous_response_id"))
                w) as [resp [e Hpath]].
    rewrite Hpath. exists resp. eexists. exists e. split; reflexivity.
  - destruct (Chat_path_returns env up
                (Chat.completions apiKey (VStr Chat.defaultModel)
                   (prop (coalesce parsed (VObj [])) "messages"))
                w) as [resp [e Hpath]].
    rewrite Hpath. exists resp. eexists. exists e. split; reflexivity.
Qed.

Lemma C10_default_model_is_allowed_witness :
  exists (resp : Response) (c : FetchCall) (e : FetchEnd),
    Chat.handler Sample.env (answering 10 200 "{}") (post (with_messages [hi]))
      world
    = (Ok resp, logged c e world)
    /\ prop (payload c) "model" = VStr "gpt-4-mini".
Proof.
  apply (proj2 (proj2 (proj2 (proj2 (proj2 C10_default_model_is_allowed))))
           Sample.env (answering 10 200 "{}") (post (with_messages [hi])) world
           "sk-sample" (with_messages [hi]));
    reflexivity.
Defined.

(** * Further properties of the handlers *)

Import Shape Calls.

(** ** The messages that [api/chat.js] accepts *)

(** The loop of [validateMessages] goes on exactly when the four tests
    pass. *)
Lemma Chat_check_step (i : nat) (msg : value) (rest : list value) :
  Chat.check_messages i (msg :: rest)
  = if passes msg then Chat.check_messages (S i) rest
    else Chat.check_messages i [msg].
Proof.
  unfold passes. cbn [Chat.check_messages].
  destruct (negb (truthy msg) || negb (typeof_object msg)); [reflexivity|].
  destruct (negb (truthy (prop msg "role"))
            || negb (typeof_string (prop msg "role"))); [reflexivity|].
  destruct (negb (truthy (prop msg "content"))
            || negb (typeof_string (prop msg "content"))); [reflexivity|].
  destruct (negb (includes Chat.roles (prop msg "role"))); reflexivity.
Qed.

(** A message alone is rejected when a test fails, and the error names the
    index. *)
Lemma Chat_check_fails (i : nat) (msg : value) :
  passes msg = false ->
  exists what : string,
    Chat.check_messages i [msg] = Some (Chat.at_index i what).
Proof.
  unfold passes. cbn [Chat.check_messages].
  destruct (negb (truthy msg) || negb (typeof_object msg));
    [intros _; now eexists|].
  destruct (negb (truthy (prop msg "role"))
            || negb (typeof_string (prop msg "role")));
    [intros _; now eexists|].
  destruct (negb (truthy (prop msg "content"))
            || negb (typeof_string (prop msg "content")));
    [intros _; now eexists|].
  destruct (negb (includes Chat.roles (prop msg "role")));
    [intros _; now eexists | discriminate].
Qed.

(** The four tests pass exactly for the well-formed messages. *)
Lemma passes_well_formed (msg : value) :
  passes msg = true <-> well_formed msg.
Proof.
  unfold passes, well_formed. split.
  - rewrite !andb_true_iff, !negb_true_iff, !orb_false_iff, !negb_false_iff.
    intros [[[[Htruthy Hobject] [Hrole Hrole_string]]
               [Hcontent Hcontent_string]] Hin].
    destruct msg as [ | | b | n | digits | s | items | props];
      try discriminate Hobject; try discriminate Htruthy.
    + discriminate Hrole_string.
    + cbn [prop] in *.
      destruct (lookup "role" props) as [ | | | | | role | | ] eqn:Erole;
        try discriminate Hrole_string.
      destruct (lookup "content" props) as [ | | | | | content | | ]
        eqn:Econtent;
        try discriminate Hcontent_string.
      exists props, role, content.
      split; [reflexivity|]. split; [exact Erole|]. split; [|split].
      * cbn [includes] in Hin.
        apply existsb_exists in Hin as [r [Hr Heq]].
        apply String.eqb_eq in Heq. rewrite Heq. exact Hr.
      * exact Econtent.
      * cbn [truthy] in Hcontent. apply negb_true_iff in Hcontent.
        now apply String.eqb_neq.
  - intros [props [role [content [-> [Hrole [Hin [Hcontent Hnonempty]]]]]]].
    cbn [prop truthy typeof_object negb orb andb].
    rewrite Hrole, Hcontent. cbn [truthy typeof_string includes].
    assert (Hincl : existsb (String.eqb role) Chat.roles = true).
    { apply existsb_exists. exists role. split; [exact Hin|].
      apply String.eqb_refl. }
    rewrite Hincl.
    assert (Hr : (role =? "")%string = false).
    { apply String.eqb_neq. intros ->.
      cbn in Hin. intuition discriminate. }
    apply String.eqb_neq in Hnonempty.
    now rewrite Hr, Hnonempty.
Qed.

(** The loop accepts an array exactly when each of its messages is
    well-formed. *)
Lemma Chat_check_accepts (items : list value) :
  forall i : nat,
    Chat.check_messages i items = None <-> Forall well_formed items.
Proof.
  induction items as [|msg rest IH]; intros i.
  - split; [constructor | reflexivity].
  - rewrite Chat_check_step.
    destruct (passes msg) eqn:Hpass.
    + rewrite IH. split.
      * intros Hrest. constructor; [now apply passes_well_formed | exact Hrest].
      * intros Hall. now inversion Hall.
    + destruct (Chat_check_fails i msg Hpass) as [what ->]. split.
      * discriminate.
      * intros Hall. inversion Hall as [|? ? Hmsg _]; subst.
        apply passes_well_formed in Hmsg. congruence.
Qed.

(** X1: [validateMessages] of [api/chat.js] accepts exactly the arrays of 1
    to 100 messages each of which is an object with one of the roles
    [system], [user], [assistant] and a content that is a string and not
    empty. *)
Theorem X1_validateMessages_accepts_exactly (messages : value) :
  Chat.validateMessages messages = None
  <-> exists items : list value,
        messages = VArr items
        /\ (1 <= List.length items <= 100)%nat
        /\ Forall well_formed items.
Proof.
  split.
  - destruct messages; cbn [Chat.validateMessages]; try discriminate.
    destruct (List.length items =? 0)%nat eqn:Hempty; [discriminate|].
    destruct (100 <? List.length items)%nat eqn:Hmany; [discriminate|].
    intros Hcheck. exists items. split; [reflexivity|]. split.
    + apply Nat.eqb_neq in Hempty. apply Nat.ltb_ge in Hmany. lia.
    + now apply (Chat_check_accepts items 0).
  - intros [items [-> [[Hone Hmany] Hall]]]. cbn [Chat.validateMessages].
    replace (List.length items =? 0)%nat with false
      by (symmetry; apply Nat.eqb_neq; lia).
    replace (100 <? List.length items)%nat with false
      by (symmetry; apply Nat.ltb_ge; lia).
    now apply Chat_check_accepts.
Qed.

(** X2: when the messages before it are well-formed, the error of
    [validateMessages] names the index of the first message that is not
    (for an array of at most 100 messages). *)
Theorem X2_error_names_first_invalid_index
    (pre post : list value) (bad : value) :
  Forall well_formed pre ->
  ~ well_formed bad ->
  (List.length (pre ++ bad :: post) <= 100)%nat ->
  exists what : string,
    Chat.validateMessages (VArr (pre ++ bad :: post))
    = Some ("Message at index " ++ int_string (Z.of_nat (List.length pre))
              ++ what).
Proof.
  intros Hpre Hbad Hfew. unfold Chat.validateMessages.
  replace (List.length (pre ++ bad :: post) =? 0)%nat with false
    by (symmetry; apply Nat.eqb_neq; rewrite length_app; cbn; lia).
  replace (100 <? List.length (pre ++ bad :: post))%nat with false
    by (symmetry; apply Nat.ltb_ge; lia).
  apply (Chat_check_accepts pre 0) in Hpre.
  rewrite (Chat_check_app pre (bad :: post) 0 Hpre), Chat_check_step.
  destruct (passes bad) eqn:Hpass.
  - apply passes_well_formed in Hpass. contradiction.
  - exact (Chat_check_fails _ bad Hpass).
Qed.

Lemma X2_error_names_first_invalid_index_witness :
  exists what : string,
    Chat.validateMessages (VArr [hi; hi; message "robot" "hello"; hi])
    = Some ("Message at index 2" ++ what).
Proof.
  apply (X2_error_names_first_invalid_index [hi; hi] [hi]
           (message "robot" "hello")).
  - repeat constructor;
      exists [("role", VStr "user"); ("content", VStr "hi")], "user", "hi";
      cbn; intuition discriminate.
  - intros [props [role [content [Hmsg [Hrole [Hin _]]]]]].
    injection Hmsg as <-. cbn in Hrole. injection Hrole as <-.
    cbn in Hin. intuition discriminate.
  - cbn. lia.
Defined.

(** ** Methods *)

(** X3: a request whose method is not empty and not [OPTIONS], [GET] or
    [POST] is answered
    by each of the six handlers with status 405 and the error
    [Method not allowed], whatever the environment, without an upstream
    call. *)
Theorem X3_method_not_allowed
    (env : Env) (up : Upstream) (req : Request) (w : World) :
  req_method req <> "" ->
  req_method req <> "OPTIONS" ->
  req_method req <> "GET" ->
  req_method req <> "POST" ->
  forall handler : Env -> Upstream -> Request -> M Response,
    In handler [Chat.handler; App.handler; Plain.handler; Allow.handler;
                Stream1.handler; Stream2.handler] ->
    exists resp : Response,
      handler env up req w = (Ok resp, w)
      /\ status resp = 405
      /\ body resp = Json (VObj [("error", VStr "Method not allowed")]).
Proof.
  intros Hempty Hoptions Hget Hpost handler Hin.
  apply String.eqb_neq in Hempty, Hoptions, Hget, Hpost.
  cbn [In] in Hin.
  destruct Hin as [<- | [<- | [<- | [<- | [<- | [<- | []]]]]]];
    unfold Chat.handler, App.handler, Plain.handler, Allow.handler,
      Stream1.handler, Stream2.handler, try_catch;
    rewrite ?Hempty, ?Hoptions, ?Hget, ?Hpost.
  all: eexists; split; [reflexivity | split; reflexivity].
Qed.

Lemma X3_method_not_allowed_witness :
  exists resp : Response,
    Stream1.handler env_no_key (answering 10 200 "{}")
      (mkRequest "DELETE" [] None) world
    = (Ok resp, world)
    /\ status resp = 405
    /\ body resp = Json (VObj [("error", VStr "Method not allowed")]).
Proof.
  apply (X3_method_not_allowed env_no_key (answering 10 200 "{}")
           (mkRequest "DELETE" [] None) world);
    try discriminate.
  cbn. tauto.
Defined.

(** X4: a [GET] is answered by each of the six handlers with status 200 and
    a JSON object whose [ok] is [true], whatever the environment, also when
    no credential is configured, and without an upstream call. *)
Theorem X4_health_check
    (env : Env) (up : Upstream) (req : Request) (w : World) :
  req_method req = "GET" ->
  forall handler : Env -> Upstream -> Request -> M Response,
    In handler [Chat.handler; App.handler; Plain.handler; Allow.handler;
                Stream1.handler; Stream2.handler] ->
    exists (resp : Response) (obj : value),
      handler env up req w = (Ok resp, w)
      /\ status resp = 200
      /\ body resp = Json obj
      /\ prop obj "ok" = VBool true.
Proof.
  intros Hget handler Hin. cbn [In] in Hin.
  destruct Hin as [<- | [<- | [<- | [<- | [<- | [<- | []]]]]]];
    unfold Chat.handler, App.handler, Plain.handler, Allow.handler,
      Stream1.handler, Stream2.handler, try_catch;
    rewrite Hget.
  all: eexists; eexists; split;
    [reflexivity | split; [reflexivity | split; reflexivity]].
Qed.

Lemma X4_health_check_witness :
  exists (resp : Response) (obj : value),
    App.handler env_no_key (answering 10 200 "{}") (mkRequest "GET" [] None)
      world
    = (Ok resp, world)
    /\ status resp = 200
    /\ body resp = Json obj
    /\ prop obj "ok" = VBool true.
Proof.
  apply (X4_health_check env_no_key (answering 10 200 "{}")
           (mkRequest "GET" [] None) world eq_refl).
  cbn. tauto.
Defined.

(** ** The upstream calls of a request *)

Section CallsAlong.

Context {A : Type}.

Lemma silent_ret (a : A) : silent (ret a).
Proof. intros w. reflexivity. Qed.

Lemma silent_lift (r : result A) : silent (lift r).
Proof. intros w. reflexivity. Qed.

Lemma silent_throw (e : JsError) : silent (throw (A := A) e).
Proof. intros w. reflexivity. Qed.

Lemma silent_bind {B : Type} (m : M B) (k : B -> M A) :
  silent m -> (forall b, silent (k b)) -> silent (bind m k).
Proof.
  intros Hm Hk w. unfold bind. specialize (Hm w).
  destruct (m w) as [[b|e] w']; cbn [snd] in *.
  - now rewrite (Hk b w').
  - exact Hm.
Qed.

Lemma silent_try (m : M A) (h : JsError -> M A) :
  silent m -> (forall e, silent (h e)) -> silent (try_catch m h).
Proof.
  intros Hm Hh w. unfold try_catch. specialize (Hm w).
  destruct (m w) as [[a|e] w']; cbn [snd] in *.
  - exact Hm.
  - now rewrite (Hh e w').
Qed.

Context (good : FetchCall -> Prop).

Lemma once_silent (m : M A) : silent m -> once good m.
Proof. intros Hm w. left. apply Hm. Qed.

Lemma once_bind_fetch (up : Upstream) (c : FetchCall) (k : UpResponse -> M A) :
  good c -> (forall r, silent (k r)) -> once good (bind (fetch up c) k).
Proof.
  intros Hc Hk w. right. unfold bind.
  destruct (fetch_logged up c w) as [e He].
  destruct (fetch up c w) as [[r|err] w']; cbn [snd] in *; subst w'.
  - exists c, e. split; [exact Hc|]. now rewrite (Hk r).
  - exists c, e. split; [exact Hc | reflexivity].
Qed.

Lemma once_bind_lift {B : Type} (r : result B) (k : B -> M A) :
  (forall b, r = Ok b -> once good (k b)) -> once good (bind (lift r) k).
Proof.
  intros Hk w. unfold bind, lift. destruct r as [b|e].
  - now apply Hk.
  - now left.
Qed.

Lemma once_try (m : M A) (h : JsError -> M A) :
  once good m -> (forall e, silent (h e)) -> once good (try_catch m h).
Proof.
  intros Hm Hh w. unfold try_catch. specialize (Hm w).
  destruct (m w) as [[a|e] w']; cbn [snd] in *.
  - exact Hm.
  - now rewrite (Hh e w').
Qed.

End CallsAlong.

Lemma silent_trackRequest : silent App.trackRequest.
Proof. intros w. reflexivity. Qed.

(** Steps along a computation that issues no call. *)
Ltac quiet :=
  repeat first
    [ apply silent_lift
    | apply silent_ret
    | apply silent_throw
    | apply silent_trackRequest
    | apply silent_bind; [|intros]
    | apply silent_try; [|intros]
    | match goal with
      | |- silent (if ?b then _ else _) => destruct b
      | |- silent (match ?x with _ => _ end) => destruct x
      end ].

(** The calls of [api/chat.js]. *)
Lemma Chat_calls (env : Env) (up : Upstream) (req : Request) :
  once (fun c => authorized env c /\ model_in Chat.validModels c)
       (Chat.handler env up req).
Proof.
  unfold Chat.handler. cbv zeta.
  apply once_try; [|intros; quiet].
  destruct (req_method req =? "OPTIONS")%string; [apply once_silent; quiet|].
  destruct (req_method req =? "GET")%string; [apply once_silent; quiet|].
  destruct (negb (req_method req =? "POST")%string);
    [apply once_silent; quiet|].
  destruct (negb (Chat.is_json req)); [apply once_silent; quiet|].
  destruct (credential env) as [apiKey|] eqn:Hkey; [|apply once_silent; quiet].
  destruct (req_json req) as [parsed|]; [|apply once_silent; quiet].
  destruct (Chat.validateMessages (prop (coalesce parsed (VObj [])) "messages"));
    [apply once_silent; quiet|].
  destruct (Chat.validateModel
              (default_to (prop (coalesce parsed (VObj [])) "model")
                          (VStr Chat.defaultModel))) eqn:Hmodel;
    cbn [negb]; [|apply once_silent; quiet].
  assert (Hgood : forall c : FetchCall,
             In (url c) endpoints ->
             authorization c = "Bearer " ++ apiKey ->
             prop (payload c) "model"
             = default_to (prop (coalesce parsed (VObj [])) "model")
                          (VStr Chat.defaultModel) ->
             authorized env c /\ model_in Chat.validModels c).
  { intros c Hurl Hauth Hm. split.
    - split; [exact Hurl | now exists apiKey].
    - unfold model_in. now rewrite Hm. }
  destruct (negb (truthy (default_to (prop (coalesce parsed (VObj []))
                                        "useResponsesApi") (VBool false)))).
  - apply once_try; [|intros; unfold Chat.on_fetch_error; quiet].
    apply once_bind_fetch.
    + apply Hgood; cbn; auto.
    + intros r. unfold Chat.relay. quiet.
  - apply once_try; [|intros; unfold Chat.on_fetch_error; quiet].
    apply once_bind_lift. intros inputs _.
    apply once_bind_fetch.
    + apply Hgood; cbn; auto.
    + intros r. unfold Chat.relay. quiet.
Qed.

Lemma once_bind_silent {A B : Type} (good : FetchCall -> Prop)
    (m : M B) (k : B -> M A) :
  silent m -> (forall b, once good (k b)) -> once good (bind m k).
Proof.
  intros Hm Hk w. unfold bind. specialize (Hm w).
  destruct (m w) as [[b|e] w']; cbn [snd] in *.
  - specialize (Hk b w'). now rewrite Hm in Hk.
  - now left.
Qed.

Lemma once_weaken {A : Type} (good good' : FetchCall -> Prop) (m : M A) :
  (forall c, good c -> good' c) -> once good m -> once good' m.
Proof.
  intros Himp Hm w. destruct (Hm w) as [Hsame | [c [e [Hc Hone]]]].
  - now left.
  - right. exists c, e. split; [now apply Himp | exact Hone].
Qed.

(** The model that [validateRequest] returns is in the allow-list. *)
Lemma App_valid_model (env : Env) (payload messages model : value) :
  App.validateRequest env payload = Ok (App.Valid messages model) ->
  includes App.ALLOWED_MODELS model = true.
Proof.
  unfold App.validateRequest.
  destruct (prop (or_else payload (VObj [])) "messages"); try discriminate.
  destruct (App.exceeds env items) as [[|]|]; try discriminate.
  destruct (includes App.ALLOWED_MODELS
              (prop (or_else payload (VObj [])) "model")) eqn:Hmodel;
    intros [= _ <-]; [exact Hmodel | reflexivity].
Qed.

Lemma Stream2_valid_model (env : Env) (payload messages model : value) :
  Stream2.validateRequest env payload = Ok (Stream2.Valid messages model) ->
  includes Stream2.ALLOWED_MODELS model = true.
Proof.
  unfold Stream2.validateRequest.
  destruct (prop (or_else payload (VObj [])) "messages"); try discriminate.
  destruct items as [|first others]; [discriminate|].
  destruct (Stream2.exceeds env (first :: others)) as [[|]|]; try discriminate.
  destruct (includes Stream2.ALLOWED_MODELS
              (prop (or_else payload (VObj [])) "model")) eqn:Hmodel;
    intros [= _ <-]; [exact Hmodel | reflexivity].
Qed.

(** The calls of [scripts/app.js]. *)
Lemma App_calls (env : Env) (up : Upstream) (req : Request) :
  once (fun c => authorized env c /\ model_in App.ALLOWED_MODELS c)
       (App.handler env up req).
Proof.
  unfold App.handler. cbv zeta.
  apply once_try; [|intros; quiet].
  destruct ((if (req_method req =? "")%string then "GET" else req_method req)
            =? "OPTIONS")%string; [apply once_silent; quiet|].
  destruct ((if (req_method req =? "")%string then "GET" else req_method req)
            =? "GET")%string; [apply once_silent; quiet|].
  destruct (negb ((if (req_method req =? "")%string then "GET"
                   else req_method req) =? "POST")%string);
    [apply once_silent; quiet|].
  destruct (credential env) as [apiKey|] eqn:Hkey; [|apply once_silent; quiet].
  destruct (req_json req) as [payload|]; [|apply once_silent; quiet].
  apply once_bind_lift. intros [error status | messages model] Hvalid;
    [apply once_silent; quiet|].
  apply once_bind_fetch.
  - split.
    + split; [cbn; auto | now exists apiKey].
    + unfold model_in. cbn. exact (App_valid_model _ _ _ _ Hvalid).
  - intros r. unfold App.handleOpenAIResponse. quiet.
Qed.

(** The calls of [part_000], which has no allow-list. *)
Lemma Plain_calls (env : Env) (up : Upstream) (req : Request) :
  once (authorized env) (Plain.handler env up req).
Proof.
  unfold Plain.handler. cbv zeta.
  apply once_try; [|intros; quiet].
  destruct (req_method req =? "OPTIONS")%string; [apply once_silent; quiet|].
  destruct (req_method req =? "GET")%string; [apply once_silent; quiet|].
  destruct (negb (req_method req =? "POST")%string);
    [apply once_silent; quiet|].
  destruct (credential env) as [apiKey|] eqn:Hkey; [|apply once_silent; quiet].
  destruct (req_json req) as [parsed|]; [|apply once_silent; quiet].
  destruct (negb (isArray (prop (coalesce parsed (VObj [])) "messages")));
    [apply once_silent; quiet|].
  destruct (negb (truthy (default_to (prop (coalesce parsed (VObj []))
                                        "useResponsesApi") (VBool false))));
    (apply once_bind_fetch;
     [split; [cbn; auto | now exists apiKey]
     | intros r; unfold Plain.relay; quiet]).
Qed.

(** The calls of the first handler of [part_002]. *)
Lemma Allow_calls (env : Env) (up : Upstream) (req : Request) :
  once (fun c => authorized env c /\ model_in Allow.ALLOWED_MODELS c)
       (Allow.handler env up req).
Proof.
  unfold Allow.handler. cbv zeta.
  apply once_try; [|intros; quiet].
  destruct ((if (req_method req =? "")%string then "GET" else req_method req)
            =? "OPTIONS")%string; [apply once_silent; quiet|].
  destruct ((if (req_method req =? "")%string then "GET" else req_method req)
            =? "GET")%string; [apply once_silent; quiet|].
  destruct (negb ((if (req_method req =? "")%string then "GET"
                   else req_method req) =? "POST")%string);
    [apply once_silent; quiet|].
  destruct (credential env) as [apiKey|] eqn:Hkey; [|apply once_silent; quiet].
  destruct (req_json req) as [sent|]; [|apply once_silent; quiet].
  destruct (negb (isArray (prop (or_else sent (VObj [])) "messages")));
    [apply once_silent; quiet|].
  apply once_bind_fetch.
  - split.
    + split; [cbn; auto | now exists apiKey].
    + unfold model_in. cbn -[includes Allow.ALLOWED_MODELS or_else].
      destruct (includes Allow.ALLOWED_MODELS
                  (prop (or_else sent (VObj [])) "model")) eqn:Hmodel;
        [exact Hmodel | reflexivity].
  - intros r. quiet.
Qed.

(** The calls of [part_001], whose model is fixed. *)
Lemma Stream1_calls (env : Env) (up : Upstream) (req : Request) :
  once (fun c => authorized env c /\ model_in [Stream1.model] c)
       (Stream1.handler env up req).
Proof.
  unfold Stream1.handler. cbv zeta.
  destruct ((if (req_method req =? "")%string then "GET" else req_method req)
            =? "OPTIONS")%string; [apply once_silent; quiet|].
  apply once_try; [|intros; quiet].
  destruct ((if (req_method req =? "")%string then "GET" else req_method req)
            =? "GET")%string; [apply once_silent; quiet|].
  destruct (negb ((if (req_method req =? "")%string then "GET"
                   else req_method req) =? "POST")%string);
    [apply once_silent; quiet|].
  destruct (credential env) as [apiKey|] eqn:Hkey; [|apply once_silent; quiet].
  destruct (req_json req) as [payload|]; [|apply once_silent; quiet].
  match goal with
  | |- once _ (if ?b then _ else _) => destruct b; [apply once_silent; quiet|]
  end.
  apply once_bind_fetch.
  - split.
    + split; [cbn; auto | now exists apiKey].
    + reflexivity.
  - intros r. unfold Stream1.upstream_error. quiet.
Qed.

(** The calls of the streaming handler of [part_002]. *)
Lemma Stream2_calls (env : Env) (up : Upstream) (req : Request) :
  once (fun c => authorized env c /\ model_in Stream2.ALLOWED_MODELS c)
       (Stream2.handler env up req).
Proof.
  unfold Stream2.handler. cbv zeta.
  apply once_try; [|intros; quiet].
  destruct ((if (req_method req =? "")%string then "GET" else req_method req)
            =? "OPTIONS")%string; [apply once_silent; quiet|].
  destruct ((if (req_method req =? "")%string then "GET" else req_method req)
            =? "GET")%string; [apply once_silent; quiet|].
  destruct (negb ((if (req_method req =? "")%string then "GET"
                   else req_method req) =? "POST")%string);
    [apply once_silent; quiet|].
  destruct (credential env) as [apiKey|] eqn:Hkey; [|apply once_silent; quiet].
  destruct (req_json req) as [payload|]; [|apply once_silent; quiet].
  apply once_bind_lift. intros [error status | messages model] Hvalid;
    [apply once_silent; quiet|].
  apply once_bind_silent; [quiet|]. intros controller.
  apply once_bind_fetch.
  - split.
    + split; [cbn; auto | now exists apiKey].
    + unfold model_in. cbn. exact (Stream2_valid_model _ _ _ _ Hvalid).
  - intros r. unfold Stream2.upstream_error. quiet.
Qed.

(** What [once] says of the calls in the log. *)
Lemma once_log {A : Type} (good : FetchCall -> Prop) (m : M A) (w : World) :
  once good m ->
  forall c e, In (c, e) (fetches (snd (m w))) ->
              In (c, e) (fetches w) \/ good c.
Proof.
  intros Hm c e Hin. destruct (Hm w) as [Hsame | [c' [e' [Hc Hone]]]].
  - left. now rewrite <- Hsame.
  - rewrite Hone in Hin. destruct Hin as [[= <- <-] | Hin]; [now right | now left].
Qed.

Lemma includes_In (models : list string) (v : value) :
  includes models v = true -> exists m, v = VStr m /\ In m models.
Proof.
  destruct v; cbn; try discriminate. intros Hin.
  apply existsb_exists in Hin as [m [Hm Heq]].
  apply String.eqb_eq in Heq. subst m. now exists s.
Qed.

(** X5: a request causes at most one upstream call in each of the six
    handlers, however the call ends: no handler calls the upstream a second
    time. *)
Theorem X5_at_most_one_upstream_call
    (env : Env) (up : Upstream) (req : Request) (w : World) :
  forall handler : Env -> Upstream -> Request -> M Response,
    In handler [Chat.handler; App.handler; Plain.handler; Allow.handler;
                Stream1.handler; Stream2.handler] ->
    fetches (snd (handler env up req w)) = fetches w
    \/ exists (c : FetchCall) (e : FetchEnd),
         fetches (snd (handler env up req w)) = (c, e) :: fetches w.
Proof.
  intros handler Hin.
  assert (Hone : once (fun _ => True) (handler env up req)).
  { cbn [In] in Hin.
    destruct Hin as [<- | [<- | [<- | [<- | [<- | [<- | []]]]]]].
    - exact (once_weaken _ _ _ (fun _ _ => I) (Chat_calls env up req)).
    - exact (once_weaken _ _ _ (fun _ _ => I) (App_calls env up req)).
    - exact (once_weaken _ _ _ (fun _ _ => I) (Plain_calls env up req)).
    - exact (once_weaken _ _ _ (fun _ _ => I) (Allow_calls env up req)).
    - exact (once_weaken _ _ _ (fun _ _ => I) (Stream1_calls env up req)).
    - exact (once_weaken _ _ _ (fun _ _ => I) (Stream2_calls env up req)). }
  destruct (Hone w) as [Hsame | [c [e [_ Hcall]]]]; [now left|].
  right. now exists c, e.
Qed.

Lemma X5_at_most_one_upstream_call_witness :
  fetches (snd (App.handler Sample.env (answering 10 500 "")
                  (post (with_messages [hi])) world))
  = fetches world
  \/ exists (c : FetchCall) (e : FetchEnd),
       fetches (snd (App.handler Sample.env (answering 10 500 "")
                       (post (with_messages [hi])) world))
       = (c, e) :: fetches world.
Proof.
  apply (X5_at_most_one_upstream_call Sample.env (answering 10 500 "")
           (post (with_messages [hi])) world App.handler).
  cbn. tauto.
Defined.

(** X6: every upstream call of the six handlers goes to one of the two
    OpenAI endpoints and carries the configured credential as its bearer
    token.  Without a credential no request causes a call, whatever its
    method. *)
Theorem X6_calls_carry_the_credential
    (env : Env) (up : Upstream) (req : Request) (w : World) :
  forall handler : Env -> Upstream -> Request -> M Response,
    In handler [Chat.handler; App.handler; Plain.handler; Allow.handler;
                Stream1.handler; Stream2.handler] ->
    (forall c e,
        In (c, e) (fetches (snd (handler env up req w))) ->
        In (c, e) (fetches w)
        \/ (In (url c) ["https://api.openai.com/v1/chat/completions";
                        "https://api.openai.com/v1/responses"]
            /\ exists apiKey : string,
                 credential env = Some apiKey
                 /\ authorization c = "Bearer " ++ apiKey))
    /\ (credential env = None ->
        fetches (snd (handler env up req w)) = fetches w).
Proof.
  intros handler Hin.
  assert (Hone : once (authorized env) (handler env up req)).
  { cbn [In] in Hin.
    destruct Hin as [<- | [<- | [<- | [<- | [<- | [<- | []]]]]]].
    - exact (once_weaken _ _ _ (fun c H => proj1 H) (Chat_calls env up req)).
    - exact (once_weaken _ _ _ (fun c H => proj1 H) (App_calls env up req)).
    - exact (Plain_calls env up req).
    - exact (once_weaken _ _ _ (fun c H => proj1 H) (Allow_calls env up req)).
    - exact (once_weaken _ _ _ (fun c H => proj1 H) (Stream1_calls env up req)).
    - exact (once_weaken _ _ _ (fun c H => proj1 H) (Stream2_calls env up req)). }
  split.
  - intros c e Hlog. exact (once_log _ _ w Hone c e Hlog).
  - intros Hnone. destruct (Hone w) as [Hsame | [c [e [Hauth _]]]];
      [exact Hsame|].
    destruct Hauth as [_ [apiKey [Hkey _]]]. congruence.
Qed.

Lemma X6_calls_carry_the_credential_witness :
  (forall c e,
      In (c, e) (fetches (snd (Chat.handler Sample.env (answering 10 200 "{}")
                                 (post (with_messages [hi])) world))) ->
      In (c, e) (fetches world)
      \/ (In (url c) ["https://api.openai.com/v1/chat/completions";
                      "https://api.openai.com/v1/responses"]
          /\ exists apiKey : string,
               credential Sample.env = Some apiKey
               /\ authorization c = "Bearer " ++ apiKey))
  /\ (credential Sample.env = None ->
      fetches (snd (Chat.handler Sample.env (answering 10 200 "{}")
                      (post (with_messages [hi])) world))
      = fetches world).
Proof.
  apply (X6_calls_carry_the_credential Sample.env (answering 10 200 "{}")
           (post (with_messages [hi])) world Chat.handler).
  cbn. tauto.
Defined.

(** X7: the model of an upstream call is always one of the handler's
    allow-list, in the four handlers that have one, and [gpt-3.5-turbo] in
    [part_001]: no request makes these handlers name another model to the
    upstream. *)
Theorem X7_model_sent_is_allowed
    (env : Env) (up : Upstream) (req : Request) (w : World) :
  forall (handler : Env -> Upstream -> Request -> M Response)
         (models : list string),
    In (handler, models)
       [(Chat.handler, Chat.validModels);
        (App.handler, App.ALLOWED_MODELS);
        (Allow.handler, Allow.ALLOWED_MODELS);
        (Stream1.handler, ["gpt-3.5-turbo"]);
        (Stream2.handler, Stream2.ALLOWED_MODELS)] ->
    forall c e,
      In (c, e) (fetches (snd (handler env up req w))) ->
      In (c, e) (fetches w)
      \/ exists model : string,
           prop (payload c) "model" = VStr model /\ In model models.
Proof.
  intros handler models Hin.
  assert (Hone : once (model_in models) (handler env up req)).
  { cbn [In] in Hin.
    destruct Hin as [[= <- <-] | [[= <- <-] | [[= <- <-] | [[= <- <-]
                    | [[= <- <-] | []]]]]].
    - exact (once_weaken _ _ _ (fun c H => proj2 H) (Chat_calls env up req)).
    - exact (once_weaken _ _ _ (fun c H => proj2 H) (App_calls env up req)).
    - exact (once_weaken _ _ _ (fun c H => proj2 H) (Allow_calls env up req)).
    - exact (once_weaken _ _ _ (fun c H => proj2 H) (Stream1_calls env up req)).
    - exact (once_weaken _ _ _ (fun c H => proj2 H) (Stream2_calls env up req)). }
  intros c e Hlog.
  destruct (once_log _ _ w Hone c e Hlog) as [Hold | Hmodel]; [now left|].
  right. now apply includes_In.
Qed.

Lemma X7_model_sent_is_allowed_witness :
  In (App.handler, App.ALLOWED_MODELS)
     [(Chat.handler, Chat.validModels);
      (App.handler, App.ALLOWED_MODELS);
      (Allow.handler, Allow.ALLOWED_MODELS);
      (Stream1.handler, ["gpt-3.5-turbo"]);
      (Stream2.handler, Stream2.ALLOWED_MODELS)]
  /\ forall c e,
       In (c, e) (fetches (snd (App.handler Sample.env (answering 10 200 "{}")
                                  (post (with_model "gpt-5" [hi])) world))) ->
       In (c, e) (fetches world)
       \/ exists model : string,
            prop (payload c) "model" = VStr model
            /\ In model App.ALLOWED_MODELS.
Proof.
  split; [cbn; tauto|].
  apply (X7_model_sent_is_allowed Sample.env (answering 10 200 "{}")
           (post (with_model "gpt-5" [hi])) world App.handler
           App.ALLOWED_MODELS).
  cbn. tauto.
Defined.

(** ** What becomes of the upstream's answer *)

(** Induction on a value, with the elements of an array. *)
Lemma value_elements_ind (P : value -> Prop) :
  P VUndefined -> P VNull -> (forall b, P (VBool b)) -> (forall n, P (VNum n)) ->
  (forall d, P (VFrac d)) -> (forall s, P (VStr s)) ->
  (forall items, Forall P items -> P (VArr items)) ->
  (forall props, P (VObj props)) ->
  forall v, P v.
Proof.
  intros Hu Hn Hb Hnum Hf Hs Ha Ho.
  fix IH 1.
  intros [| |b|n|d|s|items|props];
    [exact Hu | exact Hn | apply Hb | apply Hnum | apply Hf | apply Hs
    | | apply Ho].
  apply Ha.
  exact ((fix all (l : list value) : Forall P l :=
            match l with
            | [] => Forall_nil P
            | x :: rest => Forall_cons x (IH x) (all rest)
            end) items).
Qed.

Lemma to_string_single (x : value) :
  to_string (VArr [x]) = element_text x.
Proof. reflexivity. Qed.

Lemma to_string_cons (x y : value) (rest : list value) :
  to_string (VArr (x :: y :: rest))
  = match element_text x with
    | Throw e => Throw e
    | Ok first =>
        match to_string (VArr (y :: rest)) with
        | Throw e => Throw e
        | Ok others => Ok (first ++ "," ++ others)
        end
    end.
Proof. reflexivity. Qed.

(** The one error of a conversion to a string: an object that has an own
    property [toString] is met. *)
Lemma to_string_throws (v : value) (e : JsError) :
  to_string v = Throw e -> e = cannot_convert.
Proof.
  revert e. induction v as [| |b|n|d|s|items Hitems|props]
    using value_elements_ind; intros e; try discriminate.
  - destruct b; discriminate.
  - revert e. induction Hitems as [|x rest Hx _ IH]; intros e; [discriminate|].
    assert (Helement : forall e0, element_text x = Throw e0 ->
                                  e0 = cannot_convert).
    { unfold element_text. destruct x; try discriminate; exact Hx. }
    destruct rest as [|y rest].
    + rewrite to_string_single. apply Helement.
    + rewrite to_string_cons.
      destruct (element_text x) as [first|e1].
      * destruct (to_string (VArr (y :: rest))) as [others|e2];
          [discriminate|].
        intros [= <-]. now apply IH.
      * intros [= <-]. now apply Helement.
  - cbn. destruct (own "toString" props); [|discriminate].
    now intros [= <-].
Qed.

(** X8: [api/chat.js] never forwards the upstream's status.  Once the
    upstream's text is read, the [try] block and its [catch] answer 200,
    with the parsed body as it is, exactly when the upstream's status is
    2xx and its text is empty or JSON.  They answer 503 and
    [Network error] exactly when the status is not 2xx, the text is JSON
    and the detail of the error has no text, so that the template literal
    throws.  They answer 502 in every other case.  Nothing is changed in
    the log. *)
Theorem X8_chat_answers_200_502_or_503
    (env : Env) (upstream : UpResponse) (text : string) (w : World) :
  up_text upstream = Ok text ->
  exists resp : Response,
    try_catch (Chat.relay env upstream) Chat.on_fetch_error w = (Ok resp, w)
    /\ (status resp = 200 \/ status resp = 502 \/ status resp = 503)
    /\ (status resp = 200
        <-> up_ok upstream = true
            /\ (text = "" \/ exists data, JSON_parse env text = Some data))
    /\ (status resp = 200 ->
        (text = "" /\ body resp = Json VNull)
        \/ (exists data, JSON_parse env text = Some data
                         /\ body resp = json_body data))
    /\ (status resp = 503
        <-> up_ok upstream = false
            /\ exists (data : value) (e : JsError),
                 text <> ""
                 /\ JSON_parse env text = Some data
                 /\ to_string
                      (or_else
                         (or_else (opt_prop (opt_prop data "error") "message")
                                  (VStr text))
                         (VStr ("HTTP " ++ int_string (up_status upstream))))
                    = Throw e)
    /\ (status resp = 503 -> body resp = Json (error_body "Network error")).
Proof.
  intros Htext. unfold Chat.relay, try_catch, bind, lift. rewrite Htext.
  destruct (text =? "")%string eqn:Hempty.
  - apply String.eqb_eq in Hempty. subst text.
    destruct (up_ok upstream); cbn [negb].
    + eexists. split; [reflexivity|]. cbn. split; [now left|].
      split; [tauto|]. split; [intros _; now left|].
      split; [|discriminate].
      split; [discriminate | intros [Hok _]; discriminate Hok].
    + eexists. split; [reflexivity|]. cbn. split; [right; now left|].
      split; [split; [discriminate | intros [Hok _]; discriminate Hok]|].
      split; [discriminate|].
      split; [|discriminate].
      split; [discriminate|].
      intros [_ [data [e [Hnonempty _]]]]. now contradiction Hnonempty.
  - apply String.eqb_neq in Hempty.
    destruct (JSON_parse env text) as [data|].
    + destruct (up_ok upstream); cbn [negb].
      * eexists. split; [reflexivity|]. cbn. split; [now left|].
        split; [split; [intros _; split; [reflexivity|right; now exists data]
                       | reflexivity]|].
        split; [intros _; right; exists data; now split|].
        split; [|discriminate].
        split; [discriminate | intros [Hok _]; discriminate Hok].
      * destruct (to_string
                    (or_else
                       (or_else (opt_prop (opt_prop data "error") "message")
                                (VStr text))
                       (VStr ("HTTP " ++ int_string (up_status upstream)))))
          as [shown|e] eqn:Hshown.
        -- eexists. split; [reflexivity|]. cbn. split; [right; now left|].
           split; [split; [discriminate | intros [Hok _]; discriminate Hok]|].
           split; [discriminate|].
           split; [|discriminate].
           split; [discriminate|].
           intros [_ [data' [e [_ [[= <-] Hthrow]]]]].
           cbn in Hshown. congruence.
        -- unfold Chat.on_fetch_error.
           assert (Hname : (err_name e =? "AbortError")%string = false)
             by now rewrite (to_string_throws _ _ Hshown).
           rewrite Hname.
           eexists. split; [reflexivity|]. cbn. split; [right; now right|].
           split; [split; [discriminate | intros [Hok _]; discriminate Hok]|].
           split; [discriminate|].
           split; [|reflexivity].
           split; [|reflexivity].
           intros _. split; [reflexivity|]. now exists data, e.
    + eexists. split; [reflexivity|]. cbn. split; [right; now left|].
      split; [split; [discriminate|]|].
      { intros [_ [Hnil | [data Hdata]]]; [contradiction | discriminate]. }
      split; [discriminate|].
      split; [|discriminate].
      split; [discriminate|].
      intros [_ [data [e [_ [Hparse _]]]]]. discriminate Hparse.
Qed.

Lemma X8_chat_answers_200_502_or_503_witness :
  exists resp : Response,
    try_catch (Chat.relay Sample.env (mkUp 429 None (Ok "{}")))
              Chat.on_fetch_error world
    = (Ok resp, world)
    /\ (status resp = 200 \/ status resp = 502 \/ status resp = 503)
    /\ (status resp = 200
        <-> up_ok (mkUp 429 None (Ok "{}")) = true
            /\ ("{}" = "" \/ exists data, JSON_parse Sample.env "{}" = Some data))
    /\ (status resp = 200 ->
        ("{}" = "" /\ body resp = Json VNull)
        \/ (exists data, JSON_parse Sample.env "{}" = Some data
                         /\ body resp = json_body data))
    /\ (status resp = 503
        <-> up_ok (mkUp 429 None (Ok "{}")) = false
            /\ exists (data : value) (e : JsError),
                 "{}" <> ""
                 /\ JSON_parse Sample.env "{}" = Some data
                 /\ to_string
                      (or_else
                         (or_else (opt_prop (opt_prop data "error") "message")
                                  (VStr "{}"))
                         (VStr ("HTTP "
                                  ++ int_string
                                       (up_status (mkUp 429 None (Ok "{}"))))))
                    = Throw e)
    /\ (status resp = 503 -> body resp = Json (error_body "Network error")).
Proof.
  apply (X8_chat_answers_200_502_or_503 Sample.env (mkUp 429 None (Ok "{}"))
           "{}" world).
  reflexivity.
Defined.

(** ** The success answer of [scripts/app.js] *)

(** A property that is set is found, and the others are as before. *)
Lemma lookup_set_prop_same (k : string) (v : value)
    (props : list (string * value)) :
  lookup k (set_prop k v props) = v.
Proof.
  induction props as [|[k' v'] rest IH]; cbn.
  - now rewrite String.eqb_refl.
  - destruct (k =? k')%string eqn:Hk; cbn.
    + now rewrite String.eqb_refl.
    + now rewrite Hk.
Qed.

Lemma lookup_set_prop_other (k k' : string) (v : value)
    (props : list (string * value)) :
  k' <> k ->
  lookup k' (set_prop k v props) = lookup k' props.
Proof.
  intros Hother. apply String.eqb_neq in Hother.
  induction props as [|[k0 v0] rest IH]; cbn.
  - now rewrite Hother.
  - destruct (k =? k0)%string eqn:Hk; cbn.
    + apply String.eqb_eq in Hk. subst k0. now rewrite Hother.
    + destruct (k' =? k0)%string; [reflexivity | exact IH].
Qed.

(** The messages that [validateRequest] returns are the array it was
    given. *)
Lemma App_valid_messages (env : Env) (payload messages model : value) :
  App.validateRequest env payload = Ok (App.Valid messages model) ->
  exists items : list value,
    messages = VArr items
    /\ prop (or_else payload (VObj [])) "messages" = VArr items.
Proof.
  unfold App.validateRequest.
  destruct (prop (or_else payload (VObj [])) "messages"); try discriminate.
  destruct (App.exceeds env items) as [[|]|]; try discriminate.
  intros [= <- _]. now exists items.
Qed.

(** X9: the success answer of [scripts/app.js].  When a valid POST is
    dispatched and the upstream answers in time with a 2xx status, the
    answer is 200 and a JSON object that holds every property of the
    upstream's body but [_metadata], which the handler sets itself: the
    model used, the time and the number of messages.  A body that is not
    JSON counts as [null], which has no property.  One upstream call is
    logged and the request counter goes up by one. *)
Theorem X9_app_success_answer
    (env : Env) (up : Upstream) (req : Request) (w : World)
    (apiKey : string) (payload messages model : value)
    (upstream : UpResponse) (text : string) :
  req_method req = "POST" ->
  credential env = Some apiKey ->
  req_json req = Some payload ->
  App.validateRequest env payload = Ok (App.Valid messages model) ->
  let call :=
    App.createOpenAIRequest apiKey model messages
      (if AbortSignal_timeout env then Some (TimeoutIn 30000) else None) in
  in_time up call ->
  settles up call = Responds upstream ->
  up_ok upstream = true ->
  up_text upstream = Ok text ->
  let data :=
    match (if (text =? "")%string then Some VNull else JSON_parse env text) with
    | Some d => d
    | None => VNull
    end in
  exists (resp : Response) (obj : value) (items : list value),
    App.handler env up req w
    = (Ok resp,
       mkWorld ((call, Answered) :: fetches w) (requestCount w + 1))
    /\ status resp = 200
    /\ body resp = Json obj
    /\ messages = VArr items
    /\ prop obj "_metadata"
       = VObj [("model_used", model);
               ("timestamp", VStr (now env));
               ("message_count", VNum (Z.of_nat (List.length items)))]
    /\ (forall k : string,
           k <> "_metadata" -> prop obj k = lookup k (spread data)).
Proof.
  intros Hpost Hkey Hbody Hvalid call Htime Hup Hok Htext data.
  destruct (App_valid_messages _ _ _ _ Hvalid) as [items [Hitems _]].
  unfold App.handler, try_catch, bind, lift.
  rewrite Hpost, Hkey, Hbody, Hvalid.
  cbn -[fetch App.createOpenAIRequest App.handleOpenAIResponse spread set_prop
        prop].
  change App.REQUEST_TIMEOUT with 30000. fold call.
  rewrite (fetch_answered up call upstream w Htime Hup).
  unfold App.handleOpenAIResponse, bind, lift, ret. rewrite Htext, Hok.
  cbn -[spread set_prop prop].
  eexists. eexists. exists items.
  split; [reflexivity|]. split; [reflexivity|]. split; [reflexivity|].
  split; [exact Hitems|]. split.
  - cbn [prop]. rewrite lookup_set_prop_same. now rewrite Hitems.
  - intros k Hk. cbn [prop]. now apply lookup_set_prop_other.
Qed.

Lemma X9_app_success_answer_witness :
  exists (resp : Response) (obj : value) (items : list value),
    App.handler Sample.env (answering 10 200 "<html>")
      (post (with_messages [hi; hi])) world
    = (Ok resp,
       mkWorld
         [(App.createOpenAIRequest "sk-sample" (VStr "gpt-4.1-mini")
             (VArr [hi; hi]) (Some (TimeoutIn 30000)), Answered)]
         1)
    /\ status resp = 200
    /\ body resp = Json obj
    /\ VArr [hi; hi] = VArr items
    /\ prop obj "_metadata"
       = VObj [("model_used", VStr "gpt-4.1-mini");
               ("timestamp", VStr (now Sample.env));
               ("message_count", VNum (Z.of_nat (List.length items)))]
    /\ (forall k : string,
           k <> "_metadata" -> prop obj k = lookup k (spread VNull)).
Proof.
  apply (X9_app_success_answer Sample.env (answering 10 200 "<html>")
           (post (with_messages [hi; hi])) world "sk-sample"
           (with_messages [hi; hi]) (VArr [hi; hi]) (VStr "gpt-4.1-mini")
           (mkUp 200 (Some hello) (Ok "<html>")) "<html>");
    try reflexivity.
  cbn. lia.
Defined.

(** ** Failures of the transport *)




(** ** The request counter of [scripts/app.js] *)

Import Counter.

(** What [fetch] returns, and the world it leaves. *)
Lemma fetch_cases (up : Upstream) (c : FetchCall) (w : World) :
  (exists r, fetch up c w = (Ok r, logged c Answered w))
  \/ (exists e x, fetch up c w = (Throw e, logged c x w)).
Proof.
  unfold fetch, settle.
  destruct (signal c) as [s|].
  - destruct (deadline s <? latency up c).
    + right. now eexists; eexists.
    + destruct (settles up c); [left | right]; now repeat eexists.
  - destruct (settles up c); [left | right]; now repeat eexists.
Qed.

(** [handleOpenAIResponse] changes nothing. *)
Lemma App_handle_pure (env : Env) (upstream : UpResponse) (w : World) :
  snd (App.handleOpenAIResponse env upstream w) = w.
Proof.
  unfold App.handleOpenAIResponse, bind, lift, ret.
  destruct (up_text upstream); [|reflexivity].
  destruct (negb (up_ok upstream)); [|reflexivity].
  destruct (to_string _); reflexivity.
Qed.

(** X11: the request counter of [scripts/app.js] counts the successes and
    nothing else.  Whatever the request, the environment and the upstream,
    a run of the handler leaves the counter as it is, or raises it by one;
    and it raises it only when it answers 200 after an upstream call that
    was answered. *)
Theorem X11_app_counts_successes
    (env : Env) (up : Upstream) (req : Request) (w : World) :
  counted_from w (App.handler env up req w).
Proof.
  assert (Hcatch : forall (m : M Response)
                          (h : JsError -> M Response) (w0 : World),
             counted_from w0 (m w0) ->
             (forall e w1, snd (h e w1) = w1) ->
             counted_from w0 (try_catch m h w0)).
  { intros m h w0 Hm Hh. unfold try_catch.
    destruct (m w0) as [[resp|e] w1]; [exact Hm|].
    left. rewrite Hh.
    destruct Hm as [Hsame | [_ [resp [c [Hok _]]]]];
      [exact Hsame | discriminate Hok]. }
  unfold App.handler. cbv zeta.
  apply Hcatch.
  2: { intros e w1.
       destruct ((err_name e =? "TimeoutError")%string
                 || (err_name e =? "AbortError")%string); reflexivity. }
  destruct ((if (req_method req =? "")%string then "GET" else req_method req)
            =? "OPTIONS")%string; [now left|].
  destruct ((if (req_method req =? "")%string then "GET" else req_method req)
            =? "GET")%string; [now left|].
  destruct (negb ((if (req_method req =? "")%string then "GET"
                   else req_method req) =? "POST")%string); [now left|].
  destruct (credential env) as [apiKey|]; [|now left].
  destruct (req_json req) as [payload|]; [|now left].
  unfold bind at 1, lift at 1.
  destruct (App.validateRequest env payload)
    as [[error status | messages model] | e]; [now left | | now left].
  unfold bind at 1.
  destruct (fetch_cases up
              (App.createOpenAIRequest apiKey model messages
                 (if AbortSignal_timeout env
                  then Some (TimeoutIn App.REQUEST_TIMEOUT) else None)) w)
    as [[r Hfetch] | [e [x Hfetch]]]; rewrite Hfetch; [|now left].
  unfold bind at 1.
  pose proof (App_handle_pure env r
                (logged (App.createOpenAIRequest apiKey model messages
                           (if AbortSignal_timeout env
                            then Some (TimeoutIn App.REQUEST_TIMEOUT)
                            else None)) Answered w)) as Hpure.
  destruct (App.handleOpenAIResponse env r _) as [[handled|e] w1];
    cbn [snd] in Hpure; subst w1; [|now left].
  destruct handled as [error status | data]; [now left|].
  right. cbn. split; [reflexivity|].
  eexists. eexists. split; [reflexivity|]. split; reflexivity.
Qed.

(** ** Edges of the permissive handlers *)

Import Lengths.

Lemma App_exceeds_within (env : Env) (pre rest : list value) :
  Forall (within env 500) pre ->
  App.exceeds env (pre ++ rest) = App.exceeds env rest.
Proof.
  induction 1 as [|m pre [Hnull Hshort] _ IH]; [reflexivity|].
  cbn [app App.exceeds]. unfold get_prop. rewrite Hnull.
  unfold App.MAX_MESSAGE_LENGTH.
  destruct Hshort as [-> | ->]; [exact IH|].
  destruct (truthy (prop m "content")); exact IH.
Qed.

Lemma Stream2_exceeds_within (env : Env) (pre rest : list value) :
  Forall (within env 500) pre ->
  Stream2.exceeds env (pre ++ rest) = Stream2.exceeds env rest.
Proof.
  induction 1 as [|m pre [Hnull Hshort] _ IH]; [reflexivity|].
  cbn [app Stream2.exceeds]. unfold get_prop. rewrite Hnull.
  unfold Stream2.MAX_MESSAGE_LENGTH.
  destruct Hshort as [-> | ->]; [exact IH|].
  destruct (truthy (prop m "content")); exact IH.
Qed.

(** X12: [validateRequest] of [scripts/app.js] and of [part_002] reads the
    content of each message without testing the message.  A [null] among
    the messages makes it throw, when the loop reaches it: when every
    message before it is not [null] and has a content that is falsy, or
    whose length is compared with the limit and is not greater.  The
    request is then answered 500 with the message of the TypeError, not
    400; no upstream call is issued. *)
Theorem X12_null_message_is_a_server_error
    (env : Env) (up : Upstream) (req : Request) (w : World)
    (apiKey : string) (payload : value) (pre post : list value) :
  req_method req = "POST" ->
  credential env = Some apiKey ->
  req_json req = Some payload ->
  prop (or_else payload (VObj [])) "messages" = VArr (pre ++ VNull :: post) ->
  Forall (within env 500) pre ->
  let failure :=
    mkResponse 500
      [("content-type", "application/json; charset=utf-8");
       ("access-control-allow-origin", "*")]
      (Json (VObj [("error",
                    VStr "Cannot read properties of null (reading 'content')");
                   ("timestamp", VStr (now env))])) in
  App.handler env up req w = (Ok failure, w)
  /\ Stream2.handler env up req w = (Ok failure, w).
Proof.
  intros Hpost Hkey Hbody Hmsgs Hpre failure. split.
  - unfold App.handler, try_catch, bind, lift, App.validateRequest.
    rewrite Hpost, Hkey, Hbody, Hmsgs.
    rewrite (App_exceeds_within env pre _ Hpre). reflexivity.
  - unfold Stream2.handler, try_catch, bind, lift, Stream2.validateRequest.
    rewrite Hpost, Hkey, Hbody, Hmsgs.
    rewrite (Stream2_exceeds_within env pre _ Hpre).
    destruct pre; reflexivity.
Qed.

Lemma X12_null_message_is_a_server_error_witness :
  let failure :=
    mkResponse 500
      [("content-type", "application/json; charset=utf-8");
       ("access-control-allow-origin", "*")]
      (Json (VObj [("error",
                    VStr "Cannot read properties of null (reading 'content')");
                   ("timestamp", VStr (now Sample.env))])) in
  App.handler Sample.env (answering 10 200 "{}")
    (post (with_messages [hi; VNull])) world
  = (Ok failure, world)
  /\ Stream2.handler Sample.env (answering 10 200 "{}")
       (post (with_messages [hi; VNull])) world
     = (Ok failure, world).
Proof.
  apply (X12_null_message_is_a_server_error Sample.env (answering 10 200 "{}")
           (post (with_messages [hi; VNull])) world "sk-sample"
           (with_messages [hi; VNull]) [hi] []);
    try reflexivity.
  constructor; [split; [reflexivity | right; reflexivity] | constructor].
Defined.

(** X13: in [part_001], an upstream error whose body is the JSON text of
    [null] is answered 500, not 502: the handler reads [data.error] of the
    parsed [null], and the TypeError reaches its catch-all. *)
Theorem X13_null_error_body_in_part_001
    (env : Env) (up : Upstream) (req : Request) (w : World)
    (apiKey : string) (payload first : value) (others : list value)
    (upstream : UpResponse) (text : string) :
  req_method req = "POST" ->
  credential env = Some apiKey ->
  req_json req = Some payload ->
  prop (or_else payload (VObj [])) "messages" = VArr (first :: others) ->
  in_time up (Stream1.upstream_call env apiKey (VArr (first :: others))) ->
  settles up (Stream1.upstream_call env apiKey (VArr (first :: others)))
  = Responds upstream ->
  up_ok upstream = false ->
  up_text upstream = Ok text ->
  text <> "" ->
  JSON_parse env text = Some VNull ->
  Stream1.handler env up req w
  = (Ok (mkResponse 500
           [("Content-Type", "application/json");
            ("Access-Control-Allow-Origin", "*")]
           (Json (VObj [("error",
                         VStr "Cannot read properties of null (reading 'error')")]))),
     logged (Stream1.upstream_call env apiKey (VArr (first :: others)))
            Answered w).
Proof.
  intros Hpost Hkey Hbody Hmsgs Htime Hup Hok Htext Hnonempty Hparse.
  apply String.eqb_neq in Hnonempty.
  unfold Stream1.handler, try_catch, bind.
  rewrite Hpost, Hkey, Hbody, Hmsgs.
  cbn -[Stream1.upstream_call fetch Stream1.upstream_error].
  rewrite (fetch_answered _ _ _ _ Htime Hup).
  rewrite Hok.
  assert (Herror : Stream1.upstream_error env upstream
                     (logged (Stream1.upstream_call env apiKey
                                (VArr (first :: others))) Answered w)
                   = (Throw (TypeError
                               "Cannot read properties of null (reading 'error')"),
                      logged (Stream1.upstream_call env apiKey
                                (VArr (first :: others))) Answered w)).
  { unfold Stream1.upstream_error, try_catch, bind, lift, ret, throw.
    now rewrite Htext, Hnonempty, Hparse. }
  destruct (up_body upstream); rewrite Herror; reflexivity.
Qed.

Lemma X13_null_error_body_in_part_001_witness :
  Stream1.handler Sample.env (answering 10 500 "null")
    (post (with_messages [hi])) world
  = (Ok (mkResponse 500
           [("Content-Type", "application/json");
            ("Access-Control-Allow-Origin", "*")]
           (Json (VObj [("error",
                         VStr "Cannot read properties of null (reading 'error')")]))),
     logged (Stream1.upstream_call Sample.env "sk-sample" (VArr [hi]))
            Answered world).
Proof.
  apply (X13_null_error_body_in_part_001 Sample.env (answering 10 500 "null")
           (post (with_messages [hi])) world "sk-sample" (with_messages [hi])
           hi [] (mkUp 500 (Some hello) (Ok "null")) "null");
    try reflexivity.
  - unfold in_time. cbn. lia.
  - discriminate.
Defined.

(** X14: the streaming handler of [part_002] calls [AbortSignal.timeout]
    without testing that it exists.  In a runtime without it, every valid
    POST is answered 500 with the message of the TypeError, and the
    upstream is not called. *)
Theorem X14_part_002_needs_AbortSignal_timeout
    (env : Env) (up : Upstream) (req : Request) (w : World)
    (apiKey : string) (payload messages model : value) :
  req_method req = "POST" ->
  credential env = Some apiKey ->
  req_json req = Some payload ->
  Stream2.validateRequest env payload = Ok (Stream2.Valid messages model) ->
  AbortSignal_timeout env = false ->
  Stream2.handler env up req w
  = (Ok (mkResponse 500
           [("content-type", "application/json; charset=utf-8");
            ("access-control-allow-origin", "*")]
           (Json (VObj [("error", VStr "AbortSignal.timeout is not a function");
                        ("timestamp", VStr (now env))]))),
     w).
Proof.
  intros Hpost Hkey Hbody Hvalid Hnone.
  unfold Stream2.handler, try_catch, bind, lift, throw.
  now rewrite Hpost, Hkey, Hbody, Hvalid, Hnone.
Qed.

Lemma X14_part_002_needs_AbortSignal_timeout_witness :
  Stream2.handler
    (mkEnv (Some "sk-sample") false "2025-01-01T00:00:00.000Z"
           Sample.parse Sample.stringify (fun _ _ => false))
    (answering 10 200 "") (post (with_messages [hi])) world
  = (Ok (mkResponse 500
           [("content-type", "application/json; charset=utf-8");
            ("access-control-allow-origin", "*")]
           (Json (VObj [("error", VStr "AbortSignal.timeout is not a function");
                        ("timestamp", VStr "2025-01-01T00:00:00.000Z")]))),
     world).
Proof.
  apply (X14_part_002_needs_AbortSignal_timeout
           (mkEnv (Some "sk-sample") false "2025-01-01T00:00:00.000Z"
                  Sample.parse Sample.stringify (fun _ _ => false))
           (answering 10 200 "") (post (with_messages [hi])) world
           "sk-sample" (with_messages [hi]) (VArr [hi]) (VStr "gpt-3.5-turbo"));
    reflexivity.
Defined.

(** ** What is piped to the caller *)

Import Piping.

Lemma partial_run {A : Type} (P : A -> Prop) (m : M A) (w w' : World) (a : A) :
  partial P m -> m w = (Ok a, w') -> P a.
Proof. intros Hm Hrun. specialize (Hm w). now rewrite Hrun in Hm. Qed.

(** A response made of a JSON text or of a text pipes nothing. *)
Lemma unpiped_json (obj : value) (st : Z) (h : headers) :
  partial unpiped (lift (new_Response (json_body obj) st h)).
Proof.
  apply partial_lift. intros a Ha. apply new_Response_ok in Ha. subst a.
  unfold unpiped, received. cbn [body]. now destruct obj.
Qed.

Lemma unpiped_response (b : value) (st : Z) (h : headers) :
  partial unpiped (lift (Stream1.response b st h)).
Proof.
  unfold Stream1.response. cbv zeta.
  apply partial_lift. intros a Ha.
  destruct (typeof_object b && negb (nullish b)).
  - apply new_Response_ok in Ha. now subst a.
  - destruct (to_string (or_else b (VStr ""))); [|discriminate Ha].
    apply new_Response_ok in Ha. now subst a.
Qed.

Lemma unpiped_none (st : Z) (h : headers) :
  partial unpiped (lift (new_Response NoBody st h)).
Proof.
  apply partial_lift. intros a Ha. apply new_Response_ok in Ha. now subst a.
Qed.

(** Steps along a computation whose responses pipe nothing. *)
Ltac plain :=
  repeat first
    [ apply unpiped_json
    | apply unpiped_response
    | apply unpiped_none
    | apply partial_throw
    | apply partial_bind; intros
    | apply partial_try; [|intros]
    | match goal with
      | |- partial _ (if ?b then _ else _) => destruct b
      | |- partial _ (match ?x with _ => _ end) => destruct x
      end ].

Section PipingAlong.

Context (up : Upstream).

Lemma post_unpiped (m : M Response) :
  partial unpiped m -> post (piped_from up) m.
Proof.
  intros Hm w. specialize (Hm w).
  destruct (m w) as [[resp|e] w']; [|exact I].
  intros s Hs. unfold unpiped in Hm. congruence.
Qed.

Lemma post_try (m : M Response) (h : JsError -> M Response) :
  post (piped_from up) m ->
  (forall e, partial unpiped (h e)) ->
  post (piped_from up) (try_catch m h).
Proof.
  intros Hm Hh w. unfold try_catch. specialize (Hm w).
  destruct (m w) as [[resp|e] w1]; [exact Hm|].
  specialize (Hh e w1).
  destruct (h e w1) as [[resp|e'] w2]; [|exact I].
  intros s Hs. unfold unpiped in Hh. congruence.
Qed.

Lemma post_bind_lift {B : Type} (r : result B) (k : B -> M Response) :
  (forall b, post (piped_from up) (k b)) ->
  post (piped_from up) (bind (lift r) k).
Proof.
  intros Hk w. unfold bind, lift. destruct r as [b|e]; [apply Hk | exact I].
Qed.

(** The step that pipes: after the call, the upstream's stream is piped
    when the status is 2xx, and [other] answers in its place otherwise. *)
Lemma post_pipe (c : FetchCall) (pipe : Stream -> result Response)
    (other : UpResponse -> M Response) :
  (forall stream resp, pipe stream = Ok resp -> received resp = Some stream) ->
  (forall r, partial unpiped (other r)) ->
  post (piped_from up)
       (bind (fetch up c)
          (fun upstream =>
             match up_body upstream with
             | Some stream =>
                 if up_ok upstream then lift (pipe stream) else other upstream
             | None => other upstream
             end)).
Proof.
  intros Hpipe Hother w. unfold bind.
  destruct (fetch up c w) as [[r|e] w1] eqn:Hfetch; [|exact I].
  assert (Hr : w1 = logged c Answered w /\ settles up c = Responds r).
  { unfold fetch, settle in Hfetch.
    destruct (signal c) as [sg|].
    - destruct (deadline sg <? latency up c); [discriminate|].
      destruct (settles up c); [|discriminate].
      injection Hfetch as <- <-. now split.
    - destruct (settles up c); [|discriminate].
      injection Hfetch as <- <-. now split. }
  destruct Hr as [-> Hsettles].
  assert (Hno : forall x,
             match other r x with
             | (Ok a, w') => piped_from up w a w'
             | (Throw _, _) => True
             end).
  { intros x. pose proof (Hother r x) as Hx.
    destruct (other r x) as [[a|e] w']; [|exact I].
    intros s Hs. unfold unpiped in Hx. congruence. }
  destruct (up_body r) as [stream|] eqn:Hstream; [|apply Hno].
  destruct (up_ok r) eqn:Hok; [|apply Hno].
  unfold lift. destruct (pipe stream) as [resp|e] eqn:Hresp; [|exact I].
  intros s Hs. rewrite (Hpipe _ _ Hresp) in Hs. injection Hs as <-.
  now exists c, r.
Qed.

End PipingAlong.

Lemma Stream1_piped_received (stream : Stream) (resp : Response) :
  Stream1.piped stream = Ok resp -> received resp = Some stream.
Proof. intros [= <-]. reflexivity. Qed.

Lemma Stream2_piped_received (stream : Stream) (resp : Response) :
  Stream2.piped stream = Ok resp -> received resp = Some stream.
Proof. intros [= <-]. reflexivity. Qed.

Lemma Stream1_pipes_only_upstream (env : Env) (up : Upstream) (req : Request) :
  post (piped_from up) (Stream1.handler env up req).
Proof.
  unfold Stream1.handler. cbv zeta.
  destruct ((if (req_method req =? "")%string then "GET" else req_method req)
            =? "OPTIONS")%string; [apply post_unpiped; plain|].
  apply post_try; [|intros; plain].
  destruct ((if (req_method req =? "")%string then "GET" else req_method req)
            =? "GET")%string; [apply post_unpiped; plain|].
  destruct (negb ((if (req_method req =? "")%string then "GET"
                   else req_method req) =? "POST")%string);
    [apply post_unpiped; plain|].
  destruct (credential env) as [apiKey|]; [|apply post_unpiped; plain].
  destruct (req_json req) as [sent|]; [|apply post_unpiped; plain].
  match goal with
  | |- post _ (if ?b then _ else _) => destruct b; [apply post_unpiped; plain|]
  end.
  apply (post_pipe up _ Stream1.piped (Stream1.upstream_error env)).
  - exact Stream1_piped_received.
  - intros r. unfold Stream1.upstream_error. plain.
Qed.

Lemma Stream2_pipes_only_upstream (env : Env) (up : Upstream) (req : Request) :
  post (piped_from up) (Stream2.handler env up req).
Proof.
  unfold Stream2.handler, Stream2.handleCORS, Stream2.handleHealthCheck,
    Stream2.handleError, Stream2.createJsonResponse.
  cbv zeta.
  apply post_try; [|intros; plain].
  destruct ((if (req_method req =? "")%string then "GET" else req_method req)
            =? "OPTIONS")%string; [apply post_unpiped; plain|].
  destruct ((if (req_method req =? "")%string then "GET" else req_method req)
            =? "GET")%string; [apply post_unpiped; plain|].
  destruct (negb ((if (req_method req =? "")%string then "GET"
                   else req_method req) =? "POST")%string);
    [apply post_unpiped; plain|].
  destruct (credential env) as [apiKey|]; [|apply post_unpiped; plain].
  destruct (req_json req) as [sent|]; [|apply post_unpiped; plain].
  apply post_bind_lift. intros [error status | messages model];
    [apply post_unpiped; plain|].
  destruct (AbortSignal_timeout env).
  - change (bind (ret (TimeoutIn Stream2.REQUEST_TIMEOUT)) ?k)
      with (k (TimeoutIn Stream2.REQUEST_TIMEOUT)).
    cbv beta.
    apply (post_pipe up _ Stream2.piped (Stream2.upstream_error env)).
    + exact Stream2_piped_received.
    + intros r. unfold Stream2.upstream_error, Stream2.handleError,
        Stream2.createJsonResponse. plain.
  - intros w. exact I.
Qed.

(** X15: the streaming handlers pipe nothing but the upstream's body.
    Whenever the handler of [part_001] or the streaming handler of
    [part_002] returns a response that pipes a stream, it has made one
    upstream call, the upstream has answered it with a 2xx status, and the
    stream is the body of that answer. *)
Theorem X15_only_the_upstream_body_is_piped
    (env : Env) (up : Upstream) (req : Request) (w w' : World)
    (resp : Response) (s : Stream) :
  forall handler : Env -> Upstream -> Request -> M Response,
    handler = Stream1.handler \/ handler = Stream2.handler ->
    handler env up req w = (Ok resp, w') ->
    received resp = Some s ->
    exists (c : FetchCall) (r : UpResponse),
      w' = logged c Answered w
      /\ settles up c = Responds r
      /\ up_ok r = true
      /\ up_body r = Some s.
Proof.
  intros handler Hwhich Hrun Hs.
  assert (Hpost : post (piped_from up) (handler env up req)).
  { destruct Hwhich as [-> | ->].
    - apply Stream1_pipes_only_upstream.
    - apply Stream2_pipes_only_upstream. }
  specialize (Hpost w). rewrite Hrun in Hpost. exact (Hpost s Hs).
Qed.

Lemma X15_only_the_upstream_body_is_piped_witness :
  exists (c : FetchCall) (r : UpResponse),
    logged (Stream1.upstream_call Sample.env "sk-sample" (VArr [hi]))
           Answered world
    = logged c Answered world
    /\ settles (answering 600 200 "") c = Responds r
    /\ up_ok r = true
    /\ up_body r = Some hello.
Proof.
  apply (X15_only_the_upstream_body_is_piped Sample.env (answering 600 200 "")
           (Sample.post (with_messages [hi])) world
           (logged (Stream1.upstream_call Sample.env "sk-sample" (VArr [hi]))
                   Answered world)
           (mkResponse 200
              [("Content-Type", "text/event-stream");
               ("Cache-Control", "no-cache, no-transform");
               ("Connection", "keep-alive");
               ("Access-Control-Allow-Origin", "*")]
              (Piped hello))
           hello Stream1.handler);
    [now left | reflexivity | reflexivity].
Defined.

(** X16: the four handlers that buffer the answer never pipe a stream: no
    response that one of them returns has a stream as its body, whatever
    the request, the environment and the upstream. *)
Theorem X16_buffered_handlers_pipe_nothing
    (env : Env) (up : Upstream) (req : Request) :
  partial unpiped (Chat.handler env up req)
  /\ partial unpiped (App.handler env up req)
  /\ partial unpiped (Plain.handler env up req)
  /\ partial unpiped (Allow.handler env up req).
Proof.
  assert (Hlast : forall (obj : value) (st : Z) (h : headers) (resp : Response),
             new_Response (json_body obj) st h = Ok resp ->
             total unpiped (lift (new_Response (json_body obj) st h))).
  { intros obj st h resp Hresp. rewrite Hresp.
    apply (total_lift _ _ resp eq_refl).
    apply new_Response_ok in Hresp. subst resp.
    unfold unpiped, received. cbn [body]. now destruct obj. }
  repeat split; apply total_partial.
  - unfold Chat.handler, Chat.relay, Chat.on_fetch_error, Chat.jsonResponse.
    cbv zeta. apply total_try; [plain|].
    intros e. now eapply Hlast.
  - unfold App.handler, App.handleCORS, App.handleHealthCheck,
      App.handleError, App.createResponse.
    cbv zeta. apply total_try; [plain|].
    intros e.
    destruct ((err_name e =? "TimeoutError")%string
              || (err_name e =? "AbortError")%string); now eapply Hlast.
  - unfold Plain.handler, Plain.relay, Plain.json.
    cbv zeta. apply total_try; [plain|].
    intros e. now eapply Hlast.
  - unfold Allow.handler, Allow.json.
    cbv zeta. apply total_try; [plain|].
    intros e. now eapply Hlast.
Qed.

(** ** The deadline of the upstream call *)

(** One step along a handler's body, for a property of its upstream
    call that the call's arguments decide. *)
Ltac calling :=
  repeat first
    [ apply once_silent; solve [quiet]
    | apply once_try; [|intros; solve [quiet]]
    | apply once_bind_fetch; [reflexivity | intros; solve [quiet]]
    | apply once_bind_lift; intros
    | match goal with
      | |- once _ (if ?b then _ else _) => destruct b
      | |- once _ (match ?x with _ => _ end) => destruct x
      end ].

Lemma Chat_deadline (env : Env) (up : Upstream) (req : Request) :
  once (timed (Some (AbortIn 30000))) (Chat.handler env up req).
Proof.
  unfold Chat.handler, Chat.relay, Chat.on_fetch_error. cbv zeta. calling.
Qed.

Lemma App_deadline (env : Env) (up : Upstream) (req : Request) :
  once (timed (timeout_if_supported env 30000)) (App.handler env up req).
Proof.
  unfold App.handler, App.handleOpenAIResponse. cbv zeta. calling.
Qed.

Lemma Plain_deadline (env : Env) (up : Upstream) (req : Request) :
  once (timed (timeout_if_supported env 30000)) (Plain.handler env up req).
Proof.
  unfold Plain.handler, Plain.relay. cbv zeta. calling.
Qed.

Lemma Allow_deadline (env : Env) (up : Upstream) (req : Request) :
  once (timed (timeout_if_supported env 30000)) (Allow.handler env up req).
Proof.
  unfold Allow.handler. cbv zeta. calling.
Qed.

Lemma Stream1_deadline (env : Env) (up : Upstream) (req : Request) :
  once (timed (timeout_if_supported env 60000)) (Stream1.handler env up req).
Proof.
  unfold Stream1.handler, Stream1.upstream_error. cbv zeta. calling.
Qed.

Lemma Stream2_deadline (env : Env) (up : Upstream) (req : Request) :
  once (timed (Some (TimeoutIn 60000))) (Stream2.handler env up req).
Proof.
  unfold Stream2.handler, Stream2.upstream_error. cbv zeta.
  destruct (AbortSignal_timeout env).
  - change (bind (ret (TimeoutIn Stream2.REQUEST_TIMEOUT)) ?k)
      with (k (TimeoutIn Stream2.REQUEST_TIMEOUT)).
    calling.
  - calling.
Qed.

(** X17: the deadline of every upstream call.  [api/chat.js] always aborts
    its call after 30 s, and the streaming handler of [part_002] after
    60 s.  The other four handlers attach [AbortSignal.timeout(ms)] (30 s;
    60 s in [part_001]) only where the runtime has it: elsewhere their call
    carries no signal at all, hence no deadline. *)
Theorem X17_deadline_of_the_upstream_call
    (env : Env) (up : Upstream) (req : Request) (w : World) :
  forall (handler : Env -> Upstream -> Request -> M Response)
         (s : option Signal),
    In (handler, s)
       [(Chat.handler, Some (AbortIn 30000));
        (App.handler,
         if AbortSignal_timeout env then Some (TimeoutIn 30000) else None);
        (Plain.handler,
         if AbortSignal_timeout env then Some (TimeoutIn 30000) else None);
        (Allow.handler,
         if AbortSignal_timeout env then Some (TimeoutIn 30000) else None);
        (Stream1.handler,
         if AbortSignal_timeout env then Some (TimeoutIn 60000) else None);
        (Stream2.handler, Some (TimeoutIn 60000))] ->
    forall c e,
      In (c, e) (fetches (snd (handler env up req w))) ->
      In (c, e) (fetches w) \/ signal c = s.
Proof.
  intros handler s Hin.
  assert (Hone : once (timed s) (handler env up req)).
  { cbn [In] in Hin.
    destruct Hin as [[= <- <-] | [[= <- <-] | [[= <- <-] | [[= <- <-]
                    | [[= <- <-] | [[= <- <-] | []]]]]]].
    - apply Chat_deadline.
    - apply App_deadline.
    - apply Plain_deadline.
    - apply Allow_deadline.
    - apply Stream1_deadline.
    - apply Stream2_deadline. }
  intros c e Hlog. exact (once_log _ _ w Hone c e Hlog).
Qed.

Lemma X17_deadline_of_the_upstream_call_witness :
  AbortSignal_timeout
    (mkEnv (Some "sk-sample") false (now Sample.env) (JSON_parse Sample.env)
       (JSON_stringify Sample.env) (number_gt Sample.env))
  = false
  /\ forall c e,
       In (c, e)
          (fetches (snd (Plain.handler
                           (mkEnv (Some "sk-sample") false (now Sample.env)
                              (JSON_parse Sample.env)
                              (JSON_stringify Sample.env)
                              (number_gt Sample.env))
                           (answering 90000 200 "{}")
                           (Sample.post (with_messages [hi])) world))) ->
       In (c, e) (fetches world) \/ signal c = None.
Proof.
  split; [reflexivity|].
  apply (X17_deadline_of_the_upstream_call
           (mkEnv (Some "sk-sample") false (now Sample.env)
              (JSON_parse Sample.env) (JSON_stringify Sample.env)
              (number_gt Sample.env))
           (answering 90000 200 "{}")
           (Sample.post (with_messages [hi])) world Plain.handler None).
  cbn. tauto.
Defined.

(** ** The answers of the handlers *)

Import Errors.

Lemma partial_bind_run {A B : Type} (P : A -> Prop) (m : M B) (k : B -> M A) :
  (forall w b w', m w = (Ok b, w') -> partial P (k b)) ->
  partial P (bind m k).
Proof.
  intros Hk w. unfold bind.
  destruct (m w) as [[b|e] w'] eqn:Hm; [exact (Hk w b w' Hm w') | exact I].
Qed.

Lemma partial_bind_lift {A B : Type} (P : A -> Prop) (r : result B)
    (k : B -> M A) :
  (forall b, r = Ok b -> partial P (k b)) -> partial P (bind (lift r) k).
Proof.
  intros Hk. apply partial_bind_run. intros w b w' [= -> _]. now apply Hk.
Qed.

(** [validateRequest] rejects with status 400 only. *)
Lemma App_invalid_status (env : Env) (payload : value) (error : string)
    (st : Z) :
  App.validateRequest env payload = Ok (App.Invalid error st) -> st = 400.
Proof.
  unfold App.validateRequest.
  destruct (prop (or_else payload (VObj [])) "messages");
    try (now intros [= _ <-]).
  destruct (App.exceeds env items) as [[|]|]; try discriminate.
  now intros [= _ <-].
Qed.

Lemma Stream2_invalid_status (env : Env) (payload : value) (error : string)
    (st : Z) :
  Stream2.validateRequest env payload = Ok (Stream2.Invalid error st) ->
  st = 400.
Proof.
  unfold Stream2.validateRequest.
  destruct (prop (or_else payload (VObj [])) "messages");
    try (now intros [= _ <-]).
  destruct items as [|first others]; [now intros [= _ <-]|].
  destruct (Stream2.exceeds env (first :: others)) as [[|]|];
    try discriminate.
  now intros [= _ <-].
Qed.

(** [handleOpenAIResponse] reports an upstream error with status 502
    only. *)
Lemma App_upstream_error_status (env : Env) (upstream : UpResponse)
    (w w' : World) (error : string) (st : Z) :
  App.handleOpenAIResponse env upstream w = (Ok (App.UpstreamError error st), w') ->
  st = 502.
Proof.
  unfold App.handleOpenAIResponse, bind, lift, ret.
  destruct (up_text upstream); [|discriminate].
  destruct (negb (up_ok upstream)); [|discriminate].
  destruct (to_string _); [now intros [= _ <- _] | discriminate].
Qed.

Lemma or_else_strings (s t : string) :
  exists m : string, or_else (VStr s) (VStr t) = VStr m.
Proof.
  unfold or_else. destruct (truthy (VStr s)); eauto.
Qed.

(** An answer made of a status and a JSON body. *)
Lemma answer_ok (statuses : list Z) (obj : value) (h : headers) :
  partial (answer statuses) (lift (new_Response (json_body obj) 200 h)).
Proof.
  apply partial_lift. intros a Ha. apply new_Response_ok in Ha. subst a.
  now left.
Qed.

Lemma answer_error (statuses : list Z) (props : list (string * value))
    (message : string) (st : Z) (h : headers) :
  In st statuses ->
  prop (VObj props) "error" = VStr message ->
  partial (answer statuses)
          (lift (new_Response (json_body (VObj props)) st h)).
Proof.
  intros Hst Hmessage.
  apply partial_lift. intros a Ha. apply new_Response_ok in Ha. subst a.
  right. right. split; [exact Hst|].
  exists (VObj props), message. now split.
Qed.

Lemma answer_caught (statuses : list Z) (e : JsError) (fallback : string)
    (h : headers) :
  In 500 statuses ->
  partial (answer statuses)
          (lift (new_Response
                   (json_body
                      (VObj [("error",
                              or_else (VStr (err_message e)) (VStr fallback))]))
                   500 h)).
Proof.
  intros Hst.
  destruct (or_else_strings (err_message e) fallback) as [m Hm].
  rewrite Hm. now apply answer_error with (message := m).
Qed.

Lemma answer_preflight (statuses : list Z) (h : headers) :
  partial (answer statuses) (lift (new_Response NoBody 204 h)).
Proof.
  apply partial_lift. intros a Ha. apply new_Response_ok in Ha. subst a.
  right. left. now split.
Qed.

(** One step along a handler's body, for the form of its answers. *)
Ltac listed := cbn; repeat first [left; reflexivity | right].

Ltac answering_step :=
  match goal with
  | |- partial _ (lift (new_Response NoBody 204 _)) => apply answer_preflight
  | |- partial _ (lift (new_Response (json_body _) 200 _)) => apply answer_ok
  | |- partial _ (lift (new_Response
                          (json_body (VObj [("error", or_else _ _)])) 500 _)) =>
      apply answer_caught; solve [listed]
  | |- partial _ (lift (new_Response (json_body (VObj _)) _ _)) =>
      eapply answer_error; [solve [listed] | reflexivity]
  | |- partial _ (throw _) => apply partial_throw
  | |- partial _ (bind _ _) => apply partial_bind; intros
  | |- partial _ (try_catch _ _) => apply partial_try; [|intros]
  | |- partial _ (if ?b then _ else _) => destruct b
  | |- partial _ (match ?x with _ => _ end) => destruct x
  end.

Lemma Chat_answers (env : Env) (up : Upstream) (req : Request) :
  partial (answer [400; 405; 408; 415; 500; 502; 503])
          (Chat.handler env up req).
Proof.
  unfold Chat.handler, Chat.relay, Chat.on_fetch_error, Chat.jsonResponse,
    error_body.
  cbv zeta. repeat answering_step.
Qed.

Lemma Plain_answers (env : Env) (up : Upstream) (req : Request) :
  partial (answer [400; 405; 500; 502]) (Plain.handler env up req).
Proof.
  unfold Plain.handler, Plain.relay, Plain.json, error_body.
  cbv zeta. repeat answering_step.
Qed.

Lemma Allow_answers (env : Env) (up : Upstream) (req : Request) :
  partial (answer [400; 405; 500; 502]) (Allow.handler env up req).
Proof.
  unfold Allow.handler, Allow.json, error_body.
  cbv zeta. repeat answering_step.
Qed.

Lemma App_answers (env : Env) (up : Upstream) (req : Request) :
  partial (answer [400; 405; 408; 500; 502]) (App.handler env up req).
Proof.
  unfold App.handler, App.handleCORS, App.handleHealthCheck, App.handleError,
    App.createResponse, error_body.
  cbv zeta.
  apply partial_try; [|intros; repeat answering_step].
  do 3 answering_step; try solve [repeat answering_step].
  destruct (credential env) as [apiKey|]; [|repeat answering_step].
  destruct (req_json req) as [payload|]; [|repeat answering_step].
  apply partial_bind_lift. intros [error st | messages model] Hvalid.
  - apply App_invalid_status in Hvalid. subst st. repeat answering_step.
  - apply partial_bind. intros upstream.
    apply partial_bind_run. intros w [error st | data] w' Hhandled.
    + apply App_upstream_error_status in Hhandled. subst st.
      repeat answering_step.
    + repeat answering_step.
Qed.

Lemma Stream1_answers (env : Env) (up : Upstream) (req : Request) :
  partial (answer [400; 405; 500; 502]) (Stream1.handler env up req).
Proof.
  assert (Hcaught : forall (e : JsError) (fallback : string) (h : headers),
             partial (answer [400; 405; 500; 502])
               (lift (Stream1.response
                        (VObj [("error",
                                or_else (VStr (err_message e))
                                        (VStr fallback))])
                        500 h))).
  { intros e fallback h. apply (answer_caught _ e fallback). listed. }
  unfold Stream1.handler, Stream1.upstream_error, Stream1.piped, error_body.
  cbv zeta.
  match goal with
  | |- partial _ (if ?b then _ else _) => destruct b
  end.
  - apply partial_lift. intros a Ha. discriminate Ha.
  - apply partial_try; [|intros; apply Hcaught].
    repeat first
      [ apply partial_lift; intros a Ha; apply new_Response_ok in Ha; subst a;
        first [ now left
              | right; right; split;
                [solve [listed] | eexists; eexists; split; reflexivity] ]
      | answering_step ].
Qed.

Lemma Stream2_answers (env : Env) (up : Upstream) (req : Request) :
  partial (answer [400; 405; 408; 500; 502]) (Stream2.handler env up req).
Proof.
  unfold Stream2.handler, Stream2.upstream_error, Stream2.handleCORS,
    Stream2.handleHealthCheck, Stream2.handleError, Stream2.piped,
    Stream2.createJsonResponse, error_body.
  cbv zeta.
  assert (Hpiped : forall (stream : Stream) (h : headers),
             partial (answer [400; 405; 408; 500; 502])
                     (lift (new_Response (Piped stream) 200 h))).
  { intros stream h. apply partial_lift. intros a Ha.
    apply new_Response_ok in Ha. subst a. now left. }
  apply partial_try; [|intros; repeat answering_step].
  do 3 answering_step; try solve [repeat answering_step].
  destruct (credential env) as [apiKey|]; [|repeat answering_step].
  destruct (req_json req) as [payload|]; [|repeat answering_step].
  apply partial_bind_lift. intros [error st | messages model] Hvalid.
  - apply Stream2_invalid_status in Hvalid. subst st. repeat answering_step.
  - repeat first [apply Hpiped | answering_step].
Qed.

(** X18: the form of every answer.  Each response that one of the six
    handlers returns has status 200, or status 204 and no body, or one of
    the handler's error statuses; with an error status the body is JSON and
    its property [error] is a string.  The error statuses are 400, 405, 500
    and 502 in [part_000], in the first handler of [part_002] and in
    [part_001]; these and 408 in [scripts/app.js] and in the streaming
    handler of [part_002]; these, 415 and 503 in [api/chat.js]. *)
Theorem X18_answers_are_200_204_or_reported_errors
    (env : Env) (up : Upstream) (req : Request) :
  partial (answer [400; 405; 408; 415; 500; 502; 503])
          (Chat.handler env up req)
  /\ partial (answer [400; 405; 408; 500; 502]) (App.handler env up req)
  /\ partial (answer [400; 405; 500; 502]) (Plain.handler env up req)
  /\ partial (answer [400; 405; 500; 502]) (Allow.handler env up req)
  /\ partial (answer [400; 405; 500; 502]) (Stream1.handler env up req)
  /\ partial (answer [400; 405; 408; 500; 502]) (Stream2.handler env up req).
Proof.
  repeat split.
  - apply Chat_answers.
  - apply App_answers.
  - apply Plain_answers.
  - apply Allow_answers.
  - apply Stream1_answers.
  - apply Stream2_answers.
Qed.

(** ** The workflow of [agentWorkflow.ts] *)

Import Workflow.

Lemma runAgent_cases (runner : Runner) (agent : Agent) (st : State) :
  let r := mkRun agent (conversationHistory st)
             (runner (runs st) agent (conversationHistory st)) in
  (exists res : RunResult,
      outcome r = Ok res /\ truthy (finalOutput res) = true
      /\ runAgent runner agent st
         = (Ok (VObj [("output_text", finalOutput res)]),
            mkState (conversationHistory st ++ List.map rawItem (newItems res))
                    (runs st ++ [r])))
  \/ (exists (e : JsError) (st' : State),
         runAgent runner agent st = (Throw e, st')
         /\ runs st' = (runs st ++ [r])%list
         /\ (outcome r = Throw e
             \/ exists res : RunResult,
                  outcome r = Ok res /\ truthy (finalOutput res) = false
                  /\ e = Error "Agent result is undefined")).
Proof.
  cbv zeta. unfold runAgent. cbn [outcome].
  destruct (runner (runs st) agent (conversationHistory st)) as [res|e].
  - destruct (truthy (finalOutput res)) eqn:Houtput; cbn [negb].
    + left. exists res. repeat split. exact Houtput.
    + right. eexists. eexists. split; [reflexivity|]. split; [reflexivity|].
      right. exists res. repeat split. exact Houtput.
  - right. eexists. eexists. split; [reflexivity|]. split; [reflexivity|].
    now left.
Qed.

(** X19: a workflow that resolves has run the four agents once each, in
    the order narrative agent, rubric assessor, marker, checker.  The first
    is given the user's text alone; each later one is given that item
    followed by the raw items of all the runs before it, in their order.
    Every run had a final output that is not falsy, and the answer holds
    the four final outputs under the agents' names. *)
Theorem X19_workflow_runs_the_four_agents_in_order
    (runner : Runner) (workflow out : value) (log : list Run) :
  runWorkflow runner workflow = (Ok out, log) ->
  exists (text : value) (r1 r2 r3 r4 : RunResult),
    get_prop workflow "input_as_text" = Ok text
    /\ log
       = [mkRun assignment2NarrativeAgent [first_item text] (Ok r1);
          mkRun assignment2RubicAssessor
            ([first_item text] ++ List.map rawItem (newItems r1)) (Ok r2);
          mkRun assignment3Marker
            (([first_item text] ++ List.map rawItem (newItems r1))
               ++ List.map rawItem (newItems r2)) (Ok r3);
          mkRun agentChecker
            ((([first_item text] ++ List.map rawItem (newItems r1))
                ++ List.map rawItem (newItems r2))
               ++ List.map rawItem (newItems r3)) (Ok r4)]
    /\ Forall (fun r => truthy (finalOutput r) = true) [r1; r2; r3; r4]
    /\ out
       = VObj [("assignment2NarrativeAgentResult",
                VObj [("output_text", finalOutput r1)]);
               ("assignment2RubicAssessorResult",
                VObj [("output_text", finalOutput r2)]);
               ("assignment3MarkerResult",
                VObj [("output_text", finalOutput r3)]);
               ("agentCheckerResult",
                VObj [("output_text", finalOutput r4)])].
Proof.
  unfold runWorkflow.
  destruct (get_prop workflow "input_as_text") as [text|e0]; [|discriminate].
  unfold and_then, runAgent. cbn [runs conversationHistory app].
  destruct (runner [] assignment2NarrativeAgent [first_item text])
    as [r1|e1]; [|discriminate].
  destruct (truthy (finalOutput r1)) eqn:H1; cbn [negb]; [|discriminate].
  cbn [runs conversationHistory app].
  match goal with
  | |- context [match runner ?l ?a ?h with _ => _ end] =>
      destruct (runner l a h) as [r2|e2]; [|discriminate]
  end.
  destruct (truthy (finalOutput r2)) eqn:H2; cbn [negb]; [|discriminate].
  cbn [runs conversationHistory app].
  match goal with
  | |- context [match runner ?l ?a ?h with _ => _ end] =>
      destruct (runner l a h) as [r3|e3]; [|discriminate]
  end.
  destruct (truthy (finalOutput r3)) eqn:H3; cbn [negb]; [|discriminate].
  cbn [runs conversationHistory app].
  match goal with
  | |- context [match runner ?l ?a ?h with _ => _ end] =>
      destruct (runner l a h) as [r4|e4]; [|discriminate]
  end.
  destruct (truthy (finalOutput r4)) eqn:H4; cbn [negb]; [|discriminate].
  cbn [runs conversationHistory app].
  intros [= <- <-].
  exists text, r1, r2, r3, r4.
  repeat split; try reflexivity.
  repeat constructor; assumption.
Qed.

Lemma X19_workflow_runs_the_four_agents_in_order_witness :
  exists (text : value) (r1 r2 r3 r4 : RunResult),
    get_prop (VObj [("input_as_text", VStr "essay")]) "input_as_text" = Ok text
    /\ snd (runWorkflow (sample_runner "")
              (VObj [("input_as_text", VStr "essay")]))
       = [mkRun assignment2NarrativeAgent [first_item text] (Ok r1);
          mkRun assignment2RubicAssessor
            ([first_item text] ++ List.map rawItem (newItems r1)) (Ok r2);
          mkRun assignment3Marker
            (([first_item text] ++ List.map rawItem (newItems r1))
               ++ List.map rawItem (newItems r2)) (Ok r3);
          mkRun agentChecker
            ((([first_item text] ++ List.map rawItem (newItems r1))
                ++ List.map rawItem (newItems r2))
               ++ List.map rawItem (newItems r3)) (Ok r4)]
    /\ Forall (fun r => truthy (finalOutput r) = true) [r1; r2; r3; r4]
    /\ VObj [("assignment2NarrativeAgentResult",
              VObj [("output_text", VNum 1)]);
             ("assignment2RubicAssessorResult",
              VObj [("output_text", VNum 2)]);
             ("assignment3MarkerResult", VObj [("output_text", VNum 3)]);
             ("agentCheckerResult", VObj [("output_text", VNum 4)])]
       = VObj [("assignment2NarrativeAgentResult",
                VObj [("output_text", finalOutput r1)]);
               ("assignment2RubicAssessorResult",
                VObj [("output_text", finalOutput r2)]);
               ("assignment3MarkerResult",
                VObj [("output_text", finalOutput r3)]);
               ("agentCheckerResult",
                VObj [("output_text", finalOutput r4)])].
Proof.
  apply (X19_workflow_runs_the_four_agents_in_order (sample_runner "")
           (VObj [("input_as_text", VStr "essay")])
           (VObj [("assignment2NarrativeAgentResult",
                   VObj [("output_text", VNum 1)]);
                  ("assignment2RubicAssessorResult",
                   VObj [("output_text", VNum 2)]);
                  ("assignment3MarkerResult", VObj [("output_text", VNum 3)]);
                  ("agentCheckerResult", VObj [("output_text", VNum 4)])])
           (snd (runWorkflow (sample_runner "")
                   (VObj [("input_as_text", VStr "essay")])))).
  reflexivity.
Defined.

(** X20: a workflow that is rejected stops at the run that failed.  Either
    the input has no text to read, and no agent has run; or the runs made
    are the first agents of the four, in order, all but the last had a
    final output, and the last one was rejected by the runner, with the
    error that the workflow is rejected with, or resolved without a final
    output, and the error is [Agent result is undefined]: a final output
    that is the empty string counts as none.  No agent runs after the one
    that failed. *)
Theorem X20_workflow_stops_at_the_first_failure
    (runner : Runner) (workflow : value) (e : JsError) (log : list Run) :
  runWorkflow runner workflow = (Throw e, log) ->
  (get_prop workflow "input_as_text" = Throw e /\ log = [])
  \/ exists (earlier : list Run) (last : Run),
       log = (earlier ++ [last])%list
       /\ List.map ran log = firstn (List.length log) agents
       /\ Forall passed earlier
       /\ (outcome last = Throw e
           \/ exists res : RunResult,
                outcome last = Ok res
                /\ truthy (finalOutput res) = false
                /\ e = Error "Agent result is undefined").
Proof.
  unfold runWorkflow.
  destruct (get_prop workflow "input_as_text") as [text|e0];
    [|intros [= <- <-]; now left].
  intros Hrun. right. revert Hrun.
  assert (Hpassed : forall (agent : Agent) (items : list value)
                           (res : RunResult),
             truthy (finalOutput res) = true ->
             passed (mkRun agent items (Ok res))).
  { intros agent items res Hres. now exists res. }
  unfold and_then, runAgent. cbn [runs conversationHistory app].
  destruct (runner [] assignment2NarrativeAgent [first_item text])
    as [r1|e1] eqn:Hr1.
  2:{ intros [= <- <-]. eexists [], _. repeat split; [constructor | now left]. }
  destruct (truthy (finalOutput r1)) eqn:H1; cbn [negb].
  2:{ intros [= <- <-]. eexists [], _.
      repeat split; [constructor | right; now exists r1]. }
  cbn [runs conversationHistory app].
  match goal with
  | |- context [match runner ?l ?a ?h with _ => _ end] =>
      destruct (runner l a h) as [r2|e2] eqn:Hr2
  end.
  2:{ intros [= <- <-]. eexists [_], _.
      repeat split; [repeat constructor; now apply Hpassed | now left]. }
  destruct (truthy (finalOutput r2)) eqn:H2; cbn [negb].
  2:{ intros [= <- <-]. eexists [_], _.
      repeat split;
        [repeat constructor; now apply Hpassed | right; now exists r2]. }
  cbn [runs conversationHistory app].
  match goal with
  | |- context [match runner ?l ?a ?h with _ => _ end] =>
      destruct (runner l a h) as [r3|e3] eqn:Hr3
  end.
  2:{ intros [= <- <-]. eexists [_; _], _.
      repeat split; [repeat constructor; now apply Hpassed | now left]. }
  destruct (truthy (finalOutput r3)) eqn:H3; cbn [negb].
  2:{ intros [= <- <-]. eexists [_; _], _.
      repeat split;
        [repeat constructor; now apply Hpassed | right; now exists r3]. }
  cbn [runs conversationHistory app].
  match goal with
  | |- context [match runner ?l ?a ?h with _ => _ end] =>
      destruct (runner l a h) as [r4|e4] eqn:Hr4
  end.
  2:{ intros [= <- <-]. eexists [_; _; _], _.
      repeat split; [repeat constructor; now apply Hpassed | now left]. }
  destruct (truthy (finalOutput r4)) eqn:H4; cbn [negb].
  2:{ intros [= <- <-]. eexists [_; _; _], _.
      repeat split;
        [repeat constructor; now apply Hpassed | right; now exists r4]. }
  discriminate.
Qed.

Lemma X20_workflow_stops_at_the_first_failure_witness :
  (get_prop (VObj [("input_as_text", VStr "essay")]) "input_as_text"
   = Throw (Error "Agent result is undefined")
   /\ snd (runWorkflow (sample_runner "Assignment 3 marker")
             (VObj [("input_as_text", VStr "essay")])) = [])
  \/ exists (earlier : list Run) (last : Run),
       snd (runWorkflow (sample_runner "Assignment 3 marker")
              (VObj [("input_as_text", VStr "essay")]))
       = (earlier ++ [last])%list
       /\ List.map ran
            (snd (runWorkflow (sample_runner "Assignment 3 marker")
                    (VObj [("input_as_text", VStr "essay")])))
          = firstn
              (List.length
                 (snd (runWorkflow (sample_runner "Assignment 3 marker")
                         (VObj [("input_as_text", VStr "essay")]))))
              agents
       /\ Forall passed earlier
       /\ (outcome last = Throw (Error "Agent result is undefined")
           \/ exists res : RunResult,
                outcome last = Ok res
                /\ truthy (finalOutput res) = false
                /\ Error "Agent result is undefined"
                   = Error "Agent result is undefined").
Proof.
  apply (X20_workflow_stops_at_the_first_failure
           (sample_runner "Assignment 3 marker")
           (VObj [("input_as_text", VStr "essay")])
           (Error "Agent result is undefined")
           (snd (runWorkflow (sample_runner "Assignment 3 marker")
                   (VObj [("input_as_text", VStr "essay")])))).
  reflexivity.
Defined.

(** ** The detail of an upstream error *)

(** X21: what the gateway reports of an upstream error, in [part_000],
    [scripts/app.js] and the streaming handler of [part_002], which agree
    on it.  They choose a detail: the [error.message] of the upstream's
    body, when the body is JSON and has one that is not falsy; else the
    upstream's text as it is, when there is one; else [Upstream HTTP ] and
    the upstream's status.  When a template literal gives the detail a
    text, the three report status 502, whatever the upstream's status, and
    the error [OpenAI error: ] followed by that text.  When it gives none
    (the detail is an object with an own property [toString], or an array
    that holds one), the three throw the TypeError of the conversion, which
    the [catch] of each handler answers with 500. *)
Theorem X21_detail_of_an_upstream_error
    (env : Env) (upstream : UpResponse) (text : string) (w : World) :
  up_ok upstream = false ->
  up_text upstream = Ok text ->
  exists chosen : value,
    (text = "" ->
     chosen = VStr ("Upstream HTTP " ++ int_string (up_status upstream)))
    /\ (text <> "" -> JSON_parse env text = None -> chosen = VStr text)
    /\ (forall data : value,
          text <> "" -> JSON_parse env text = Some data ->
          chosen
          = if truthy (opt_prop (opt_prop data "error") "message")
            then opt_prop (opt_prop data "error") "message"
            else VStr text)
    /\ (forall detail : string,
          to_string chosen = Ok detail ->
          exists plain streamed : Response,
            Plain.relay env upstream w = (Ok plain, w)
            /\ status plain = 502
            /\ body plain = Json (error_body ("OpenAI error: " ++ detail))
            /\ App.handleOpenAIResponse env upstream w
               = (Ok (App.UpstreamError ("OpenAI error: " ++ detail) 502), w)
            /\ Stream2.upstream_error env upstream w = (Ok streamed, w)
            /\ status streamed = 502
            /\ body streamed
               = Json (VObj [("error", VStr ("OpenAI error: " ++ detail));
                             ("timestamp", VStr (now env))]))
    /\ (forall e : JsError,
          to_string chosen = Throw e ->
          e = TypeError "Cannot convert object to primitive value"
          /\ Plain.relay env upstream w = (Throw e, w)
          /\ App.handleOpenAIResponse env upstream w = (Throw e, w)
          /\ Stream2.upstream_error env upstream w = (Throw e, w)).
Proof.
  intros Hok Htext.
  set (data := match (if (text =? "")%string then Some VNull
                      else JSON_parse env text) with
               | Some d => d
               | None => VNull
               end).
  set (chosen :=
         or_else
           (or_else (opt_prop (opt_prop data "error") "message") (VStr text))
           (VStr ("Upstream HTTP " ++ int_string (up_status upstream)))).
  assert (Hplain : Plain.relay env upstream w
                   = match to_string chosen with
                     | Ok shown =>
                         (Plain.json (error_body ("OpenAI error: " ++ shown))
                            502 [], w)
                     | Throw e => (Throw e, w)
                     end).
  { unfold Plain.relay, bind, lift. rewrite Htext, Hok. reflexivity. }
  assert (Happ : App.handleOpenAIResponse env upstream w
                 = match to_string chosen with
                   | Ok shown =>
                       (Ok (App.UpstreamError ("OpenAI error: " ++ shown) 502),
                        w)
                   | Throw e => (Throw e, w)
                   end).
  { unfold App.handleOpenAIResponse, bind, lift, ret.
    rewrite Htext, Hok. reflexivity. }
  assert (Hstream : Stream2.upstream_error env upstream w
                    = match to_string chosen with
                      | Ok shown =>
                          (Stream2.handleError env
                             (Error ("OpenAI error: " ++ shown)) 502, w)
                      | Throw e => (Throw e, w)
                      end).
  { unfold Stream2.upstream_error, try_catch, bind, lift, ret.
    rewrite Htext. reflexivity. }
  exists chosen. split; [|split; [|split; [|split]]].
  - intros ->. reflexivity.
  - intros Hnonempty Hparse. apply String.eqb_neq in Hnonempty.
    unfold chosen, data. rewrite Hnonempty, Hparse.
    unfold or_else. cbn [opt_prop nullish truthy]. now rewrite Hnonempty.
  - intros d Hnonempty Hparse. apply String.eqb_neq in Hnonempty.
    unfold chosen, data. rewrite Hnonempty, Hparse. unfold or_else.
    destruct (truthy (opt_prop (opt_prop d "error") "message")) eqn:Hm.
    + now rewrite Hm.
    + cbn [truthy]. now rewrite Hnonempty.
  - intros detail Hdetail. rewrite Hplain, Happ, Hstream, Hdetail.
    eexists. eexists. repeat split.
  - intros e He. rewrite Hplain, Happ, Hstream, He.
    split; [exact (to_string_throws _ _ He) | repeat split].
Qed.

Lemma X21_detail_of_an_upstream_error_witness :
  exists chosen : value,
    ("<html>" = "" ->
     chosen
     = VStr ("Upstream HTTP "
               ++ int_string (up_status (mkUp 429 None (Ok "<html>")))))
    /\ ("<html>" <> "" -> JSON_parse Sample.env "<html>" = None ->
        chosen = VStr "<html>")
    /\ (forall data : value,
          "<html>" <> "" -> JSON_parse Sample.env "<html>" = Some data ->
          chosen
          = if truthy (opt_prop (opt_prop data "error") "message")
            then opt_prop (opt_prop data "error") "message"
            else VStr "<html>")
    /\ (forall detail : string,
          to_string chosen = Ok detail ->
          exists plain streamed : Response,
            Plain.relay Sample.env (mkUp 429 None (Ok "<html>")) world
            = (Ok plain, world)
            /\ status plain = 502
            /\ body plain = Json (error_body ("OpenAI error: " ++ detail))
            /\ App.handleOpenAIResponse Sample.env
                 (mkUp 429 None (Ok "<html>")) world
               = (Ok (App.UpstreamError ("OpenAI error: " ++ detail) 502),
                  world)
            /\ Stream2.upstream_error Sample.env
                 (mkUp 429 None (Ok "<html>")) world
               = (Ok streamed, world)
            /\ status streamed = 502
            /\ body streamed
               = Json (VObj [("error", VStr ("OpenAI error: " ++ detail));
                             ("timestamp", VStr (now Sample.env))]))
    /\ (forall e : JsError,
          to_string chosen = Throw e ->
          e = TypeError "Cannot convert object to primitive value"
          /\ Plain.relay Sample.env (mkUp 429 None (Ok "<html>")) world
             = (Throw e, world)
          /\ App.handleOpenAIResponse Sample.env
               (mkUp 429 None (Ok "<html>")) world
             = (Throw e, world)
          /\ Stream2.upstream_error Sample.env
               (mkUp 429 None (Ok "<html>")) world
             = (Throw e, world)).
Proof.
  apply (X21_detail_of_an_upstream_error Sample.env
           (mkUp 429 None (Ok "<html>")) "<html>" world);
    reflexivity.
Defined.

(** ** The Responses path of [api/chat.js] *)

(** X22: with [useResponsesApi], [api/chat.js] sends the validated messages
    to the Responses endpoint, reshaped one by one: the call's [input] has
    one item per message, in the same order, with the message's role and
    its content as the only content part, of type [text].  The payload
    names the requested model, has [previous_response_id] exactly when the
    request has one that is not falsy, and has no [messages]. *)
Theorem X22_chat_responses_path
    (env : Env) (up : Upstream) (req : Request) (w : World)
    (apiKey : string) (parsed : value) (items : list value) :
  req_method req = "POST" ->
  Chat.is_json req = true ->
  credential env = Some apiKey ->
  req_json req = Some parsed ->
  prop (coalesce parsed (VObj [])) "messages" = VArr items ->
  Chat.validateMessages (VArr items) = None ->
  Chat.validateModel
    (default_to (prop (coalesce parsed (VObj [])) "model")
                (VStr Chat.defaultModel)) = true ->
  truthy (default_to (prop (coalesce parsed (VObj [])) "useResponsesApi")
                     (VBool false)) = true ->
  exists (c : FetchCall) (e : FetchEnd) (inputs : list value),
    fetches (snd (Chat.handler env up req w)) = (c, e) :: fetches w
    /\ url c = "https://api.openai.com/v1/responses"
    /\ prop (payload c) "model"
       = default_to (prop (coalesce parsed (VObj [])) "model")
                    (VStr Chat.defaultModel)
    /\ prop (payload c) "input" = VArr inputs
    /\ List.length inputs = List.length items
    /\ (forall (i : nat) (msg : value),
          nth_error items i = Some msg ->
          nth_error inputs i
          = Some (VObj [("role", prop msg "role");
                        ("content",
                         VArr [VObj [("type", VStr "text");
                                     ("text", prop msg "content")]])]))
    /\ prop (payload c) "previous_response_id"
       = (if truthy (prop (coalesce parsed (VObj [])) "previous_response_id")
          then prop (coalesce parsed (VObj [])) "previous_response_id"
          else VUndefined)
    /\ prop (payload c) "messages" = VUndefined.
Proof.
  intros Hpost Hjson Hkey Hbody Hmessages Hvalid Hmodel Hresponses.
  set (model := default_to (prop (coalesce parsed (VObj [])) "model")
                           (VStr Chat.defaultModel)) in *.
  set (previous := prop (coalesce parsed (VObj [])) "previous_response_id").
  set (c := Chat.responses apiKey model (List.map Chat.input_of items)
              previous).
  assert (Hrun : exists e : FetchEnd,
             fetches (snd (Chat.handler env up req w)) = (c, e) :: fetches w).
  { unfold Chat.handler. rewrite Hpost, Hjson, Hkey, Hbody. cbv zeta.
    rewrite Hmessages, Hvalid. fold model. rewrite Hmodel, Hresponses.
    cbn [String.eqb Ascii.eqb Bool.eqb negb array_map].
    fold previous.
    unfold try_catch, bind, lift.
    match goal with
    | |- context [fetch up ?call w] => change call with c
    end.
    destruct (fetch_logged up c w) as [e He].
    exists e.
    destruct (fetch up c w) as [[r|err] w']; cbn [snd] in He; subst w'.
    - pose proof (Chat_relay_keeps_world env r (logged c e w)) as Hkeep.
      destruct (Chat.relay env r (logged c e w)) as [[resp|err] w''];
        cbn [snd] in Hkeep; subst w''; [reflexivity|].
      unfold Chat.on_fetch_error.
      destruct (err_name err =? "AbortError")%string; reflexivity.
    - unfold Chat.on_fetch_error.
      destruct (err_name err =? "AbortError")%string; reflexivity. }
  destruct Hrun as [e Hrun].
  exists c, e, (List.map Chat.input_of items).
  split; [exact Hrun|].
  split; [reflexivity|].
  split; [reflexivity|].
  split; [reflexivity|].
  split; [apply List.length_map|].
  split.
  - intros i msg Hi. rewrite nth_error_map, Hi. reflexivity.
  - unfold c, Chat.responses. cbn [payload].
    destruct (truthy previous); split; reflexivity.
Qed.

Lemma X22_chat_responses_path_witness :
  exists (c : FetchCall) (e : FetchEnd) (inputs : list value),
    fetches (snd (Chat.handler Sample.env (answering 10 200 "{}")
                    (Sample.post (VObj [("messages", VArr [hi]);
                                        ("useResponsesApi", VBool true)]))
                    world))
    = (c, e) :: fetches world
    /\ url c = "https://api.openai.com/v1/responses"
    /\ prop (payload c) "model"
       = default_to
           (prop (coalesce (VObj [("messages", VArr [hi]);
                                  ("useResponsesApi", VBool true)])
                           (VObj [])) "model")
           (VStr Chat.defaultModel)
    /\ prop (payload c) "input" = VArr inputs
    /\ List.length inputs = List.length [hi]
    /\ (forall (i : nat) (msg : value),
          nth_error [hi] i = Some msg ->
          nth_error inputs i
          = Some (VObj [("role", prop msg "role");
                        ("content",
                         VArr [VObj [("type", VStr "text");
                                     ("text", prop msg "content")]])]))
    /\ prop (payload c) "previous_response_id"
       = (if truthy (prop (coalesce (VObj [("messages", VArr [hi]);
                                           ("useResponsesApi", VBool true)])
                                    (VObj [])) "previous_response_id")
          then prop (coalesce (VObj [("messages", VArr [hi]);
                                     ("useResponsesApi", VBool true)])
                              (VObj [])) "previous_response_id"
          else VUndefined)
    /\ prop (payload c) "messages" = VUndefined.
Proof.
  apply (X22_chat_responses_path Sample.env (answering 10 200 "{}")
           (Sample.post (VObj [("messages", VArr [hi]);
                               ("useResponsesApi", VBool true)]))
           world "sk-sample"
           (VObj [("messages", VArr [hi]); ("useResponsesApi", VBool true)])
           [hi]);
    reflexivity.
Defined.

(** ** The messages sent upstream *)

Lemma Stream2_valid_messages (env : Env) (payload messages model : value) :
  Stream2.validateRequest env payload = Ok (Stream2.Valid messages model) ->
  prop (or_else payload (VObj [])) "messages" = messages.
Proof.
  unfold Stream2.validateRequest.
  destruct (prop (or_else payload (VObj [])) "messages"); try discriminate.
  destruct items as [|first others]; [discriminate|].
  destruct (Stream2.exceeds env (first :: others)) as [[|]|]; try discriminate.
  now intros [= <- _].
Qed.

(** One step along a handler's body, for the messages of its call. *)
Ltac carrying :=
  repeat first
    [ apply once_silent; solve [quiet]
    | apply once_try; [|intros; solve [quiet]]
    | apply once_bind_fetch;
      [first [intros _; reflexivity | intros Hurl; discriminate Hurl]
      | intros; solve [quiet]]
    | apply once_bind_lift; intros
    | match goal with
      | |- once _ (if ?b then _ else _) => destruct b
      | |- once _ (match ?x with _ => _ end) => destruct x
      end ].

Lemma Chat_carries (env : Env) (up : Upstream) (req : Request)
    (props : list (string * value)) :
  req_json req = Some (VObj props) ->
  once (carries (lookup "messages" props)) (Chat.handler env up req).
Proof.
  intros Hbody.
  unfold Chat.handler, Chat.relay, Chat.on_fetch_error. rewrite Hbody.
  cbv zeta. cbn [coalesce nullish prop]. carrying.
Qed.

Lemma Plain_carries (env : Env) (up : Upstream) (req : Request)
    (props : list (string * value)) :
  req_json req = Some (VObj props) ->
  once (carries (lookup "messages" props)) (Plain.handler env up req).
Proof.
  intros Hbody.
  unfold Plain.handler, Plain.relay. rewrite Hbody.
  cbv zeta. cbn [coalesce nullish prop]. carrying.
Qed.

Lemma Allow_carries (env : Env) (up : Upstream) (req : Request)
    (props : list (string * value)) :
  req_json req = Some (VObj props) ->
  once (carries (lookup "messages" props)) (Allow.handler env up req).
Proof.
  intros Hbody.
  unfold Allow.handler. rewrite Hbody.
  cbv zeta. cbn [or_else truthy prop]. carrying.
Qed.

Lemma Stream1_carries (env : Env) (up : Upstream) (req : Request)
    (props : list (string * value)) :
  req_json req = Some (VObj props) ->
  once (carries (lookup "messages" props)) (Stream1.handler env up req).
Proof.
  intros Hbody.
  unfold Stream1.handler, Stream1.upstream_error. rewrite Hbody.
  cbv zeta. cbn [or_else truthy]. carrying.
Qed.

Lemma App_carries (env : Env) (up : Upstream) (req : Request)
    (props : list (string * value)) :
  req_json req = Some (VObj props) ->
  once (carries (lookup "messages" props)) (App.handler env up req).
Proof.
  intros Hbody.
  unfold App.handler, App.handleOpenAIResponse. rewrite Hbody. cbv zeta.
  apply once_try; [|intros; quiet].
  do 3 (match goal with
        | |- once _ (if ?b then _ else _) =>
            destruct b; [apply once_silent; quiet|]
        end).
  destruct (credential env) as [apiKey|]; [|apply once_silent; quiet].
  apply once_bind_lift. intros [error st | messages model] Hvalid;
    [apply once_silent; quiet|].
  apply App_valid_messages in Hvalid as [items [-> Hitems]].
  apply once_bind_fetch; [|intros; quiet].
  intros _. now rewrite <- Hitems.
Qed.

Lemma Stream2_carries (env : Env) (up : Upstream) (req : Request)
    (props : list (string * value)) :
  req_json req = Some (VObj props) ->
  once (carries (lookup "messages" props)) (Stream2.handler env up req).
Proof.
  intros Hbody.
  unfold Stream2.handler, Stream2.upstream_error. rewrite Hbody. cbv zeta.
  apply once_try; [|intros; quiet].
  do 3 (match goal with
        | |- once _ (if ?b then _ else _) =>
            destruct b; [apply once_silent; quiet|]
        end).
  destruct (credential env) as [apiKey|]; [|apply once_silent; quiet].
  apply once_bind_lift. intros [error st | messages model] Hvalid;
    [apply once_silent; quiet|].
  apply Stream2_valid_messages in Hvalid.
  apply once_bind_silent; [quiet|]. intros controller.
  apply once_bind_fetch; [|intros; quiet].
  intros _. now rewrite <- Hvalid.
Qed.

(** X23: the messages are forwarded as they came.  When the body of the
    request is an object, a call to the Chat Completions endpoint carries
    as [messages] the very value of the body's [messages]: no handler
    drops, reorders or rewrites a message on that path. *)
Theorem X23_messages_are_forwarded_unchanged
    (env : Env) (up : Upstream) (req : Request) (w : World)
    (props : list (string * value)) :
  forall handler : Env -> Upstream -> Request -> M Response,
    In handler [Chat.handler; App.handler; Plain.handler; Allow.handler;
                Stream1.handler; Stream2.handler] ->
    req_json req = Some (VObj props) ->
    forall c e,
      In (c, e) (fetches (snd (handler env up req w))) ->
      In (c, e) (fetches w)
      \/ (url c = "https://api.openai.com/v1/chat/completions" ->
          prop (payload c) "messages" = lookup "messages" props).
Proof.
  intros handler Hin Hbody.
  assert (Hone : once (carries (lookup "messages" props))
                      (handler env up req)).
  { cbn [In] in Hin.
    destruct Hin as [<- | [<- | [<- | [<- | [<- | [<- | []]]]]]].
    - now apply Chat_carries.
    - now apply App_carries.
    - now apply Plain_carries.
    - now apply Allow_carries.
    - now apply Stream1_carries.
    - now apply Stream2_carries. }
  intros c e Hlog. exact (once_log _ _ w Hone c e Hlog).
Qed.

Lemma X23_messages_are_forwarded_unchanged_witness :
  req_json (Sample.post (with_messages [hi; hi]))
  = Some (VObj [("messages", VArr [hi; hi])])
  /\ forall c e,
       In (c, e)
          (fetches (snd (Stream2.handler Sample.env (answering 10 200 "{}")
                           (Sample.post (with_messages [hi; hi])) world))) ->
       In (c, e) (fetches world)
       \/ (url c = "https://api.openai.com/v1/chat/completions" ->
           prop (payload c) "messages"
           = lookup "messages" [("messages", VArr [hi; hi])]).
Proof.
  split; [reflexivity|].
  apply (X23_messages_are_forwarded_unchanged Sample.env
           (answering 10 200 "{}") (Sample.post (with_messages [hi; hi]))
           world [("messages", VArr [hi; hi])] Stream2.handler).
  - cbn. tauto.
  - reflexivity.
Defined.

(** ** Transport failures outside [api/chat.js] *)

Import Failures.

Lemma not_longer {A : Type} (x : A) (l : list A) : l <> x :: l.
Proof.
  intros Heq. apply (f_equal (@List.length A)) in Heq. cbn in Heq. lia.
Qed.

Lemma fetch_ends (up : Upstream) (c : FetchCall) (w : World) :
  (exists r, fetch up c w = (Ok r, logged c Answered w))
  \/ (exists e, fetch up c w = (Throw e, logged c Failed w)
                /\ settles up c = Fails e)
  \/ (exists e, fetch up c w = (Throw e, logged c Aborted w)).
Proof.
  unfold fetch, settle.
  destruct (signal c) as [s|].
  - destruct (deadline s <? latency up c).
    + right. right. now eexists.
    + destruct (settles up c) as [r|e];
        [left; now exists r | right; left; now exists e].
  - destruct (settles up c) as [r|e];
      [left; now exists r | right; left; now exists e].
Qed.

Section FailingAlong.

Context (up : Upstream) {A : Type}.

Lemma failing_silent (m : M A) : silent m -> failing up m.
Proof.
  intros Hm w c Hlog. rewrite Hm in Hlog. now apply not_longer in Hlog.
Qed.

Lemma failing_bind_fetch (c : FetchCall) (k : UpResponse -> M A) :
  (forall r, silent (k r)) -> failing up (bind (fetch up c) k).
Proof.
  intros Hk w c' Hlog. unfold bind in *.
  destruct (fetch_ends up c w) as [[r Hr] | [[e [He Hfails]] | [e He]]].
  - rewrite Hr in Hlog. rewrite (Hk r) in Hlog. discriminate Hlog.
  - rewrite He in *. cbn in Hlog. injection Hlog as <-.
    exists e. now split.
  - rewrite He in Hlog. discriminate Hlog.
Qed.

Lemma failing_bind_lift {B : Type} (r : result B) (k : B -> M A) :
  (forall b, r = Ok b -> failing up (k b)) -> failing up (bind (lift r) k).
Proof.
  intros Hk w c Hlog. unfold bind, lift in *. destruct r as [b|e].
  - now apply (Hk b eq_refl).
  - cbn in Hlog. now apply not_longer in Hlog.
Qed.

Lemma failing_bind_silent {B : Type} (m : M B) (k : B -> M A) :
  silent m -> (forall b, failing up (k b)) -> failing up (bind m k).
Proof.
  intros Hm Hk w c Hlog. unfold bind in *. specialize (Hm w).
  destruct (m w) as [[b|e] w']; cbn [snd] in *.
  - rewrite <- Hm in Hlog. now apply Hk.
  - rewrite Hm in Hlog. now apply not_longer in Hlog.
Qed.

(** The failure reaches the [catch] clause, whose answer is the
    handler's. *)
Lemma failing_try (m : M A) (h : JsError -> M A) (w : World) (c : FetchCall) :
  failing up m ->
  (forall e, silent (h e)) ->
  fetches (snd (try_catch m h w)) = (c, Failed) :: fetches w ->
  exists (e : JsError) (w' : World),
    settles up c = Fails e /\ try_catch m h w = h e w'.
Proof.
  intros Hm Hh Hlog. unfold try_catch in *. specialize (Hm w c).
  destruct (m w) as [[a|e] w']; cbn [fst snd] in *.
  - destruct (Hm Hlog) as [e [He _]]. discriminate He.
  - rewrite (Hh e w') in Hlog. destruct (Hm Hlog) as [e' [[= <-] Hfails]].
    now exists e, w'.
Qed.

End FailingAlong.

(** One step along the body of a handler's [try]. *)
Ltac failing_along :=
  repeat first
    [ apply failing_silent; solve [quiet]
    | apply failing_bind_fetch; intros; solve [quiet]
    | apply failing_bind_lift; intros
    | apply failing_bind_silent; [solve [quiet] | intros]
    | match goal with
      | |- failing _ (if ?b then _ else _) => destruct b
      | |- failing _ (match ?x with _ => _ end) => destruct x
      end ].

(** The answer of the catch-all of [part_000], of the first handler of
    [part_002] and of [part_001]. *)
Lemma caught_answer (e : JsError) (fallback : string) (h : headers)
    (w : World) :
  exists resp : Response,
    lift (new_Response
            (json_body
               (VObj [("error",
                       or_else (VStr (err_message e)) (VStr fallback))]))
            500 h) w
    = (Ok resp, w)
    /\ status resp = 500
    /\ error_of resp
       = VStr (if (err_message e =? "")%string then fallback
               else err_message e).
Proof.
  eexists. split; [reflexivity|]. split; [reflexivity|].
  unfold error_of, or_else. cbn.
  now destruct (err_message e =? "")%string.
Qed.

(** X24: outside [api/chat.js], a transport failure of the upstream call
    reaches the handler's [catch].  In [part_000], in the first handler of
    [part_002] and in [part_001] the answer is always 500, and its [error]
    is the failure's own message (a fixed text if the message is empty).
    So it is in [scripts/app.js] and in the streaming handler of
    [part_002], unless the failure bears the name [TimeoutError] or
    [AbortError]: then, and only then, these two answer 408 and
    [Request timeout].  The answer is never the 503 of [api/chat.js]. *)
Theorem X24_transport_failure_reaches_the_catch
    (env : Env) (up : Upstream) (req : Request) (w : World) (c : FetchCall) :
  forall (handler : Env -> Upstream -> Request -> M Response)
         (fallback : string) (tells_timeouts : bool),
    In (handler, fallback, tells_timeouts)
       [(App.handler, "Unknown server error", true);
        (Plain.handler, "Unknown server error", false);
        (Allow.handler, "Unknown server error", false);
        (Stream1.handler, "Unknown server error during request processing",
         false);
        (Stream2.handler, "Unknown server error", true)] ->
    fetches (snd (handler env up req w)) = (c, Failed) :: fetches w ->
    exists (failure : JsError) (resp : Response),
      settles up c = Fails failure
      /\ fst (handler env up req w) = Ok resp
      /\ (if tells_timeouts
             && ((err_name failure =? "TimeoutError")%string
                 || (err_name failure =? "AbortError")%string)
          then status resp = 408 /\ error_of resp = VStr "Request timeout"
          else status resp = 500
               /\ error_of resp
                  = VStr (if (err_message failure =? "")%string then fallback
                          else err_message failure)).
Proof.
  intros handler fallback tells_timeouts Hin Hlog. cbn [In] in Hin.
  destruct Hin as [[= <- <- <-] | [[= <- <- <-] | [[= <- <- <-]
                  | [[= <- <- <-] | [[= <- <- <-] | []]]]]]; cbn [andb].
  - unfold App.handler in *. cbv zeta in *.
    apply (failing_try up) in Hlog as [e [w' [Hfails Hrun]]].
    + exists e. rewrite Hrun. unfold App.handleError, App.createResponse.
      destruct ((err_name e =? "TimeoutError")%string
                || (err_name e =? "AbortError")%string);
        eexists; (split; [exact Hfails|]); (split; [reflexivity|]);
        (split; [reflexivity|]).
      * reflexivity.
      * unfold error_of. cbn. now destruct (err_message e =? "")%string.
    + unfold App.handleOpenAIResponse. failing_along.
    + intros e. quiet.
  - unfold Plain.handler in *. cbv zeta in *.
    apply (failing_try up) in Hlog as [e [w' [Hfails Hrun]]].
    + exists e. rewrite Hrun. unfold Plain.json.
      destruct (caught_answer e "Unknown server error"
                  (extend [("content-type", "application/json; charset=utf-8");
                           ("access-control-allow-origin", "*")] []) w')
        as [resp [-> [Hstatus Herror]]].
      exists resp. now repeat split.
    + unfold Plain.relay. failing_along.
    + intros e. quiet.
  - unfold Allow.handler in *. cbv zeta in *.
    apply (failing_try up) in Hlog as [e [w' [Hfails Hrun]]].
    + exists e. rewrite Hrun. unfold Allow.json.
      destruct (caught_answer e "Unknown server error"
                  (extend [("content-type", "application/json; charset=utf-8");
                           ("access-control-allow-origin", "*")] []) w')
        as [resp [-> [Hstatus Herror]]].
      exists resp. now repeat split.
    + failing_along.
    + intros e. quiet.
  - unfold Stream1.handler in *. cbv zeta in *.
    destruct ((if (req_method req =? "")%string then "GET"
               else req_method req) =? "OPTIONS")%string.
    { cbn in Hlog. now apply not_longer in Hlog. }
    apply (failing_try up) in Hlog as [e [w' [Hfails Hrun]]].
    + exists e. rewrite Hrun.
      destruct (caught_answer e
                  "Unknown server error during request processing"
                  (extend [("Content-Type", "application/json");
                           ("Access-Control-Allow-Origin", "*")] []) w')
        as [resp [Hresp [Hstatus Herror]]].
      exists resp. repeat split; try assumption.
      exact (f_equal fst Hresp).
    + unfold Stream1.upstream_error. failing_along.
    + intros e. quiet.
  - unfold Stream2.handler in *. cbv zeta in *.
    apply (failing_try up) in Hlog as [e [w' [Hfails Hrun]]].
    + exists e. rewrite Hrun.
      unfold Stream2.handleError, Stream2.createJsonResponse.
      destruct ((err_name e =? "TimeoutError")%string
                || (err_name e =? "AbortError")%string);
        eexists; (split; [exact Hfails|]); (split; [reflexivity|]);
        (split; [reflexivity|]).
      * reflexivity.
      * unfold error_of. cbn. now destruct (err_message e =? "")%string.
    + unfold Stream2.upstream_error. failing_along.
    + intros e. quiet.
Qed.

Lemma X24_transport_failure_reaches_the_catch_witness :
  exists (failure : JsError) (resp : Response),
    settles (mkUpstream (fun _ => 5)
               (fun _ => Fails (mkError "TimeoutError" "socket timed out")))
            (App.createOpenAIRequest "sk-sample" (VStr "gpt-4.1-mini")
               (VArr [hi]) (Some (TimeoutIn 30000)))
    = Fails failure
    /\ fst (App.handler Sample.env
              (mkUpstream (fun _ => 5)
                 (fun _ => Fails (mkError "TimeoutError" "socket timed out")))
              (Sample.post (with_messages [hi])) world)
       = Ok resp
    /\ (if true
           && ((err_name failure =? "TimeoutError")%string
               || (err_name failure =? "AbortError")%string)
        then status resp = 408 /\ error_of resp = VStr "Request timeout"
        else status resp = 500
             /\ error_of resp
                = VStr (if (err_message failure =? "")%string
                        then "Unknown server error"
                        else err_message failure)).
Proof.
  apply (X24_transport_failure_reaches_the_catch Sample.env
           (mkUpstream (fun _ => 5)
              (fun _ => Fails (mkError "TimeoutError" "socket timed out")))
           (Sample.post (with_messages [hi])) world
           (App.createOpenAIRequest "sk-sample" (VStr "gpt-4.1-mini")
              (VArr [hi]) (Some (TimeoutIn 30000)))
           App.handler "Unknown server error" true).
  - cbn. tauto.
  - reflexivity.
Defined.
